(** * A shallow embedding of the 65C816 core (src/cpu.cpp)

    The register file, the flag logic, the interrupt arbiter, the
    addressing-mode calculators, the ALU primitives and the 256-entry
    dispatcher of [Cpu::PImpl] are transcribed as a state monad over a
    machine made of the CPU members, the host behind the three callbacks
    and a log of the callbacks invoked so far. *)

From Stdlib Require Import ZArith List Bool Lia.
Import ListNotations.
Local Open Scope Z_scope.

(** ** Fixed-width integers

    Registers are kept as [Z]; every assignment to a [uintN_t] wraps
    explicitly, and a conversion to a signed type is written out. *)

Definition u8 (x : Z) : Z := x mod 256.
Definition u16 (x : Z) : Z := x mod 65536.
Definition u32 (x : Z) : Z := x mod 4294967296.
Definition s8 (x : Z) : Z := let v := u8 x in if v <? 128 then v else v - 256.
Definition s16 (x : Z) : Z := let v := u16 x in if v <? 32768 then v else v - 65536.

(** [x != 0] for an integer used as a condition. *)
Definition nz (x : Z) : bool := negb (x =? 0).

(** ** The members of [Cpu::PImpl] *)

Record Cpu : Type := mkCpu {
  m_a : Z; m_x : Z; m_y : Z; m_sp : Z; m_pc : Z; m_dp : Z;
  m_k : Z; m_db : Z;
  m_c : bool; m_z : bool; m_v : bool; m_n : bool;
  m_i : bool; m_d : bool; m_xf : bool; m_mf : bool; m_e : bool;
  m_waiting : bool; m_stopped : bool;
  m_irqWanted : bool; m_nmiWanted : bool; m_intWanted : bool;
  m_resetWanted : bool
}.

Definition with_a (v : Z) (s : Cpu) : Cpu :=
  mkCpu v (m_x s) (m_y s) (m_sp s) (m_pc s) (m_dp s) (m_k s) (m_db s)
    (m_c s) (m_z s) (m_v s) (m_n s) (m_i s) (m_d s) (m_xf s) (m_mf s) (m_e s)
    (m_waiting s) (m_stopped s) (m_irqWanted s) (m_nmiWanted s) (m_intWanted s)
    (m_resetWanted s).
Definition with_x (v : Z) (s : Cpu) : Cpu :=
  mkCpu (m_a s) v (m_y s) (m_sp s) (m_pc s) (m_dp s) (m_k s) (m_db s)
    (m_c s) (m_z s) (m_v s) (m_n s) (m_i s) (m_d s) (m_xf s) (m_mf s) (m_e s)
    (m_waiting s) (m_stopped s) (m_irqWanted s) (m_nmiWanted s) (m_intWanted s)
    (m_resetWanted s).
Definition with_y (v : Z) (s : Cpu) : Cpu :=
  mkCpu (m_a s) (m_x s) v (m_sp s) (m_pc s) (m_dp s) (m_k s) (m_db s)
    (m_c s) (m_z s) (m_v s) (m_n s) (m_i s) (m_d s) (m_xf s) (m_mf s) (m_e s)
    (m_waiting s) (m_stopped s) (m_irqWanted s) (m_nmiWanted s) (m_intWanted s)
    (m_resetWanted s).
Definition with_sp (v : Z) (s : Cpu) : Cpu :=
  mkCpu (m_a s) (m_x s) (m_y s) v (m_pc s) (m_dp s) (m_k s) (m_db s)
    (m_c s) (m_z s) (m_v s) (m_n s) (m_i s) (m_d s) (m_xf s) (m_mf s) (m_e s)
    (m_waiting s) (m_stopped s) (m_irqWanted s) (m_nmiWanted s) (m_intWanted s)
    (m_resetWanted s).
Definition with_pc (v : Z) (s : Cpu) : Cpu :=
  mkCpu (m_a s) (m_x s) (m_y s) (m_sp s) v (m_dp s) (m_k s) (m_db s)
    (m_c s) (m_z s) (m_v s) (m_n s) (m_i s) (m_d s) (m_xf s) (m_mf s) (m_e s)
    (m_waiting s) (m_stopped s) (m_irqWanted s) (m_nmiWanted s) (m_intWanted s)
    (m_resetWanted s).
Definition with_dp (v : Z) (s : Cpu) : Cpu :=
  mkCpu (m_a s) (m_x s) (m_y s) (m_sp s) (m_pc s) v (m_k s) (m_db s)
    (m_c s) (m_z s) (m_v s) (m_n s) (m_i s) (m_d s) (m_xf s) (m_mf s) (m_e s)
    (m_waiting s) (m_stopped s) (m_irqWanted s) (m_nmiWanted s) (m_intWanted s)
    (m_resetWanted s).
Definition with_k (v : Z) (s : Cpu) : Cpu :=
  mkCpu (m_a s) (m_x s) (m_y s) (m_sp s) (m_pc s) (m_dp s) v (m_db s)
    (m_c s) (m_z s) (m_v s) (m_n s) (m_i s) (m_d s) (m_xf s) (m_mf s) (m_e s)
    (m_waiting s) (m_stopped s) (m_irqWanted s) (m_nmiWanted s) (m_intWanted s)
    (m_resetWanted s).
Definition with_db (v : Z) (s : Cpu) : Cpu :=
  mkCpu (m_a s) (m_x s) (m_y s) (m_sp s) (m_pc s) (m_dp s) (m_k s) v
    (m_c s) (m_z s) (m_v s) (m_n s) (m_i s) (m_d s) (m_xf s) (m_mf s) (m_e s)
    (m_waiting s) (m_stopped s) (m_irqWanted s) (m_nmiWanted s) (m_intWanted s)
    (m_resetWanted s).
Definition with_c (b : bool) (s : Cpu) : Cpu :=
  mkCpu (m_a s) (m_x s) (m_y s) (m_sp s) (m_pc s) (m_dp s) (m_k s) (m_db s)
    b (m_z s) (m_v s) (m_n s) (m_i s) (m_d s) (m_xf s) (m_mf s) (m_e s)
    (m_waiting s) (m_stopped s) (m_irqWanted s) (m_nmiWanted s) (m_intWanted s)
    (m_resetWanted s).
Definition with_z (b : bool) (s : Cpu) : Cpu :=
  mkCpu (m_a s) (m_x s) (m_y s) (m_sp s) (m_pc s) (m_dp s) (m_k s) (m_db s)
    (m_c s) b (m_v s) (m_n s) (m_i s) (m_d s) (m_xf s) (m_mf s) (m_e s)
    (m_waiting s) (m_stopped s) (m_irqWanted s) (m_nmiWanted s) (m_intWanted s)
    (m_resetWanted s).
Definition with_v (b : bool) (s : Cpu) : Cpu :=
  mkCpu (m_a s) (m_x s) (m_y s) (m_sp s) (m_pc s) (m_dp s) (m_k s) (m_db s)
    (m_c s) (m_z s) b (m_n s) (m_i s) (m_d s) (m_xf s) (m_mf s) (m_e s)
    (m_waiting s) (m_stopped s) (m_irqWanted s) (m_nmiWanted s) (m_intWanted s)
    (m_resetWanted s).
Definition with_n (b : bool) (s : Cpu) : Cpu :=
  mkCpu (m_a s) (m_x s) (m_y s) (m_sp s) (m_pc s) (m_dp s) (m_k s) (m_db s)
    (m_c s) (m_z s) (m_v s) b (m_i s) (m_d s) (m_xf s) (m_mf s) (m_e s)
    (m_waiting s) (m_stopped s) (m_irqWanted s) (m_nmiWanted s) (m_intWanted s)
    (m_resetWanted s).
Definition with_i (b : bool) (s : Cpu) : Cpu :=
  mkCpu (m_a s) (m_x s) (m_y s) (m_sp s) (m_pc s) (m_dp s) (m_k s) (m_db s)
    (m_c s) (m_z s) (m_v s) (m_n s) b (m_d s) (m_xf s) (m_mf s) (m_e s)
    (m_waiting s) (m_stopped s) (m_irqWanted s) (m_nmiWanted s) (m_intWanted s)
    (m_resetWanted s).
Definition with_d (b : bool) (s : Cpu) : Cpu :=
  mkCpu (m_a s) (m_x s) (m_y s) (m_sp s) (m_pc s) (m_dp s) (m_k s) (m_db s)
    (m_c s) (m_z s) (m_v s) (m_n s) (m_i s) b (m_xf s) (m_mf s) (m_e s)
    (m_waiting s) (m_stopped s) (m_irqWanted s) (m_nmiWanted s) (m_intWanted s)
    (m_resetWanted s).
Definition with_xf (b : bool) (s : Cpu) : Cpu :=
  mkCpu (m_a s) (m_x s) (m_y s) (m_sp s) (m_pc s) (m_dp s) (m_k s) (m_db s)
    (m_c s) (m_z s) (m_v s) (m_n s) (m_i s) (m_d s) b (m_mf s) (m_e s)
    (m_waiting s) (m_stopped s) (m_irqWanted s) (m_nmiWanted s) (m_intWanted s)
    (m_resetWanted s).
Definition with_mf (b : bool) (s : Cpu) : Cpu :=
  mkCpu (m_a s) (m_x s) (m_y s) (m_sp s) (m_pc s) (m_dp s) (m_k s) (m_db s)
    (m_c s) (m_z s) (m_v s) (m_n s) (m_i s) (m_d s) (m_xf s) b (m_e s)
    (m_waiting s) (m_stopped s) (m_irqWanted s) (m_nmiWanted s) (m_intWanted s)
    (m_resetWanted s).
Definition with_e (b : bool) (s : Cpu) : Cpu :=
  mkCpu (m_a s) (m_x s) (m_y s) (m_sp s) (m_pc s) (m_dp s) (m_k s) (m_db s)
    (m_c s) (m_z s) (m_v s) (m_n s) (m_i s) (m_d s) (m_xf s) (m_mf s) b
    (m_waiting s) (m_stopped s) (m_irqWanted s) (m_nmiWanted s) (m_intWanted s)
    (m_resetWanted s).
Definition with_waiting (b : bool) (s : Cpu) : Cpu :=
  mkCpu (m_a s) (m_x s) (m_y s) (m_sp s) (m_pc s) (m_dp s) (m_k s) (m_db s)
    (m_c s) (m_z s) (m_v s) (m_n s) (m_i s) (m_d s) (m_xf s) (m_mf s) (m_e s)
    b (m_stopped s) (m_irqWanted s) (m_nmiWanted s) (m_intWanted s)
    (m_resetWanted s).
Definition with_stopped (b : bool) (s : Cpu) : Cpu :=
  mkCpu (m_a s) (m_x s) (m_y s) (m_sp s) (m_pc s) (m_dp s) (m_k s) (m_db s)
    (m_c s) (m_z s) (m_v s) (m_n s) (m_i s) (m_d s) (m_xf s) (m_mf s) (m_e s)
    (m_waiting s) b (m_irqWanted s) (m_nmiWanted s) (m_intWanted s)
    (m_resetWanted s).
Definition with_irqWanted (b : bool) (s : Cpu) : Cpu :=
  mkCpu (m_a s) (m_x s) (m_y s) (m_sp s) (m_pc s) (m_dp s) (m_k s) (m_db s)
    (m_c s) (m_z s) (m_v s) (m_n s) (m_i s) (m_d s) (m_xf s) (m_mf s) (m_e s)
    (m_waiting s) (m_stopped s) b (m_nmiWanted s) (m_intWanted s)
    (m_resetWanted s).
Definition with_nmiWanted (b : bool) (s : Cpu) : Cpu :=
  mkCpu (m_a s) (m_x s) (m_y s) (m_sp s) (m_pc s) (m_dp s) (m_k s) (m_db s)
    (m_c s) (m_z s) (m_v s) (m_n s) (m_i s) (m_d s) (m_xf s) (m_mf s) (m_e s)
    (m_waiting s) (m_stopped s) (m_irqWanted s) b (m_intWanted s)
    (m_resetWanted s).
Definition with_intWanted (b : bool) (s : Cpu) : Cpu :=
  mkCpu (m_a s) (m_x s) (m_y s) (m_sp s) (m_pc s) (m_dp s) (m_k s) (m_db s)
    (m_c s) (m_z s) (m_v s) (m_n s) (m_i s) (m_d s) (m_xf s) (m_mf s) (m_e s)
    (m_waiting s) (m_stopped s) (m_irqWanted s) (m_nmiWanted s) b
    (m_resetWanted s).
Definition with_resetWanted (b : bool) (s : Cpu) : Cpu :=
  mkCpu (m_a s) (m_x s) (m_y s) (m_sp s) (m_pc s) (m_dp s) (m_k s) (m_db s)
    (m_c s) (m_z s) (m_v s) (m_n s) (m_i s) (m_d s) (m_xf s) (m_mf s) (m_e s)
    (m_waiting s) (m_stopped s) (m_irqWanted s) (m_nmiWanted s) (m_intWanted s)
    b.

(** ** The host behind the three callbacks

    [ReadHandler], [WriteHandler] and [IdleHandler] are arbitrary host
    code: a host is any type of states with the three operations.  A read
    may change the host (memory-mapped devices), so it returns the new
    host state together with the byte. *)

Class Bus (H : Type) : Type := {
  bus_read : Z -> H -> Z * H;
  bus_write : Z -> Z -> H -> H;
  bus_idle : bool -> H -> H
}.

(** One callback invocation, with its arguments and, for a read, the byte
    the handler returned. *)
Inductive Event : Type :=
| EvRead (address value : Z)
| EvWrite (address value : Z)
| EvIdle (isWaiting : bool).

Definition ev_address (e : Event) : option Z :=
  match e with
  | EvRead a _ => Some a
  | EvWrite a _ => Some a
  | EvIdle _ => None
  end.

(** The CPU together with its host; [log] holds the callbacks invoked so
    far, the most recent first. *)
Record Machine (H : Type) : Type := mkMachine {
  cpu : Cpu;
  host : H;
  log : list Event
}.
Arguments mkMachine {H} _ _ _.
Arguments cpu {H} _.
Arguments host {H} _.
Arguments log {H} _.

(** The callbacks in the order they were invoked. *)
Definition trace {H : Type} (m : Machine H) : list Event := rev (log m).

(** ** The state monad the member functions run in *)

Definition M (H A : Type) : Type := Machine H -> A * Machine H.

Definition ret {H A : Type} (a : A) : M H A := fun m => (a, m).

Definition bind {H A B : Type} (c : M H A) (k : A -> M H B) : M H B :=
  fun m => let r := c m in k (fst r) (snd r).

Definition exec {H A : Type} (c : M H A) (m : Machine H) : Machine H := snd (c m).
Definition eval {H A : Type} (c : M H A) (m : Machine H) : A := fst (c m).

Declare Scope cpu_scope.
Delimit Scope cpu_scope with cpu.
Notation "x <- c ;; k" := (bind c (fun x => k))
  (at level 61, c at next level, right associativity) : cpu_scope.
Notation "c ;; k" := (bind c (fun _ => k))
  (at level 61, right associativity) : cpu_scope.
Local Open Scope cpu_scope.

(** Reading a member, and assigning one through its update function. *)
Definition get {H A : Type} (f : Cpu -> A) : M H A := fun m => (f (cpu m), m).
Definition set {H A : Type} (upd : A -> Cpu -> Cpu) (v : A) : M H unit :=
  fun m => (tt, mkMachine (upd v (cpu m)) (host m) (log m)).
Definition when {H : Type} (b : bool) (c : M H unit) : M H unit :=
  if b then c else ret tt.

Section Core.

Context {H : Type} {HB : Bus H}.
Local Abbreviation M := (M H).

(** *** Bus *)

(** [uint8_t Read(uint32_t address)]: the handler's result is a byte. *)
Definition Read (address : Z) : M Z :=
  fun m => let r := bus_read address (host m) in
           (u8 (fst r), mkMachine (cpu m) (snd r) (EvRead address (u8 (fst r)) :: log m)).

(** [void Write(uint32_t address, uint8_t value)]: the value is converted
    to a byte at the call. *)
Definition Write (address value : Z) : M unit :=
  fun m => (tt, mkMachine (cpu m) (bus_write address (u8 value) (host m))
                  (EvWrite address (u8 value) :: log m)).

Definition Idle : M unit :=
  fun m => (tt, mkMachine (cpu m) (bus_idle false (host m)) (EvIdle false :: log m)).

Definition IdleWait : M unit :=
  fun m => (tt, mkMachine (cpu m) (bus_idle true (host m)) (EvIdle true :: log m)).

(** *** Interrupt poll and opcode fetch *)

Definition CheckInterrupts : M unit :=
  nmi <- get m_nmiWanted ;; irq <- get m_irqWanted ;; i <- get m_i ;;
  set with_intWanted (nmi || (irq && negb i)).

(** [(static_cast<uint32_t>(m_k) << 16) | m_pc] *)
Definition ProgramAddress : M Z :=
  k <- get m_k ;; pc <- get m_pc ;; ret (Z.lor (Z.shiftl k 16) pc).

(** [(static_cast<uint32_t>(m_k) << 16) | m_pc++] *)
Definition NextProgramAddress : M Z :=
  adr <- ProgramAddress ;;
  pc <- get m_pc ;; set with_pc (u16 (pc + 1)) ;;
  ret adr.

Definition ReadOpcode : M Z :=
  adr <- NextProgramAddress ;; Read adr.

Definition ReadOpcodeWord (intCheck : bool) : M Z :=
  low <- ReadOpcode ;;
  when intCheck CheckInterrupts ;;
  high <- ReadOpcode ;;
  ret (u16 (Z.lor low (Z.shiftl high 8))).

(** *** Flags *)

Definition flag_bit (b : bool) (mask : Z) : Z := if b then mask else 0.

Definition GetFlags : M Z :=
  n <- get m_n ;; v <- get m_v ;; mf <- get m_mf ;; xf <- get m_xf ;;
  d <- get m_d ;; i <- get m_i ;; z <- get m_z ;; c <- get m_c ;;
  let val := 0 in
  let val := Z.lor val (flag_bit n 0x80) in
  let val := Z.lor val (flag_bit v 0x40) in
  let val := Z.lor val (flag_bit mf 0x20) in
  let val := Z.lor val (flag_bit xf 0x10) in
  let val := Z.lor val (flag_bit d 0x08) in
  let val := Z.lor val (flag_bit i 0x04) in
  let val := Z.lor val (flag_bit z 0x02) in
  let val := Z.lor val (flag_bit c 0x01) in
  ret val.

Definition SetFlags (val : Z) : M unit :=
  set with_n (nz (Z.land val 0x80)) ;;
  set with_v (nz (Z.land val 0x40)) ;;
  set with_d (nz (Z.land val 0x08)) ;;
  set with_i (nz (Z.land val 0x04)) ;;
  set with_z (nz (Z.land val 0x02)) ;;
  set with_c (nz (Z.land val 0x01)) ;;
  e <- get m_e ;;
  (if negb e then
     set with_mf (nz (Z.land val 0x20)) ;;
     set with_xf (nz (Z.land val 0x10))
   else
     set with_mf true ;;
     set with_xf true) ;;
  xf <- get m_xf ;;
  when xf (x <- get m_x ;; set with_x (Z.land x 0xff) ;;
           y <- get m_y ;; set with_y (Z.land y 0xff)).

(** [void SetZnFlags(uint16_t value, bool isByte)] *)
Definition SetZnFlags (value : Z) (isByte : bool) : M unit :=
  let value := u16 value in
  if isByte then
    set with_z (Z.land value 0xff =? 0) ;;
    set with_n (nz (Z.land value 0x80))
  else
    set with_z (value =? 0) ;;
    set with_n (nz (Z.land value 0x8000)).

(** *** Stack *)

(** [if (m_e) m_sp = (m_sp & 0xff) | 0x100;] *)
Definition WrapStack : M unit :=
  e <- get m_e ;;
  when e (sp <- get m_sp ;; set with_sp (Z.lor (Z.land sp 0xff) 0x100)).

(** [void PushByte(uint8_t value)] *)
Definition PushByte (value : Z) : M unit :=
  sp <- get m_sp ;; Write sp value ;;
  sp <- get m_sp ;; set with_sp (u16 (sp - 1)) ;;
  WrapStack.

Definition PullByte : M Z :=
  sp <- get m_sp ;; set with_sp (u16 (sp + 1)) ;;
  WrapStack ;;
  sp <- get m_sp ;; Read sp.

(** [void PushWord(uint16_t value, bool intCheck)] *)
Definition PushWord (value : Z) (intCheck : bool) : M unit :=
  let value := u16 value in
  PushByte (Z.shiftr value 8) ;;
  when intCheck CheckInterrupts ;;
  PushByte (Z.land value 0xff).

Definition PullWord (intCheck : bool) : M Z :=
  low <- PullByte ;;
  when intCheck CheckInterrupts ;;
  high <- PullByte ;;
  ret (u16 (Z.lor low (Z.shiftl high 8))).

(** *** Memory access *)

Definition ReadWord (adrL adrH : Z) (intCheck : bool) : M Z :=
  low <- Read adrL ;;
  when intCheck CheckInterrupts ;;
  high <- Read adrH ;;
  ret (u16 (Z.lor low (Z.shiftl high 8))).

(** [void WriteWord(uint32_t adrL, uint32_t adrH, uint16_t value, bool
    reversed, bool intCheck)] *)
Definition WriteWord (adrL adrH value : Z) (reversed intCheck : bool) : M unit :=
  let value := u16 value in
  if reversed then
    Write adrH (Z.shiftr value 8) ;;
    when intCheck CheckInterrupts ;;
    Write adrL (Z.land value 0xff)
  else
    Write adrL (Z.land value 0xff) ;;
    when intCheck CheckInterrupts ;;
    Write adrH (Z.shiftr value 8).

Definition DoBranch (condition : bool) : M unit :=
  when (negb condition) CheckInterrupts ;;
  value <- ReadOpcode ;;
  when condition
    (CheckInterrupts ;;
     Idle ;;
     pc <- get m_pc ;; set with_pc (u16 (pc + s8 value))).

(** *** Interrupt service *)

Definition DoInterrupt : M unit :=
  Idle ;;
  e <- get m_e ;;
  when (negb e) (k <- get m_k ;; PushByte k) ;;
  pc <- get m_pc ;; PushWord pc false ;;
  f <- GetFlags ;;
  let flags := u8 (Z.land f 0xEF) in
  PushByte flags ;;
  set with_i true ;;
  set with_d false ;;
  set with_k 0 ;;
  set with_intWanted false ;;
  e <- get m_e ;; nmi <- get m_nmiWanted ;;
  let vectorL := if e then (if nmi then 0xfffa else 0xfffe)
                 else (if nmi then 0xffea else 0xffee) in
  let vectorH := if e then (if nmi then 0xfffb else 0xffff)
                 else (if nmi then 0xffeb else 0xffef) in
  set with_nmiWanted false ;;
  pc <- ReadWord vectorL vectorH false ;;
  set with_pc pc.

(** *** Addressing modes *)

(** [if (m_dp & 0xff) Idle();] *)
Definition DpIdle : M unit :=
  dp <- get m_dp ;; when (nz (Z.land dp 0xff)) Idle.

Definition AdrImp : M unit :=
  CheckInterrupts ;;
  int <- get m_intWanted ;;
  if int then (adr <- ProgramAddress ;; _ <- Read adr ;; ret tt) else Idle.

Definition AdrImm (xFlag : bool) : M (Z * Z) :=
  xf <- get m_xf ;; mf <- get m_mf ;;
  let is8bit := (xFlag && xf) || (negb xFlag && mf) in
  low <- NextProgramAddress ;;
  if negb is8bit then
    high <- NextProgramAddress ;; ret (low, high)
  else ret (low, 0).

Definition AdrDp : M (Z * Z) :=
  adr <- ReadOpcode ;; DpIdle ;;
  dp <- get m_dp ;;
  let low := Z.land (dp + adr) 0xffff in
  ret (low, Z.land (low + 1) 0xffff).

Definition AdrDpx : M (Z * Z) :=
  adr <- ReadOpcode ;; DpIdle ;; Idle ;;
  dp <- get m_dp ;; x <- get m_x ;;
  let low := Z.land (dp + adr + x) 0xffff in
  ret (low, Z.land (low + 1) 0xffff).

Definition AdrDpy : M (Z * Z) :=
  adr <- ReadOpcode ;; DpIdle ;; Idle ;;
  dp <- get m_dp ;; y <- get m_y ;;
  let low := Z.land (dp + adr + y) 0xffff in
  ret (low, Z.land (low + 1) 0xffff).

Definition AdrIdp : M (Z * Z) :=
  adr <- ReadOpcode ;; DpIdle ;;
  dp <- get m_dp ;;
  pointer <- ReadWord (Z.land (dp + adr) 0xffff) (Z.land (dp + adr + 1) 0xffff) false ;;
  db <- get m_db ;;
  let low := Z.shiftl db 16 + pointer in
  ret (low, Z.land (low + 1) 0xffffff).

Definition AdrIdx : M (Z * Z) :=
  adr <- ReadOpcode ;; DpIdle ;; Idle ;;
  dp <- get m_dp ;; x <- get m_x ;;
  pointer <- ReadWord (Z.land (dp + adr + x) 0xffff) (Z.land (dp + adr + x + 1) 0xffff) false ;;
  db <- get m_db ;;
  let low := Z.shiftl db 16 + pointer in
  ret (low, Z.land (low + 1) 0xffffff).

Definition AdrIdy (write : bool) : M (Z * Z) :=
  adr <- ReadOpcode ;; DpIdle ;;
  dp <- get m_dp ;;
  pointer <- ReadWord (Z.land (dp + adr) 0xffff) (Z.land (dp + adr + 1) 0xffff) false ;;
  xf <- get m_xf ;; y <- get m_y ;;
  when (write || negb xf || negb (Z.shiftr pointer 8 =? Z.shiftr (pointer + y) 8)) Idle ;;
  db <- get m_db ;;
  let low := Z.land (Z.shiftl db 16 + pointer + y) 0xffffff in
  ret (low, Z.land (low + 1) 0xffffff).

Definition AdrIdl : M (Z * Z) :=
  adr <- ReadOpcode ;; DpIdle ;;
  dp <- get m_dp ;;
  pointer <- ReadWord (Z.land (dp + adr) 0xffff) (Z.land (dp + adr + 1) 0xffff) false ;;
  bank <- Read (Z.land (dp + adr + 2) 0xffff) ;;
  let pointer := Z.lor pointer (Z.shiftl bank 16) in
  ret (pointer, Z.land (pointer + 1) 0xffffff).

Definition AdrIly : M (Z * Z) :=
  adr <- ReadOpcode ;; DpIdle ;;
  dp <- get m_dp ;;
  pointer <- ReadWord (Z.land (dp + adr) 0xffff) (Z.land (dp + adr + 1) 0xffff) false ;;
  bank <- Read (Z.land (dp + adr + 2) 0xffff) ;;
  let pointer := Z.lor pointer (Z.shiftl bank 16) in
  y <- get m_y ;;
  let low := Z.land (pointer + y) 0xffffff in
  ret (low, Z.land (low + 1) 0xffffff).

Definition AdrSr : M (Z * Z) :=
  adr <- ReadOpcode ;; Idle ;;
  sp <- get m_sp ;;
  let low := Z.land (sp + adr) 0xffff in
  ret (low, Z.land (low + 1) 0xffff).

Definition AdrIsy : M (Z * Z) :=
  adr <- ReadOpcode ;; Idle ;;
  sp <- get m_sp ;;
  pointer <- ReadWord (Z.land (sp + adr) 0xffff) (Z.land (sp + adr + 1) 0xffff) false ;;
  Idle ;;
  db <- get m_db ;; y <- get m_y ;;
  let low := Z.land (Z.shiftl db 16 + pointer + y) 0xffffff in
  ret (low, Z.land (low + 1) 0xffffff).

Definition AdrAbs : M (Z * Z) :=
  adr <- ReadOpcodeWord false ;;
  db <- get m_db ;;
  let low := Z.shiftl db 16 + adr in
  ret (low, Z.land (low + 1) 0xffffff).

Definition AdrAbx (write : bool) : M (Z * Z) :=
  adr <- ReadOpcodeWord false ;;
  xf <- get m_xf ;; x <- get m_x ;;
  when (write || negb xf || negb (Z.shiftr adr 8 =? Z.shiftr (adr + x) 8)) Idle ;;
  db <- get m_db ;;
  let low := Z.land (Z.shiftl db 16 + adr + x) 0xffffff in
  ret (low, Z.land (low + 1) 0xffffff).

Definition AdrAby (write : bool) : M (Z * Z) :=
  adr <- ReadOpcodeWord false ;;
  xf <- get m_xf ;; y <- get m_y ;;
  when (write || negb xf || negb (Z.shiftr adr 8 =? Z.shiftr (adr + y) 8)) Idle ;;
  db <- get m_db ;;
  let low := Z.land (Z.shiftl db 16 + adr + y) 0xffffff in
  ret (low, Z.land (low + 1) 0xffffff).

Definition AdrAbl : M (Z * Z) :=
  adr <- ReadOpcodeWord false ;;
  bank <- ReadOpcode ;;
  let adr := Z.lor adr (Z.shiftl bank 16) in
  ret (adr, Z.land (adr + 1) 0xffffff).

Definition AdrAlx : M (Z * Z) :=
  adr <- ReadOpcodeWord false ;;
  bank <- ReadOpcode ;;
  let adr := Z.lor adr (Z.shiftl bank 16) in
  x <- get m_x ;;
  let low := Z.land (adr + x) 0xffffff in
  ret (low, Z.land (low + 1) 0xffffff).

(** *** ALU and memory primitives *)

(** [SetZnFlags(m_a, m_mf)] and its index-register counterparts. *)
Definition SetZnA : M unit := a <- get m_a ;; mf <- get m_mf ;; SetZnFlags a mf.
Definition SetZnX : M unit := x <- get m_x ;; xf <- get m_xf ;; SetZnFlags x xf.
Definition SetZnY : M unit := y <- get m_y ;; xf <- get m_xf ;; SetZnFlags y xf.

Definition And (low high : Z) : M unit :=
  mf <- get m_mf ;;
  (if mf then
     CheckInterrupts ;; value <- Read low ;;
     a <- get m_a ;;
     set with_a (Z.lor (Z.land a 0xff00) (Z.land (Z.land a value) 0xff))
   else
     value <- ReadWord low high true ;;
     a <- get m_a ;; set with_a (Z.land a value)) ;;
  SetZnA.

Definition Ora (low high : Z) : M unit :=
  mf <- get m_mf ;;
  (if mf then
     CheckInterrupts ;; value <- Read low ;;
     a <- get m_a ;;
     set with_a (Z.lor (Z.land a 0xff00) (Z.land (Z.lor a value) 0xff))
   else
     value <- ReadWord low high true ;;
     a <- get m_a ;; set with_a (Z.lor a value)) ;;
  SetZnA.

Definition Eor (low high : Z) : M unit :=
  mf <- get m_mf ;;
  (if mf then
     CheckInterrupts ;; value <- Read low ;;
     a <- get m_a ;;
     set with_a (Z.lor (Z.land a 0xff00) (Z.land (Z.lxor a value) 0xff))
   else
     value <- ReadWord low high true ;;
     a <- get m_a ;; set with_a (Z.lxor a value)) ;;
  SetZnA.

Definition Adc (low high : Z) : M unit :=
  mf <- get m_mf ;;
  (if mf then
     CheckInterrupts ;; value <- Read low ;;
     a <- get m_a ;; c <- get m_c ;; d <- get m_d ;;
     let result :=
       if d then
         let result := u16 (Z.land a 0xf + Z.land value 0xf + Z.b2z c) in
         let result :=
           if result >? 0x9 then u16 (Z.land (result + 0x6) 0xf + 0x10) else result in
         u16 (Z.land a 0xf0 + Z.land value 0xf0 + result)
       else u16 (Z.land a 0xff + value + Z.b2z c) in
     set with_v (negb (nz (Z.land (Z.lxor a value) 0x80))
                 && nz (Z.land (Z.lxor a result) 0x80)) ;;
     let result := if d && (result >? 0x9f) then u16 (result + 0x60) else result in
     set with_c (result >? 0xff) ;;
     set with_a (Z.lor (Z.land a 0xff00) (Z.land result 0xff))
   else
     value <- ReadWord low high true ;;
     a <- get m_a ;; c <- get m_c ;; d <- get m_d ;;
     let result :=
       if d then
         let result := u32 (Z.land a 0xf + Z.land value 0xf + Z.b2z c) in
         let result :=
           if result >? 0x9 then u32 (Z.land (result + 0x6) 0xf + 0x10) else result in
         let result := u32 (Z.land a 0xf0 + Z.land value 0xf0 + result) in
         let result :=
           if result >? 0x9f then u32 (Z.land (result + 0x60) 0xff + 0x100) else result in
         let result := u32 (Z.land a 0xf00 + Z.land value 0xf00 + result) in
         let result :=
           if result >? 0x9ff then u32 (Z.land (result + 0x600) 0xfff + 0x1000) else result in
         u32 (Z.land a 0xf000 + Z.land value 0xf000 + result)
       else u32 (a + value + Z.b2z c) in
     set with_v (negb (nz (Z.land (Z.lxor a value) 0x8000))
                 && nz (Z.land (Z.lxor a result) 0x8000)) ;;
     let result := if d && (result >? 0x9fff) then u32 (result + 0x6000) else result in
     set with_c (result >? 0xffff) ;;
     set with_a (u16 result)) ;;
  SetZnA.

Definition Sbc (low high : Z) : M unit :=
  mf <- get m_mf ;;
  (if mf then
     CheckInterrupts ;; operand <- Read low ;;
     a <- get m_a ;; c <- get m_c ;; d <- get m_d ;;
     let a_val := u8 (Z.land a 0xFF) in
     let result := u16 (a_val - operand - (1 - Z.b2z c)) in
     set with_v (nz (Z.land (Z.land (Z.lxor a_val operand) (Z.lxor a_val result)) 0x80)) ;;
     let result :=
       if d then
         let temp := u16 (Z.land a_val 0x0F - Z.land operand 0x0F - (1 - Z.b2z c)) in
         let temp := if nz (Z.land temp 0x10) then u16 (temp - 6) else temp in
         let temp := u16 (Z.land a_val 0xF0 - Z.land operand 0xF0 + temp) in
         let temp := if nz (Z.land temp 0x100) then u16 (temp - 0x60) else temp in
         temp
       else result in
     set with_c (Z.land result 0xFF00 =? 0) ;;
     set with_a (Z.lor (Z.land a 0xFF00) (Z.land result 0xFF))
   else
     operand <- ReadWord low high true ;;
     a <- get m_a ;; c <- get m_c ;; d <- get m_d ;;
     let a_val := a in
     let result := u32 (a_val - operand - (1 - Z.b2z c)) in
     set with_v (nz (Z.land (Z.land (Z.lxor a_val operand) (Z.lxor a_val result)) 0x8000)) ;;
     let result :=
       if d then
         let temp := u32 (Z.land a_val 0x000F - Z.land operand 0x000F - (1 - Z.b2z c)) in
         let temp := if nz (Z.land temp 0x10) then u32 (temp - 6) else temp in
         let temp := u32 (Z.land a_val 0x00F0 - Z.land operand 0x00F0 + temp) in
         let temp := if nz (Z.land temp 0x100) then u32 (temp - 0x60) else temp in
         let temp := u32 (Z.land a_val 0x0F00 - Z.land operand 0x0F00 + temp) in
         let temp := if nz (Z.land temp 0x1000) then u32 (temp - 0x600) else temp in
         let temp := u32 (Z.land a_val 0xF000 - Z.land operand 0xF000 + temp) in
         let temp := if nz (Z.land temp 0x10000) then u32 (temp - 0x6000) else temp in
         temp
       else result in
     set with_c (Z.land result 0xFFFF0000 =? 0) ;;
     set with_a (Z.land result 0xFFFF)) ;;
  SetZnA.

Definition Cmp (low high : Z) : M unit :=
  mf <- get m_mf ;;
  result <- (if mf then
               CheckInterrupts ;; value <- Read low ;;
               a <- get m_a ;;
               let result := u32 (Z.land a 0xff - value) in
               set with_c (result <? 0x100) ;; ret result
             else
               value <- ReadWord low high true ;;
               a <- get m_a ;;
               let result := u32 (a - value) in
               set with_c (result <? 0x10000) ;; ret result) ;;
  mf <- get m_mf ;; SetZnFlags result mf.

Definition Cpx (low high : Z) : M unit :=
  xf <- get m_xf ;;
  result <- (if xf then
               CheckInterrupts ;; value <- Read low ;;
               x <- get m_x ;;
               let result := u32 (Z.land x 0xff - value) in
               set with_c (result <? 0x100) ;; ret result
             else
               value <- ReadWord low high true ;;
               x <- get m_x ;;
               let result := u32 (x - value) in
               set with_c (result <? 0x10000) ;; ret result) ;;
  xf <- get m_xf ;; SetZnFlags result xf.

Definition Cpy (low high : Z) : M unit :=
  xf <- get m_xf ;;
  result <- (if xf then
               CheckInterrupts ;; value <- Read low ;;
               y <- get m_y ;;
               let result := u32 (Z.land y 0xff - value) in
               set with_c (result <? 0x100) ;; ret result
             else
               value <- ReadWord low high true ;;
               y <- get m_y ;;
               let result := u32 (y - value) in
               set with_c (result <? 0x10000) ;; ret result) ;;
  xf <- get m_xf ;; SetZnFlags result xf.

Definition Bit (low high : Z) : M unit :=
  mf <- get m_mf ;;
  if mf then
    CheckInterrupts ;; value <- Read low ;;
    a <- get m_a ;;
    set with_z (Z.land (Z.land a 0xff) value =? 0) ;;
    set with_n (nz (Z.land value 0x80)) ;;
    set with_v (nz (Z.land value 0x40))
  else
    value <- ReadWord low high true ;;
    a <- get m_a ;;
    set with_z (Z.land a value =? 0) ;;
    set with_n (nz (Z.land value 0x8000)) ;;
    set with_v (nz (Z.land value 0x4000)).

Definition Lda (low high : Z) : M unit :=
  mf <- get m_mf ;;
  (if mf then
     CheckInterrupts ;; value <- Read low ;;
     a <- get m_a ;; set with_a (Z.lor (Z.land a 0xff00) value)
   else
     value <- ReadWord low high true ;; set with_a value) ;;
  SetZnA.

Definition Ldx (low high : Z) : M unit :=
  xf <- get m_xf ;;
  (if xf then CheckInterrupts ;; value <- Read low ;; set with_x value
   else value <- ReadWord low high true ;; set with_x value) ;;
  SetZnX.

Definition Ldy (low high : Z) : M unit :=
  xf <- get m_xf ;;
  (if xf then CheckInterrupts ;; value <- Read low ;; set with_y value
   else value <- ReadWord low high true ;; set with_y value) ;;
  SetZnY.

Definition Sta (low high : Z) : M unit :=
  mf <- get m_mf ;; a <- get m_a ;;
  if mf then CheckInterrupts ;; Write low a
  else WriteWord low high a false true.

Definition Stx (low high : Z) : M unit :=
  xf <- get m_xf ;; x <- get m_x ;;
  if xf then CheckInterrupts ;; Write low x
  else WriteWord low high x false true.

Definition Sty (low high : Z) : M unit :=
  xf <- get m_xf ;; y <- get m_y ;;
  if xf then CheckInterrupts ;; Write low y
  else WriteWord low high y false true.

Definition Stz (low high : Z) : M unit :=
  mf <- get m_mf ;;
  if mf then CheckInterrupts ;; Write low 0
  else WriteWord low high 0 false true.

Definition Ror (low high : Z) : M unit :=
  mf <- get m_mf ;;
  r <- (if mf then
          value <- Read low ;; Idle ;;
          c <- get m_c ;;
          let carry := nz (Z.land value 1) in
          let result := u16 (Z.lor (Z.shiftr value 1) (Z.shiftl (Z.b2z c) 7)) in
          CheckInterrupts ;; Write low result ;; ret (carry, result)
        else
          value <- ReadWord low high false ;; Idle ;;
          c <- get m_c ;;
          let carry := nz (Z.land value 1) in
          let result := u16 (Z.lor (Z.shiftr value 1) (Z.shiftl (Z.b2z c) 15)) in
          WriteWord low high result true true ;; ret (carry, result)) ;;
  mf <- get m_mf ;; SetZnFlags (snd r) mf ;;
  set with_c (fst r).

Definition Rol (low high : Z) : M unit :=
  mf <- get m_mf ;;
  result <- (if mf then
               value <- Read low ;; c <- get m_c ;;
               let result := u32 (Z.lor (Z.shiftl value 1) (Z.b2z c)) in
               Idle ;;
               set with_c (nz (Z.land result 0x100)) ;;
               CheckInterrupts ;; Write low result ;; ret result
             else
               value <- ReadWord low high false ;; c <- get m_c ;;
               let result := u32 (Z.lor (Z.shiftl value 1) (Z.b2z c)) in
               Idle ;;
               set with_c (nz (Z.land result 0x10000)) ;;
               WriteWord low high result true true ;; ret result) ;;
  mf <- get m_mf ;; SetZnFlags result mf.

Definition Lsr (low high : Z) : M unit :=
  mf <- get m_mf ;;
  result <- (if mf then
               value <- Read low ;; Idle ;;
               set with_c (nz (Z.land value 1)) ;;
               let result := u16 (Z.shiftr value 1) in
               CheckInterrupts ;; Write low result ;; ret result
             else
               value <- ReadWord low high false ;; Idle ;;
               set with_c (nz (Z.land value 1)) ;;
               let result := u16 (Z.shiftr value 1) in
               WriteWord low high result true true ;; ret result) ;;
  mf <- get m_mf ;; SetZnFlags result mf.

Definition Asl (low high : Z) : M unit :=
  mf <- get m_mf ;;
  result <- (if mf then
               value <- Read low ;;
               let result := u32 (Z.shiftl value 1) in
               Idle ;;
               set with_c (nz (Z.land result 0x100)) ;;
               CheckInterrupts ;; Write low result ;; ret result
             else
               value <- ReadWord low high false ;;
               let result := u32 (Z.shiftl value 1) in
               Idle ;;
               set with_c (nz (Z.land result 0x10000)) ;;
               WriteWord low high result true true ;; ret result) ;;
  mf <- get m_mf ;; SetZnFlags result mf.

Definition Inc (low high : Z) : M unit :=
  mf <- get m_mf ;;
  result <- (if mf then
               value <- Read low ;;
               let result := u16 (value + 1) in
               Idle ;; CheckInterrupts ;; Write low result ;; ret result
             else
               value <- ReadWord low high false ;;
               let result := u16 (value + 1) in
               Idle ;; WriteWord low high result true true ;; ret result) ;;
  mf <- get m_mf ;; SetZnFlags result mf.

Definition Dec (low high : Z) : M unit :=
  mf <- get m_mf ;;
  result <- (if mf then
               value <- Read low ;;
               let result := u16 (value - 1) in
               Idle ;; CheckInterrupts ;; Write low result ;; ret result
             else
               value <- ReadWord low high false ;;
               let result := u16 (value - 1) in
               Idle ;; WriteWord low high result true true ;; ret result) ;;
  mf <- get m_mf ;; SetZnFlags result mf.

Definition Tsb (low high : Z) : M unit :=
  mf <- get m_mf ;;
  if mf then
    value <- Read low ;; Idle ;;
    a <- get m_a ;;
    set with_z (Z.land (Z.land a 0xff) value =? 0) ;;
    CheckInterrupts ;; Write low (Z.lor value (Z.land a 0xff))
  else
    value <- ReadWord low high false ;; Idle ;;
    a <- get m_a ;;
    set with_z (Z.land a value =? 0) ;;
    WriteWord low high (Z.lor value a) true true.

Definition Trb (low high : Z) : M unit :=
  mf <- get m_mf ;;
  if mf then
    value <- Read low ;; Idle ;;
    a <- get m_a ;;
    set with_z (Z.land (Z.land a 0xff) value =? 0) ;;
    CheckInterrupts ;; Write low (Z.land value (Z.lnot (Z.land a 0xff)))
  else
    value <- ReadWord low high false ;; Idle ;;
    a <- get m_a ;;
    set with_z (Z.land a value =? 0) ;;
    WriteWord low high (Z.land value (Z.lnot a)) true true.

(** *** The dispatcher *)

(** [auto [low, high] = Adr...(); Op(low, high);] *)
Definition via (mode : M (Z * Z)) (op : Z -> Z -> M unit) : M unit :=
  adr <- mode ;; op (fst adr) (snd adr).

(** [if (m_xf) { m_x &= 0xff; m_y &= 0xff; }] *)
Definition MaskIndex : M unit :=
  xf <- get m_xf ;;
  when xf (x <- get m_x ;; set with_x (Z.land x 0xff) ;;
           y <- get m_y ;; set with_y (Z.land y 0xff)).

Definition DoOpcode (opcode : Z) : M unit :=
  match opcode with
  | 0x00 =>
      _ <- ReadOpcode ;;
      e <- get m_e ;; when (negb e) (k <- get m_k ;; PushByte k) ;;
      pc <- get m_pc ;; PushWord pc false ;;
      f <- GetFlags ;; PushByte (Z.lor f 0x10) ;;
      set with_i true ;; set with_d false ;; set with_k 0 ;;
      e <- get m_e ;;
      let vectorAddr := if e then 0xFFFE else 0xFFE6 in
      pc <- ReadWord vectorAddr (vectorAddr + 1) true ;; set with_pc pc
  | 0x01 => via AdrIdx Ora
  | 0x02 =>
      _ <- ReadOpcode ;;
      e <- get m_e ;; when (negb e) (k <- get m_k ;; PushByte k) ;;
      pc <- get m_pc ;; PushWord pc false ;;
      f <- GetFlags ;; PushByte f ;;
      set with_i true ;; set with_d false ;; set with_k 0 ;;
      e <- get m_e ;;
      pc <- ReadWord (if e then 0xfff4 else 0xffe4) (if e then 0xfff5 else 0xffe5) true ;;
      set with_pc pc
  | 0x03 => via AdrSr Ora
  | 0x04 => via AdrDp Tsb
  | 0x05 => via AdrDp Ora
  | 0x06 => via AdrDp Asl
  | 0x07 => via AdrIdl Ora
  | 0x08 => AdrImp ;; f <- GetFlags ;; PushByte f
  | 0x09 => via (AdrImm false) Ora
  | 0x0a =>
      AdrImp ;;
      mf <- get m_mf ;; a <- get m_a ;;
      (if mf then
         set with_c (nz (Z.land a 0x80)) ;;
         set with_a (Z.lor (Z.land a 0xff00) (Z.land (Z.shiftl a 1) 0xff))
       else
         set with_c (nz (Z.land a 0x8000)) ;;
         set with_a (u16 (Z.shiftl a 1))) ;;
      SetZnA
  | 0x0b => AdrImp ;; dp <- get m_dp ;; PushWord dp true
  | 0x0c => via AdrAbs Tsb
  | 0x0d => via AdrAbs Ora
  | 0x0e => via AdrAbs Asl
  | 0x0f => via AdrAbl Ora
  | 0x10 => n <- get m_n ;; DoBranch (negb n)
  | 0x11 => via (AdrIdy false) Ora
  | 0x12 => via AdrIdp Ora
  | 0x13 => via AdrIsy Ora
  | 0x14 => via AdrDp Trb
  | 0x15 => via AdrDpx Ora
  | 0x16 => via AdrDpx Asl
  | 0x17 => via AdrIly Ora
  | 0x18 => AdrImp ;; set with_c false
  | 0x19 => via (AdrAby false) Ora
  | 0x1a =>
      AdrImp ;;
      mf <- get m_mf ;; a <- get m_a ;;
      (if mf then set with_a (Z.lor (Z.land a 0xff00) (Z.land (a + 1) 0xff))
       else set with_a (u16 (a + 1))) ;;
      SetZnA
  | 0x1b =>
      AdrImp ;;
      a <- get m_a ;; set with_sp a ;;
      WrapStack
  | 0x1c => via AdrAbs Trb
  | 0x1d => via (AdrAbx false) Ora
  | 0x1e => via (AdrAbx true) Asl
  | 0x1f => via AdrAlx Ora
  | 0x20 =>
      value <- ReadOpcodeWord false ;; Idle ;;
      pc <- get m_pc ;; PushWord (pc - 1) true ;;
      set with_pc value
  | 0x21 => via AdrIdx And
  | 0x22 =>
      value <- ReadOpcodeWord false ;;
      bank <- ReadOpcode ;;
      let value := Z.lor value (Z.shiftl bank 16) in
      pc <- get m_pc ;; PushWord (pc - 1) true ;;
      set with_k (u8 (Z.shiftr value 16)) ;;
      set with_pc (Z.land value 0xffff)
  | 0x23 => via AdrSr And
  | 0x24 => via AdrDp Bit
  | 0x25 => via AdrDp And
  | 0x26 => via AdrDp Rol
  | 0x27 => via AdrIdl And
  | 0x28 => AdrImp ;; Idle ;; f <- PullByte ;; SetFlags f
  | 0x29 => via (AdrImm false) And
  | 0x2a =>
      AdrImp ;;
      a <- get m_a ;; c <- get m_c ;; mf <- get m_mf ;;
      let result := u32 (Z.lor (Z.shiftl a 1) (Z.b2z c)) in
      (if mf then
         set with_c (nz (Z.land result 0x100)) ;;
         set with_a (Z.lor (Z.land a 0xff00) (Z.land result 0xff))
       else
         set with_c (nz (Z.land result 0x10000)) ;;
         set with_a (u16 result)) ;;
      SetZnA
  | 0x2b =>
      AdrImp ;; Idle ;;
      dp <- PullWord true ;; set with_dp dp ;;
      SetZnFlags dp false
  | 0x2c => via AdrAbs Bit
  | 0x2d => via AdrAbs And
  | 0x2e => via AdrAbs Rol
  | 0x2f => via AdrAbl And
  | 0x30 => n <- get m_n ;; DoBranch n
  | 0x31 => via (AdrIdy false) And
  | 0x32 => via AdrIdp And
  | 0x33 => via AdrIsy And
  | 0x34 => via AdrDpx Bit
  | 0x35 => via AdrDpx And
  | 0x36 => via AdrDpx Rol
  | 0x37 => via AdrIly And
  | 0x38 => AdrImp ;; set with_c true
  | 0x39 => via (AdrAby false) And
  | 0x3a =>
      AdrImp ;;
      mf <- get m_mf ;; a <- get m_a ;;
      (if mf then set with_a (Z.lor (Z.land a 0xff00) (Z.land (a - 1) 0xff))
       else set with_a (u16 (a - 1))) ;;
      SetZnA
  | 0x3b => AdrImp ;; sp <- get m_sp ;; set with_a sp ;; SetZnFlags sp false
  | 0x3c => via (AdrAbx false) Bit
  | 0x3d => via (AdrAbx false) And
  | 0x3e => via (AdrAbx true) Rol
  | 0x3f => via AdrAlx And
  | 0x40 =>
      AdrImp ;; Idle ;;
      f <- PullByte ;; SetFlags f ;;
      pc <- PullWord false ;; set with_pc pc ;;
      e <- get m_e ;; when (negb e) (k <- PullByte ;; set with_k k)
  | 0x41 => via AdrIdx Eor
  | 0x42 => _ <- ReadOpcode ;; ret tt
  | 0x43 => via AdrSr Eor
  | 0x44 =>
      dest <- ReadOpcode ;; src <- ReadOpcode ;;
      set with_db dest ;;
      x <- get m_x ;; y <- get m_y ;;
      value <- Read (Z.lor (Z.shiftl src 16) x) ;;
      Write (Z.lor (Z.shiftl dest 16) y) value ;;
      a <- get m_a ;; set with_a (u16 (a - 1)) ;;
      set with_x (u16 (x - 1)) ;;
      set with_y (u16 (y - 1)) ;;
      a <- get m_a ;; pc <- get m_pc ;;
      when (negb (a =? 0xffff)) (set with_pc (u16 (pc - 3))) ;;
      MaskIndex ;;
      Idle ;; CheckInterrupts ;; Idle
  | 0x45 => via AdrDp Eor
  | 0x46 => via AdrDp Lsr
  | 0x47 => via AdrIdl Eor
  | 0x48 =>
      AdrImp ;;
      mf <- get m_mf ;; a <- get m_a ;;
      if mf then PushByte a else PushWord a true
  | 0x49 => via (AdrImm false) Eor
  | 0x4a =>
      AdrImp ;;
      a <- get m_a ;; mf <- get m_mf ;;
      set with_c (nz (Z.land a 1)) ;;
      (if mf then set with_a (Z.lor (Z.land a 0xff00) (Z.land (Z.shiftr a 1) 0x7f))
       else set with_a (Z.shiftr a 1)) ;;
      SetZnA
  | 0x4b => AdrImp ;; k <- get m_k ;; PushByte k
  | 0x4c => pc <- ReadOpcodeWord true ;; set with_pc pc
  | 0x4d => via AdrAbs Eor
  | 0x4e => via AdrAbs Lsr
  | 0x4f => via AdrAbl Eor
  | 0x50 => v <- get m_v ;; DoBranch (negb v)
  | 0x51 => via (AdrIdy false) Eor
  | 0x52 => via AdrIdp Eor
  | 0x53 => via AdrIsy Eor
  | 0x54 =>
      dest <- ReadOpcode ;; src <- ReadOpcode ;;
      set with_db dest ;;
      x <- get m_x ;; y <- get m_y ;;
      value <- Read (Z.lor (Z.shiftl src 16) x) ;;
      Write (Z.lor (Z.shiftl dest 16) y) value ;;
      a <- get m_a ;; set with_a (u16 (a - 1)) ;;
      set with_x (u16 (x + 1)) ;;
      set with_y (u16 (y + 1)) ;;
      a <- get m_a ;; pc <- get m_pc ;;
      when (negb (a =? 0xffff)) (set with_pc (u16 (pc - 3))) ;;
      MaskIndex ;;
      Idle ;; CheckInterrupts ;; Idle
  | 0x55 => via AdrDpx Eor
  | 0x56 => via AdrDpx Lsr
  | 0x57 => via AdrIly Eor
  | 0x58 => AdrImp ;; set with_i false
  | 0x59 => via (AdrAby false) Eor
  | 0x5a =>
      AdrImp ;;
      xf <- get m_xf ;; y <- get m_y ;;
      if xf then PushByte y else PushWord y true
  | 0x5b => AdrImp ;; a <- get m_a ;; set with_dp a ;; SetZnFlags a false
  | 0x5c =>
      value <- ReadOpcodeWord false ;;
      CheckInterrupts ;;
      k <- ReadOpcode ;; set with_k k ;;
      set with_pc value
  | 0x5d => via (AdrAbx false) Eor
  | 0x5e => via (AdrAbx true) Lsr
  | 0x5f => via AdrAlx Eor
  | 0x60 =>
      Idle ;; Idle ;;
      w <- PullWord false ;; set with_pc (u16 (w + 1)) ;;
      CheckInterrupts ;; Idle
  | 0x61 => via AdrIdx Adc
  | 0x62 =>
      value <- ReadOpcodeWord false ;; Idle ;;
      pc <- get m_pc ;; PushWord (pc + s16 value) true
  | 0x63 => via AdrSr Adc
  | 0x64 => via AdrDp Stz
  | 0x65 => via AdrDp Adc
  | 0x66 => via AdrDp Ror
  | 0x67 => via AdrIdl Adc
  | 0x68 =>
      AdrImp ;; Idle ;;
      mf <- get m_mf ;;
      (if mf then
         value <- PullByte ;; a <- get m_a ;;
         set with_a (Z.lor (Z.land a 0xff00) value)
       else
         value <- PullWord true ;; set with_a value) ;;
      SetZnA
  | 0x69 => via (AdrImm false) Adc
  | 0x6a =>
      AdrImp ;;
      a <- get m_a ;; c <- get m_c ;; mf <- get m_mf ;;
      let carry := nz (Z.land a 1) in
      (if mf then
         set with_a (u16 (Z.lor (Z.lor (Z.land a 0xff00) (Z.land (Z.shiftr a 1) 0x7f))
                                (Z.shiftl (Z.b2z c) 7)))
       else
         set with_a (u16 (Z.lor (Z.shiftr a 1) (Z.shiftl (Z.b2z c) 15)))) ;;
      set with_c carry ;;
      SetZnA
  | 0x6b =>
      Idle ;; Idle ;;
      w <- PullWord false ;; set with_pc (u16 (w + 1)) ;;
      CheckInterrupts ;;
      k <- PullByte ;; set with_k k
  | 0x6c =>
      adr <- ReadOpcodeWord false ;;
      e <- get m_e ;;
      let adr_h := u16 (if e && (Z.land adr 0xff =? 0xff) then Z.land adr 0xff00
                        else adr + 1) in
      pc <- ReadWord adr adr_h true ;; set with_pc pc
  | 0x6d => via AdrAbs Adc
  | 0x6e => via AdrAbs Ror
  | 0x6f => via AdrAbl Adc
  | 0x70 => v <- get m_v ;; DoBranch v
  | 0x71 => via (AdrIdy false) Adc
  | 0x72 => via AdrIdp Adc
  | 0x73 => via AdrIsy Adc
  | 0x74 => via AdrDpx Stz
  | 0x75 => via AdrDpx Adc
  | 0x76 => via AdrDpx Ror
  | 0x77 => via AdrIly Adc
  | 0x78 => AdrImp ;; set with_i true
  | 0x79 => via (AdrAby false) Adc
  | 0x7a =>
      AdrImp ;; Idle ;;
      xf <- get m_xf ;;
      (if xf then value <- PullByte ;; set with_y value
       else value <- PullWord true ;; set with_y value) ;;
      SetZnY
  | 0x7b => AdrImp ;; dp <- get m_dp ;; set with_a dp ;; SetZnFlags dp false
  | 0x7c =>
      adr <- ReadOpcodeWord false ;; Idle ;;
      k <- get m_k ;; x <- get m_x ;;
      let base_adr := Z.lor (Z.shiftl k 16) adr in
      pc <- ReadWord (base_adr + x) (base_adr + x + 1) true ;; set with_pc pc
  | 0x7d => via (AdrAbx false) Adc
  | 0x7e => via (AdrAbx true) Ror
  | 0x7f => via AdrAlx Adc
  | 0x80 => DoBranch true
  | 0x81 => via AdrIdx Sta
  | 0x82 =>
      value <- ReadOpcodeWord false ;;
      pc <- get m_pc ;; set with_pc (u16 (pc + s16 value)) ;;
      CheckInterrupts ;; Idle
  | 0x83 => via AdrSr Sta
  | 0x84 => via AdrDp Sty
  | 0x85 => via AdrDp Sta
  | 0x86 => via AdrDp Stx
  | 0x87 => via AdrIdl Sta
  | 0x88 =>
      AdrImp ;;
      xf <- get m_xf ;; y <- get m_y ;;
      (if xf then set with_y (Z.land (y - 1) 0xff) else set with_y (u16 (y - 1))) ;;
      SetZnY
  | 0x89 =>
      mf <- get m_mf ;;
      if mf then
        CheckInterrupts ;;
        value <- ReadOpcode ;; a <- get m_a ;;
        set with_z (Z.land a value =? 0)
      else
        value <- ReadOpcodeWord true ;; a <- get m_a ;;
        set with_z (Z.land a value =? 0)
  | 0x8a =>
      AdrImp ;;
      mf <- get m_mf ;; a <- get m_a ;; x <- get m_x ;;
      (if mf then set with_a (Z.lor (Z.land a 0xff00) (Z.land x 0xff))
       else set with_a x) ;;
      SetZnA
  | 0x8b => AdrImp ;; db <- get m_db ;; PushByte db
  | 0x8c => via AdrAbs Sty
  | 0x8d => via AdrAbs Sta
  | 0x8e => via AdrAbs Stx
  | 0x8f => via AdrAbl Sta
  | 0x90 => c <- get m_c ;; DoBranch (negb c)
  | 0x91 => via (AdrIdy true) Sta
  | 0x92 => via AdrIdp Sta
  | 0x93 => via AdrIsy Sta
  | 0x94 => via AdrDpx Sty
  | 0x95 => via AdrDpx Sta
  | 0x96 => via AdrDpy Stx
  | 0x97 => via AdrIly Sta
  | 0x98 =>
      AdrImp ;;
      mf <- get m_mf ;; a <- get m_a ;; y <- get m_y ;;
      (if mf then set with_a (Z.lor (Z.land a 0xff00) (Z.land y 0xff))
       else set with_a y) ;;
      SetZnA
  | 0x99 => via (AdrAby true) Sta
  | 0x9a =>
      AdrImp ;;
      e <- get m_e ;; sp <- get m_sp ;; x <- get m_x ;;
      set with_sp (if e then Z.lor (Z.land sp 0xFF00) (Z.land x 0x00FF) else x)
  | 0x9b =>
      AdrImp ;;
      xf <- get m_xf ;; x <- get m_x ;;
      (if xf then set with_y (Z.land x 0xff) else set with_y x) ;;
      SetZnY
  | 0x9c => via AdrAbs Stz
  | 0x9d => via (AdrAbx true) Sta
  | 0x9e => via (AdrAbx true) Stz
  | 0x9f => via AdrAlx Sta
  | 0xa0 => via (AdrImm true) Ldy
  | 0xa1 => via AdrIdx Lda
  | 0xa2 => via (AdrImm true) Ldx
  | 0xa3 => via AdrSr Lda
  | 0xa4 => via AdrDp Ldy
  | 0xa5 => via AdrDp Lda
  | 0xa6 => via AdrDp Ldx
  | 0xa7 => via AdrIdl Lda
  | 0xa8 =>
      AdrImp ;;
      xf <- get m_xf ;; a <- get m_a ;;
      (if xf then set with_y (Z.land a 0xff) else set with_y a) ;;
      SetZnY
  | 0xa9 => via (AdrImm false) Lda
  | 0xaa =>
      AdrImp ;;
      xf <- get m_xf ;; a <- get m_a ;;
      (if xf then set with_x (Z.land a 0xff) else set with_x a) ;;
      SetZnX
  | 0xab =>
      AdrImp ;; Idle ;;
      db <- PullByte ;; set with_db db ;;
      SetZnFlags db true
  | 0xac => via AdrAbs Ldy
  | 0xad => via AdrAbs Lda
  | 0xae => via AdrAbs Ldx
  | 0xaf => via AdrAbl Lda
  | 0xb0 => c <- get m_c ;; DoBranch c
  | 0xb1 => via (AdrIdy false) Lda
  | 0xb2 => via AdrIdp Lda
  | 0xb3 => via AdrIsy Lda
  | 0xb4 => via AdrDpx Ldy
  | 0xb5 => via AdrDpx Lda
  | 0xb6 => via AdrDpy Ldx
  | 0xb7 => via AdrIly Lda
  | 0xb8 => AdrImp ;; set with_v false
  | 0xb9 => via (AdrAby false) Lda
  | 0xba =>
      AdrImp ;;
      xf <- get m_xf ;; sp <- get m_sp ;;
      (if xf then set with_x (Z.land sp 0xff) else set with_x sp) ;;
      SetZnX
  | 0xbb =>
      AdrImp ;;
      xf <- get m_xf ;; y <- get m_y ;;
      (if xf then set with_x (Z.land y 0xff) else set with_x y) ;;
      SetZnX
  | 0xbc => via (AdrAbx false) Ldy
  | 0xbd => via (AdrAbx false) Lda
  | 0xbe => via (AdrAby false) Ldx
  | 0xbf => via AdrAlx Lda
  | 0xc0 => via (AdrImm true) Cpy
  | 0xc1 => via AdrIdx Cmp
  | 0xc2 =>
      valToClear <- ReadOpcode ;;
      CheckInterrupts ;;
      e <- get m_e ;;
      let valToClear := u8 (Z.land valToClear (if e then Z.lnot 0x30 else 0xFF)) in
      f <- GetFlags ;; SetFlags (u8 (Z.land f (Z.lnot valToClear))) ;;
      Idle
  | 0xc3 => via AdrSr Cmp
  | 0xc4 => via AdrDp Cpy
  | 0xc5 => via AdrDp Cmp
  | 0xc6 => via AdrDp Dec
  | 0xc7 => via AdrIdl Cmp
  | 0xc8 =>
      AdrImp ;;
      xf <- get m_xf ;; y <- get m_y ;;
      (if xf then set with_y (Z.land (y + 1) 0xff) else set with_y (u16 (y + 1))) ;;
      SetZnY
  | 0xc9 => via (AdrImm false) Cmp
  | 0xca =>
      AdrImp ;;
      xf <- get m_xf ;; x <- get m_x ;;
      (if xf then set with_x (Z.land (x - 1) 0xff) else set with_x (u16 (x - 1))) ;;
      SetZnX
  | 0xcb => set with_waiting true ;; Idle ;; Idle
  | 0xcc => via AdrAbs Cpy
  | 0xcd => via AdrAbs Cmp
  | 0xce => via AdrAbs Dec
  | 0xcf => via AdrAbl Cmp
  | 0xd0 => z <- get m_z ;; DoBranch (negb z)
  | 0xd1 => via (AdrIdy false) Cmp
  | 0xd2 => via AdrIdp Cmp
  | 0xd3 => via AdrIsy Cmp
  | 0xd4 => via AdrDp (fun low high => w <- ReadWord low high false ;; PushWord w true)
  | 0xd5 => via AdrDpx Cmp
  | 0xd6 => via AdrDpx Dec
  | 0xd7 => via AdrIly Cmp
  | 0xd8 => AdrImp ;; set with_d false
  | 0xd9 => via (AdrAby false) Cmp
  | 0xda =>
      AdrImp ;;
      xf <- get m_xf ;; x <- get m_x ;;
      if xf then PushByte x else PushWord x true
  | 0xdb => set with_stopped true ;; Idle ;; Idle
  | 0xdc =>
      adr <- ReadOpcodeWord false ;;
      pc <- ReadWord adr (Z.land (adr + 1) 0xffff) false ;; set with_pc pc ;;
      CheckInterrupts ;;
      k <- Read (Z.land (adr + 2) 0xffff) ;; set with_k k
  | 0xdd => via (AdrAbx false) Cmp
  | 0xde => via (AdrAbx true) Dec
  | 0xdf => via AdrAlx Cmp
  | 0xe0 => via (AdrImm true) Cpx
  | 0xe1 => via AdrIdx Sbc
  | 0xe2 =>
      val <- ReadOpcode ;;
      CheckInterrupts ;;
      e <- get m_e ;;
      let val := u8 (Z.land val (if e then Z.lnot 0x30 else 0xFF)) in
      f <- GetFlags ;; SetFlags (u8 (Z.lor f val)) ;;
      Idle
  | 0xe3 => via AdrSr Sbc
  | 0xe4 => via AdrDp Cpx
  | 0xe5 => via AdrDp Sbc
  | 0xe6 => via AdrDp Inc
  | 0xe7 => via AdrIdl Sbc
  | 0xe8 =>
      AdrImp ;;
      xf <- get m_xf ;; x <- get m_x ;;
      (if xf then set with_x (Z.land (x + 1) 0xff) else set with_x (u16 (x + 1))) ;;
      SetZnX
  | 0xe9 => via (AdrImm false) Sbc
  | 0xea => AdrImp
  | 0xeb =>
      AdrImp ;;
      a <- get m_a ;;
      let high := u8 (Z.shiftr a 8) in
      set with_a (u16 (Z.lor (Z.shiftl a 8) high)) ;;
      a <- get m_a ;; SetZnFlags a true
  | 0xec => via AdrAbs Cpx
  | 0xed => via AdrAbs Sbc
  | 0xee => via AdrAbs Inc
  | 0xef => via AdrAbl Sbc
  | 0xf0 => z <- get m_z ;; DoBranch z
  | 0xf1 => via (AdrIdy false) Sbc
  | 0xf2 => via AdrIdp Sbc
  | 0xf3 => via AdrIsy Sbc
  | 0xf4 => w <- ReadOpcodeWord false ;; PushWord w true
  | 0xf5 => via AdrDpx Sbc
  | 0xf6 => via AdrDpx Inc
  | 0xf7 => via AdrIly Sbc
  | 0xf8 => AdrImp ;; set with_d true
  | 0xf9 => via (AdrAby false) Sbc
  | 0xfa =>
      AdrImp ;; Idle ;;
      xf <- get m_xf ;;
      (if xf then value <- PullByte ;; set with_x value
       else value <- PullWord true ;; set with_x value) ;;
      SetZnX
  | 0xfb =>
      AdrImp ;;
      old_e <- get m_e ;; c <- get m_c ;;
      set with_c old_e ;; set with_e c ;;
      e <- get m_e ;;
      if negb (Bool.eqb e old_e) then
        if e then
          set with_mf true ;; set with_xf true ;;
          sp <- get m_sp ;; set with_sp (Z.lor (Z.land sp 0x00FF) 0x0100) ;;
          x <- get m_x ;; set with_x (Z.land x 0x00FF) ;;
          y <- get m_y ;; set with_y (Z.land y 0x00FF)
        else
          set with_mf false ;; set with_xf false
      else ret tt
  | 0xfc =>
      adr <- ReadOpcodeWord false ;;
      pc <- get m_pc ;; PushWord (pc - 1) false ;;
      Idle ;;
      k <- get m_k ;; x <- get m_x ;;
      let base_adr := Z.lor (Z.shiftl k 16) adr in
      pc <- ReadWord (base_adr + x) (base_adr + x + 1) true ;; set with_pc pc
  | 0xfd => via (AdrAbx false) Sbc
  | 0xfe => via (AdrAbx true) Inc
  | 0xff => via AdrAlx Sbc
  | _ => AdrImp
  end.

(** *** Reset and the top-level step *)

Definition Reset (hard : bool) : M unit :=
  when hard
    (set with_a 0 ;; set with_x 0 ;; set with_y 0 ;; set with_sp 0 ;;
     set with_pc 0 ;; set with_dp 0 ;;
     set with_k 0 ;; set with_db 0 ;;
     set with_c false ;; set with_z false ;; set with_v false ;; set with_n false ;;
     set with_i false ;; set with_d false ;; set with_xf false ;; set with_mf false ;;
     set with_e false ;; set with_irqWanted false) ;;
  set with_waiting false ;;
  set with_stopped false ;;
  set with_nmiWanted false ;;
  set with_intWanted false ;;
  set with_resetWanted true.

(** [Read(0x100 | (m_sp-- & 0xff))] *)
Definition ResetStackRead : M unit :=
  sp <- get m_sp ;; set with_sp (u16 (sp - 1)) ;;
  _ <- Read (Z.lor 0x100 (Z.land sp 0xff)) ;; ret tt.

Definition RunOpcode : M unit :=
  resetWanted <- get m_resetWanted ;;
  if resetWanted then
    set with_resetWanted false ;;
    adr <- ProgramAddress ;; _ <- Read adr ;;
    Idle ;;
    ResetStackRead ;;
    ResetStackRead ;;
    ResetStackRead ;;
    sp <- get m_sp ;; set with_sp (Z.lor (Z.land sp 0xff) 0x100) ;;
    set with_e true ;;
    set with_i true ;;
    set with_d false ;;
    f <- GetFlags ;; SetFlags f ;;
    set with_k 0 ;;
    pc <- ReadWord 0xfffc 0xfffd false ;; set with_pc pc
  else
  stopped <- get m_stopped ;;
  if stopped then IdleWait
  else
  waiting <- get m_waiting ;;
  if waiting then
    irq <- get m_irqWanted ;; nmi <- get m_nmiWanted ;;
    if irq || nmi then
      set with_waiting false ;;
      Idle ;;
      CheckInterrupts ;;
      Idle
    else IdleWait
  else
  CheckInterrupts ;;
  int <- get m_intWanted ;;
  if int then
    adr <- ProgramAddress ;; _ <- Read adr ;;
    DoInterrupt
  else
    opcode <- ReadOpcode ;;
    DoOpcode opcode.

(** [Cpu::Nmi] and [Cpu::SetIrq] *)
Definition Nmi : M unit := set with_nmiWanted true.
Definition SetIrq (state : bool) : M unit := set with_irqWanted state.

End Core.

(** ** A plain RAM host

    The host of the repository's self-test: a byte array behind [Read] and
    [Write], and an [Idle] that does nothing.  Here the array covers the
    whole address space. *)

Definition Ram : Type := Z -> Z.

#[export] Instance RamBus : Bus Ram := {|
  bus_read := fun address h => (h address, h);
  bus_write := fun address value h => fun a => if a =? address then value else h a;
  bus_idle := fun _ h => h
|}.

(** [bytes] stored from [base] upwards. *)
Fixpoint load (base : Z) (bytes : list Z) (h : Ram) : Ram :=
  match bytes with
  | [] => h
  | b :: rest => load (base + 1) rest (fun a => if a =? base then b else h a)
  end.

(** The member initialisers of [Cpu::PImpl]. *)
Definition cpu0 : Cpu :=
  mkCpu 0 0 0 0 0 0 0 0
    false false false false false false false false false
    false false false false false true.

(** The constructor: the members are initialised and [Reset(true)] runs. *)
Definition power_on {H : Type} (h : H) : Machine H :=
  exec (Reset true) (mkMachine cpu0 h []).

(** [n] calls of [RunOpcode]. *)
Fixpoint steps {H : Type} {HB : Bus H} (n : nat) (m : Machine H) : Machine H :=
  match n with
  | O => m
  | S n' => steps n' (exec RunOpcode m)
  end.

(** ** Observations on the callback log *)

(** The most recent [Write] of a log (newest event first): its address and
    its byte. *)
Fixpoint last_write (l : list Event) : option (Z * Z) :=
  match l with
  | [] => None
  | EvWrite address value :: _ => Some (address, value)
  | _ :: rest => last_write rest
  end.

(** The operand a primitive has just fetched: the byte of the most recent
    [Read] in 8-bit mode, the little-endian word of the two most recent
    [Read]s in 16-bit mode. *)
Definition last_operand (byte : bool) (l : list Event) : option Z :=
  match byte, l with
  | true, EvRead _ value :: _ => Some value
  | false, EvRead _ high :: EvRead _ low :: _ => Some (low + 256 * high)
  | _, _ => None
  end.

(** [2^w - 1] for the width [w] selected by a width flag. *)
Definition width_mask (byte : bool) : Z := if byte then 0xff else 0xffff.

(** The sign bit and the bit below it for that width. *)
Definition sign_bit (byte : bool) : Z := if byte then 7 else 15.
Definition overflow_bit (byte : bool) : Z := if byte then 6 else 14.

(** Every decimal digit of a [w]-bit value is at most 9. *)
Definition nibble (k : Z) (v : Z) : Z := Z.land (Z.shiftr v (4 * k)) 0xf.
Definition is_bcd (byte : bool) (v : Z) : bool :=
  forallb (fun k => nibble k v <=? 9) (if byte then [0; 1] else [0; 1; 2; 3]).

(** Every address of a callback fits in 24 bits. *)
Definition address_masked (e : Event) : bool :=
  match ev_address e with
  | Some a => (0 <=? a) && (a <=? 0xFFFFFF)
  | None => true
  end.

(** ** The public operations, as a host calls them *)

Inductive Call : Type :=
| CallRunOpcode
| CallNmi
| CallSetIrq (state : bool)
| CallReset (hard : bool).

Definition is_reset (c : Call) : bool :=
  match c with CallReset _ => true | _ => false end.

Definition do_call {H : Type} {HB : Bus H} (c : Call) : M H unit :=
  match c with
  | CallRunOpcode => RunOpcode
  | CallNmi => Nmi
  | CallSetIrq state => SetIrq state
  | CallReset hard => Reset hard
  end.

Fixpoint do_calls {H : Type} {HB : Bus H} (cs : list Call) (m : Machine H) : Machine H :=
  match cs with
  | [] => m
  | c :: rest => do_calls rest (exec (do_call c) m)
  end.

(** [RunOpcode] on [m] reaches the dispatcher with [opcode]: no reset is
    pending, the CPU is neither stopped nor waiting, the poll finds no
    interrupt, and the byte fetched at the program address is [opcode]. *)
Definition dispatches {H : Type} {HB : Bus H} (m : Machine H) (opcode : Z) : Prop :=
  m_resetWanted (cpu m) = false /\
  m_stopped (cpu m) = false /\
  m_waiting (cpu m) = false /\
  m_nmiWanted (cpu m) || (m_irqWanted (cpu m) && negb (m_i (cpu m))) = false /\
  eval ReadOpcode m = opcode.

(** The states a host can bring the CPU to: construction, then any
    sequence of public calls. *)
Inductive reachable {H : Type} {HB : Bus H} : Machine H -> Prop :=
| reachable_power_on (h : H) : reachable (power_on h)
| reachable_call (m : Machine H) (c : Call) :
    reachable m -> reachable (exec (do_call c) m).

(** ** Test programs for the RAM host *)

Definition blank : Ram := fun _ => 0.

(** Reset vector [$8000]; at [$8000] the given bytes. *)
Definition program (bytes : list Z) : Ram :=
  load 0xFFFC [0x00; 0x80] (load 0x8000 bytes blank).

(** The CPU after power-on and the reset sequence over blank memory:
    emulation mode, 8-bit registers, SP = $01FD. *)
Definition after_reset : Machine Ram := steps 1 (power_on blank).

(** LDX #$01; JML $FF8000 at the reset target and JMP ($FFFF,X) at
    $FF:8000. *)
Definition jmp_ram : Ram :=
  load 0xFF8000 [0x7C; 0xFF; 0xFF] (program [0xA2; 0x01; 0x5C; 0x00; 0x80; 0xFF]).

(** A native-mode CPU with a 16-bit accumulator holding BCD 0199, decimal
    mode on and the carry clear; memory holds BCD 0911 at $10/$11. *)
Definition decimal_machine : Machine Ram :=
  mkMachine
    (mkCpu 0x0199 0 0 0x01FD 0x8000 0 0 0
       false false false false true true false false false
       false false false false false false)
    (load 0x10 [0x11; 0x09] blank) [].

(** ** The accumulator arithmetic of [Adc] and [Sbc]

    The value the 8-bit and the 16-bit branch of [Adc] and of [Sbc] leave
    in [result], as functions of A, the operand, C and D. *)

Definition adc8 (a value : Z) (c d : bool) : Z :=
  let result :=
    if d then
      let result := u16 (Z.land a 0xf + Z.land value 0xf + Z.b2z c) in
      let result :=
        if result >? 0x9 then u16 (Z.land (result + 0x6) 0xf + 0x10) else result in
      u16 (Z.land a 0xf0 + Z.land value 0xf0 + result)
    else u16 (Z.land a 0xff + value + Z.b2z c) in
  if d && (result >? 0x9f) then u16 (result + 0x60) else result.

Definition adc16 (a value : Z) (c d : bool) : Z :=
  let result :=
    if d then
      let result := u32 (Z.land a 0xf + Z.land value 0xf + Z.b2z c) in
      let result :=
        if result >? 0x9 then u32 (Z.land (result + 0x6) 0xf + 0x10) else result in
      let result := u32 (Z.land a 0xf0 + Z.land value 0xf0 + result) in
      let result :=
        if result >? 0x9f then u32 (Z.land (result + 0x60) 0xff + 0x100) else result in
      let result := u32 (Z.land a 0xf00 + Z.land value 0xf00 + result) in
      let result :=
        if result >? 0x9ff then u32 (Z.land (result + 0x600) 0xfff + 0x1000) else result in
      u32 (Z.land a 0xf000 + Z.land value 0xf000 + result)
    else u32 (a + value + Z.b2z c) in
  if d && (result >? 0x9fff) then u32 (result + 0x6000) else result.

Definition sbc8 (a operand : Z) (c d : bool) : Z :=
  let a_val := u8 (Z.land a 0xFF) in
  let result := u16 (a_val - operand - (1 - Z.b2z c)) in
  if d then
    let temp := u16 (Z.land a_val 0x0F - Z.land operand 0x0F - (1 - Z.b2z c)) in
    let temp := if nz (Z.land temp 0x10) then u16 (temp - 6) else temp in
    let temp := u16 (Z.land a_val 0xF0 - Z.land operand 0xF0 + temp) in
    let temp := if nz (Z.land temp 0x100) then u16 (temp - 0x60) else temp in
    temp
  else result.

Definition sbc16 (a operand : Z) (c d : bool) : Z :=
  let a_val := a in
  let result := u32 (a_val - operand - (1 - Z.b2z c)) in
  if d then
    let temp := u32 (Z.land a_val 0x000F - Z.land operand 0x000F - (1 - Z.b2z c)) in
    let temp := if nz (Z.land temp 0x10) then u32 (temp - 6) else temp in
    let temp := u32 (Z.land a_val 0x00F0 - Z.land operand 0x00F0 + temp) in
    let temp := if nz (Z.land temp 0x100) then u32 (temp - 0x60) else temp in
    let temp := u32 (Z.land a_val 0x0F00 - Z.land operand 0x0F00 + temp) in
    let temp := if nz (Z.land temp 0x1000) then u32 (temp - 0x600) else temp in
    let temp := u32 (Z.land a_val 0xF000 - Z.land operand 0xF000 + temp) in
    let temp := if nz (Z.land temp 0x10000) then u32 (temp - 0x6000) else temp in
    temp
  else result.

(** ** Weakest preconditions

    [wp c Q m]: running [c] from [m] ends in a result and a machine that
    satisfy [Q]. *)
Definition wp {H A : Type} (c : M H A) (Q : A -> Machine H -> Prop) (m : Machine H) : Prop :=
  Q (eval c m) (exec c m).

(** ** The invariants of the register file (spec, data model) *)

(** Every register holds a value of its C++ type. *)
Definition wf_regs (s : Cpu) : Prop :=
  0 <= m_a s <= 0xFFFF /\ 0 <= m_x s <= 0xFFFF /\ 0 <= m_y s <= 0xFFFF /\
  0 <= m_sp s <= 0xFFFF /\ 0 <= m_pc s <= 0xFFFF /\ 0 <= m_dp s <= 0xFFFF /\
  0 <= m_k s <= 0xFF /\ 0 <= m_db s <= 0xFF.

(** E = 1 pins M and X to 1 and SP to page one; X = 1 keeps the index
    registers within a byte. *)
Definition mode_invariant (s : Cpu) : Prop :=
  (m_e s = true -> m_mf s = true /\ m_xf s = true /\ 0x100 <= m_sp s <= 0x1FF) /\
  (m_xf s = true -> m_x s <= 0xFF /\ m_y s <= 0xFF).

Definition cpu_invariant (s : Cpu) : Prop := wf_regs s /\ mode_invariant s.

(** A 24-bit bus address. *)
Definition masked (address : Z) : Prop := 0 <= address <= 0xFFFFFF.

(** The invariant carried through an opcode: the register file is well
    formed and, when [check] is set, every callback so far had a 24-bit
    address. *)
Definition invariant {H : Type} (check : bool) (m : Machine H) : Prop :=
  cpu_invariant (cpu m) /\
  (check = true -> forallb address_masked (log m) = true).

(** Every byte value, one at a time. *)
Fixpoint below (P : Z -> Prop) (n : nat) : Prop :=
  match n with
  | O => True
  | S k => below P k /\ P (Z.of_nat k)
  end.

(** An addressing mode keeps the invariant and returns two 24-bit
    addresses; a primitive keeps it when given such addresses; so does an
    opcode, the two indexed-indirect jumps only with [check] off. *)
Definition mode_ok {H : Type} {HB : Bus H} (mode : M H (Z * Z)) : Prop :=
  forall check m, invariant check m ->
    wp mode (fun adr m' => invariant check m' /\ masked (fst adr) /\ masked (snd adr)) m.

Definition op_ok {H : Type} {HB : Bus H} (op : Z -> Z -> M H unit) : Prop :=
  forall check low high m, invariant check m -> masked low -> masked high ->
    wp (op low high) (fun _ m' => invariant check m') m.

Definition opcode_ok {H : Type} {HB : Bus H} (check : bool) (opcode : Z) : Prop :=
  (opcode <> 0x7C /\ opcode <> 0xFC \/ check = false) ->
  forall m, invariant check m ->
    wp (DoOpcode opcode) (fun _ m' => invariant check m') m.

(** ** What the opcodes leave behind

    The predicates of the theorems on single opcodes and opcode pairs. *)

(** The stack pointer after a push and after a pull: 16-bit in native mode,
    confined to page one in emulation mode. *)
Definition stack_dec (e : bool) (sp : Z) : Z :=
  if e then Z.lor (Z.land (u16 (sp - 1)) 0xff) 0x100 else u16 (sp - 1).
Definition stack_inc (e : bool) (sp : Z) : Z :=
  if e then Z.lor (Z.land (u16 (sp + 1)) 0xff) 0x100 else u16 (sp + 1).
Definition stack_ok (e : bool) (sp : Z) : bool :=
  if e then (0x100 <=? sp) && (sp <=? 0x1FF) else (0 <=? sp) && (sp <=? 0xFFFF).

(** What a comparison leaves: C says the register is not below the operand,
    Z that they are equal, N is the sign of the difference over the width. *)
Definition compared (byte : bool) (reg : Z) (s1 : Cpu) (value : Z) : Prop :=
  let r := Z.land reg (width_mask byte) in
  m_c s1 = (value <=? r) /\
  m_z s1 = (r =? value) /\
  m_n s1 = ((width_mask byte + 1) / 2 <=? (r - value) mod (width_mask byte + 1)).

Definition signed (byte : bool) (x : Z) : Z := if byte then s8 x else s16 x.

(** The outcome of a binary addition or subtraction over the accumulator
    width: the result modulo [2^w], the carry, the signed overflow, and Z
    and N of the result. *)
Definition arithmetic (byte : bool) (total signed_total : Z) (carry : bool) (s1 : Cpu) : Prop :=
  let w := width_mask byte + 1 in
  Z.land (m_a s1) (width_mask byte) = total mod w /\
  m_c s1 = carry /\
  m_v s1 = negb ((- (w / 2) <=? signed_total) && (signed_total <? w / 2)) /\
  m_z s1 = (total mod w =? 0) /\
  m_n s1 = (w / 2 <=? total mod w).


(** The number a BCD accumulator or operand stands for, and [10^digits]. *)
Definition bcd_value (byte : bool) (v : Z) : Z :=
  if byte then nibble 0 v + 10 * nibble 1 v
  else nibble 0 v + 10 * nibble 1 v + 100 * nibble 2 v + 1000 * nibble 3 v.
Definition bcd_modulus (byte : bool) : Z := if byte then 100 else 10000.

(** The flag test of each relative branch: BPL, BMI, BVC, BVS, BRA, BCC,
    BCS, BNE, BEQ. *)
Definition branch_condition (opcode : Z) (s : Cpu) : option bool :=
  match opcode with
  | 0x10 => Some (negb (m_n s))
  | 0x30 => Some (m_n s)
  | 0x50 => Some (negb (m_v s))
  | 0x70 => Some (m_v s)
  | 0x80 => Some true
  | 0x90 => Some (negb (m_c s))
  | 0xB0 => Some (m_c s)
  | 0xD0 => Some (negb (m_z s))
  | 0xF0 => Some (m_z s)
  | _ => None
  end.

(** A register reloaded from where it was stored: unchanged, with Z and N
    set from it over the width. *)
Definition reloaded (byte : bool) (before after : Z) (s1 : Cpu) : Prop :=
  after = before /\
  m_z s1 = (Z.land before (width_mask byte) =? 0) /\
  m_n s1 = Z.testbit before (sign_bit byte).

(** The two addresses of an operand: the first below [limit], the second
    the next one, wrapping at [limit]. *)
Definition address_pair (limit : Z) (adr : Z * Z) : Prop :=
  0 <= fst adr < limit /\ snd adr = (fst adr + 1) mod limit.

Definition opcode_in (opcode : Z) (opcodes : list Z) : bool :=
  existsb (Z.eqb opcode) opcodes.

(** What an addressing mode leaves alone: everything but PC and the
    interrupt latch. *)
Definition mode_frame (s s1 : Cpu) : Prop :=
  with_pc 0 (with_intWanted false s1) = with_pc 0 (with_intWanted false s).

(** What every ALU and memory primitive leaves alone. *)
Definition primitive_frame (s s1 : Cpu) : Prop :=
  m_e s1 = m_e s /\ m_mf s1 = m_mf s /\ m_xf s1 = m_xf s /\
  m_i s1 = m_i s /\ m_d s1 = m_d s /\
  m_sp s1 = m_sp s /\ m_pc s1 = m_pc s /\
  m_k s1 = m_k s /\ m_db s1 = m_db s /\ m_dp s1 = m_dp s /\
  m_stopped s1 = m_stopped s /\ m_waiting s1 = m_waiting s /\
  m_irqWanted s1 = m_irqWanted s /\ m_nmiWanted s1 = m_nmiWanted s /\
  m_resetWanted s1 = m_resetWanted s /\
  (m_mf s = true -> Z.land (m_a s1) 0xFF00 = Z.land (m_a s) 0xFF00).

(** What an opcode leaves alone, by opcode. *)
Definition opcode_frame (opcode : Z) (s s1 : Cpu) : Prop :=
  (opcode <> 0xFB -> m_e s1 = m_e s) /\
  (opcode_in opcode [0x28; 0x40; 0xC2; 0xE2; 0xFB] = false ->
   m_mf s1 = m_mf s /\ m_xf s1 = m_xf s) /\
  (opcode_in opcode [0x00; 0x02; 0x28; 0x40; 0xC2; 0xD8; 0xE2; 0xF8] = false ->
   m_d s1 = m_d s) /\
  (opcode_in opcode [0x00; 0x02; 0x28; 0x40; 0x58; 0x78; 0xC2; 0xE2] = false ->
   m_i s1 = m_i s) /\
  (opcode <> 0xDB -> m_stopped s1 = m_stopped s) /\
  (opcode <> 0xCB -> m_waiting s1 = m_waiting s) /\
  (m_irqWanted s1 = m_irqWanted s /\ m_nmiWanted s1 = m_nmiWanted s /\
   m_resetWanted s1 = m_resetWanted s) /\
  (opcode_in opcode [0x00; 0x02; 0x22; 0x40; 0x5C; 0x6B; 0xDC] = false ->
   m_k s1 = m_k s) /\
  (opcode_in opcode [0x44; 0x54; 0xAB] = false -> m_db s1 = m_db s) /\
  (opcode_in opcode [0x2B; 0x5B] = false -> m_dp s1 = m_dp s) /\
  (m_mf s = true -> opcode_in opcode [0x3B; 0x44; 0x54; 0x7B; 0xEB] = false ->
   Z.land (m_a s1) 0xFF00 = Z.land (m_a s) 0xFF00).

Definition keeps_mode_frame {H : Type} {HB : Bus H} (mode : M H (Z * Z)) : Prop :=
  forall m, wp mode (fun _ m1 => mode_frame (cpu m) (cpu m1)) m.

Definition keeps_primitive_frame {H : Type} {HB : Bus H} (op : Z -> Z -> M H unit) : Prop :=
  forall low high m, wp (op low high) (fun _ m1 => primitive_frame (cpu m) (cpu m1)) m.

(** No [RunOpcode] of the calls dispatches JMP ($aaaa,X) or JSR ($aaaa,X). *)
Fixpoint avoids_indexed_jumps {H : Type} {HB : Bus H} (calls : list Call) (m : Machine H)
    : Prop :=
  match calls with
  | [] => True
  | call :: rest =>
      (call = CallRunOpcode ->
       forall opcode, dispatches m opcode -> opcode <> 0x7C /\ opcode <> 0xFC) /\
      avoids_indexed_jumps rest (exec (do_call call) m)
  end.

(** ** More machines for the RAM host *)

(** A native-mode CPU with 16-bit registers, binary arithmetic and the
    carry set: A = $7FFF, X = $0010, Y = $0020; memory holds $0001 at
    $10/$11. *)
Definition binary_machine : Machine Ram :=
  mkMachine
    (mkCpu 0x7FFF 0x0010 0x0020 0x01FD 0x8000 0 0 0
       true false false false true false false false false
       false false false false false false)
    (load 0x10 [0x01; 0x00] blank) [].

(** A native-mode CPU with 8-bit registers and A = $12FF. *)
Definition byte_machine : Machine Ram :=
  mkMachine
    (mkCpu 0x12FF 0x0010 0x0020 0x01FD 0x8000 0 0 0
       false false false false true false true true false
       false false false false false false)
    blank [].

(** BNE to itself at the reset target. *)
Definition branch_machine : Machine Ram := steps 1 (power_on (program [0xD0; 0xFE])).

(** * Proofs *)

(** ** Symbolic execution *)

Ltac destruct_machine m :=
  destruct m as [[a x y sp pc dp k db c z v n i d xf mf e
                  waiting stopped irqW nmiW intW resetW] h l].

(** Unfold the monad, the bus and stack helpers and the record plumbing. *)
Ltac run :=
  cbv [exec eval bind ret get set when via
       Read Write Idle IdleWait CheckInterrupts ProgramAddress NextProgramAddress
       ReadOpcode ReadOpcodeWord GetFlags SetFlags SetZnFlags WrapStack PushByte PullByte
       PushWord PullWord ReadWord WriteWord DoBranch DoInterrupt
       DpIdle AdrImp AdrImm AdrDp AdrDpx AdrAbs AdrAbx MaskIndex
       SetZnA SetZnX SetZnY Bit Adc Sbc
       Reset ResetStackRead RunOpcode Nmi SetIrq do_call
       cpu host log fst snd negb andb orb
       m_a m_x m_y m_sp m_pc m_dp m_k m_db m_c m_z m_v m_n m_i m_d m_xf m_mf m_e
       m_waiting m_stopped m_irqWanted m_nmiWanted m_intWanted m_resetWanted
       with_a with_x with_y with_sp with_pc with_dp with_k with_db with_c with_z with_v with_n
       with_i with_d with_xf with_mf with_e with_waiting with_stopped with_irqWanted
       with_nmiWanted with_intWanted with_resetWanted].

(** ** Bytes, words and bits *)

Lemma forall_byte (P : Z -> bool) :
  forallb P (map Z.of_nat (seq 0 256)) = true ->
  forall f, 0 <= f <= 255 -> P f = true.
Proof.
  intros Hall f Hf. rewrite forallb_forall in Hall. apply Hall.
  apply in_map_iff. exists (Z.to_nat f). split; [lia|]. apply in_seq. lia.
Qed.

Lemma u8_range x : 0 <= u8 x <= 255.
Proof. unfold u8. pose proof (Z.mod_pos_bound x 256). lia. Qed.

Lemma u16_range x : 0 <= u16 x <= 65535.
Proof. unfold u16. pose proof (Z.mod_pos_bound x 65536). lia. Qed.

Lemma land_255 x : Z.land x 255 = x mod 256.
Proof. change 255 with (Z.ones 8). rewrite Z.land_ones by lia. reflexivity. Qed.

Lemma land_65535 x : Z.land x 65535 = x mod 65536.
Proof. change 65535 with (Z.ones 16). rewrite Z.land_ones by lia. reflexivity. Qed.

(** A byte and a byte shifted by eight have no bit in common. *)
Lemma bytes_disjoint lo hi :
  0 <= lo <= 255 -> Z.land lo (Z.shiftl hi 8) = 0.
Proof.
  intros Hlo. apply Z.bits_inj'. intros n Hn. rewrite Z.land_spec, Z.bits_0.
  destruct (Z.ltb_spec n 8).
  - rewrite Z.shiftl_spec_low by lia. apply andb_false_r.
  - rewrite (Z.bits_above_log2 lo n); [reflexivity| lia |].
    destruct (Z.eq_dec lo 0) as [->|]; [simpl; lia|].
    apply Z.log2_lt_pow2; [lia|].
    apply Z.lt_le_trans with (2 ^ 8); [lia|]. apply Z.pow_le_mono_r; lia.
Qed.

Lemma lor_bytes lo hi :
  0 <= lo <= 255 -> Z.lor lo (Z.shiftl hi 8) = lo + 256 * hi.
Proof.
  intros Hlo.
  rewrite <- Z.lxor_lor, <- Z.add_nocarry_lxor by (apply bytes_disjoint; exact Hlo).
  rewrite Z.shiftl_mul_pow2 by lia. change (2 ^ 8) with 256. lia.
Qed.

(** The [uint16_t] built from a low and a high byte. *)
Lemma word_of_bytes lo hi :
  0 <= lo <= 255 -> 0 <= hi <= 255 ->
  u16 (Z.lor lo (Z.shiftl hi 8)) = lo + 256 * hi.
Proof.
  intros Hlo Hhi. rewrite lor_bytes by exact Hlo.
  unfold u16. rewrite Z.mod_small; lia.
Qed.

(** [(v & 2^k) != 0] tests bit [k]. *)
Lemma nz_land_pow2 v k :
  0 <= k -> nz (Z.land v (2 ^ k)) = Z.testbit v k.
Proof.
  intros Hk. unfold nz.
  destruct (Z.testbit v k) eqn:B.
  - replace (Z.land v (2 ^ k)) with (2 ^ k).
    + pose proof (Z.pow_pos_nonneg 2 k). destruct (Z.eqb_spec (2 ^ k) 0); [lia|reflexivity].
    + apply Z.bits_inj'. intros n Hn. rewrite Z.land_spec, Z.pow2_bits_eqb by lia.
      destruct (Z.eqb_spec k n) as [->|]; [rewrite B|rewrite andb_false_r]; reflexivity.
  - replace (Z.land v (2 ^ k)) with 0; [reflexivity|].
    apply Z.bits_inj'. intros n Hn. rewrite Z.land_spec, Z.pow2_bits_eqb, Z.bits_0 by lia.
    destruct (Z.eqb_spec k n) as [->|]; [rewrite B|rewrite andb_false_r]; reflexivity.
Qed.

(** The flag byte of [GetFlags] holds each flag at its own bit. *)
Lemma flags_bits n v mf xf d i z c :
  let f := Z.lor (Z.lor (Z.lor (Z.lor (Z.lor (Z.lor (Z.lor (Z.lor 0
    (flag_bit n 0x80)) (flag_bit v 0x40)) (flag_bit mf 0x20)) (flag_bit xf 0x10))
    (flag_bit d 0x08)) (flag_bit i 0x04)) (flag_bit z 0x02)) (flag_bit c 0x01) in
  nz (Z.land f 0x80) = n /\ nz (Z.land f 0x40) = v /\ nz (Z.land f 0x20) = mf /\
  nz (Z.land f 0x10) = xf /\ nz (Z.land f 0x08) = d /\ nz (Z.land f 0x04) = i /\
  nz (Z.land f 0x02) = z /\ nz (Z.land f 0x01) = c.
Proof. destruct n, v, mf, xf, d, i, z, c; vm_compute; repeat split. Qed.

Lemma pack_unpack_native f :
  0 <= f <= 255 ->
  Z.lor (Z.lor (Z.lor (Z.lor (Z.lor (Z.lor (Z.lor (Z.lor 0
    (flag_bit (nz (Z.land f 0x80)) 0x80)) (flag_bit (nz (Z.land f 0x40)) 0x40))
    (flag_bit (nz (Z.land f 0x20)) 0x20)) (flag_bit (nz (Z.land f 0x10)) 0x10))
    (flag_bit (nz (Z.land f 0x08)) 0x08)) (flag_bit (nz (Z.land f 0x04)) 0x04))
    (flag_bit (nz (Z.land f 0x02)) 0x02)) (flag_bit (nz (Z.land f 0x01)) 0x01) = f.
Proof.
  intros Hf. apply Z.eqb_eq. revert f Hf.
  apply (forall_byte (fun f => Z.lor _ _ =? f)). vm_compute. reflexivity.
Qed.

Lemma pack_unpack_emulation f :
  0 <= f <= 255 ->
  Z.lor (Z.lor (Z.lor (Z.lor (Z.lor (Z.lor (Z.lor (Z.lor 0
    (flag_bit (nz (Z.land f 0x80)) 0x80)) (flag_bit (nz (Z.land f 0x40)) 0x40))
    (flag_bit true 0x20)) (flag_bit true 0x10))
    (flag_bit (nz (Z.land f 0x08)) 0x08)) (flag_bit (nz (Z.land f 0x04)) 0x04))
    (flag_bit (nz (Z.land f 0x02)) 0x02)) (flag_bit (nz (Z.land f 0x01)) 0x01)
  = Z.lor f 0x30.
Proof.
  intros Hf. apply Z.eqb_eq. revert f Hf.
  apply (forall_byte (fun f => Z.lor _ _ =? Z.lor f 0x30)). vm_compute. reflexivity.
Qed.

(** Three post-decrements of SP, seen through the page-one wrap. *)
Lemma sp_after_reset sp :
  Z.lor (Z.land (u16 (u16 (u16 (sp - 1) - 1) - 1)) 255) 256
  = Z.lor (Z.land (sp - 3) 0xff) 0x100.
Proof.
  f_equal. rewrite !land_255. unfold u16.
  Z.div_mod_to_equations. lia.
Qed.

Lemma u16_small x : 0 <= x <= 65535 -> u16 x = x.
Proof. intros. unfold u16. apply Z.mod_small. lia. Qed.

(** A value masked by [m < 2^k] is below [2^k]. *)
Lemma land_mask_range x m k :
  0 <= k -> 0 <= m < 2 ^ k -> 0 <= Z.land x m < 2 ^ k.
Proof.
  intros Hk Hm. rewrite <- (Z.mod_small m (2 ^ k)) by lia.
  rewrite <- Z.land_ones by lia. rewrite Z.land_assoc, Z.land_ones by lia.
  apply Z.mod_pos_bound. lia.
Qed.

Lemma land_u8 a value :
  0 <= value <= 255 -> Z.land (Z.land a 0xff) value = Z.land a value.
Proof.
  intros Hv. rewrite <- Z.land_assoc. f_equal.
  rewrite Z.land_comm, land_255. apply Z.mod_small. lia.
Qed.

Lemma land_u16 a value :
  0 <= value <= 65535 -> Z.land (Z.land a 0xffff) value = Z.land a value.
Proof.
  intros Hv. rewrite <- Z.land_assoc. f_equal.
  rewrite Z.land_comm, land_65535. apply Z.mod_small. lia.
Qed.

(** ** ADC then SBC: the arithmetic *)

Lemma adc8_low a v c d : adc8 a v c d = adc8 (Z.land a 0xff) v c d.
Proof. unfold adc8. rewrite <- !Z.land_assoc. reflexivity. Qed.

Lemma sbc8_low a v c d : sbc8 a v c d = sbc8 (Z.land a 0xff) v c d.
Proof. unfold sbc8. rewrite <- !Z.land_assoc. reflexivity. Qed.

Lemma land_lor_low x r :
  Z.land (Z.lor (Z.land x 0xff00) (Z.land r 0xff)) 0xff = Z.land r 0xff.
Proof.
  rewrite Z.land_lor_distr_l, <- !Z.land_assoc.
  change (Z.land 0xff00 0xff) with 0. change (Z.land 0xff 0xff) with 0xff.
  rewrite Z.land_0_r. reflexivity.
Qed.

Lemma is_bcd_low a : is_bcd true a = is_bcd true (Z.land a 0xff).
Proof.
  unfold is_bcd, nibble. cbn [forallb]. rewrite !Z.shiftr_land, <- !Z.land_assoc.
  reflexivity.
Qed.

Lemma roundtrip_byte al v d :
  0 <= al <= 255 -> 0 <= v <= 255 ->
  (d = true -> is_bcd true al = true /\ is_bcd true v = true) ->
  Z.land (sbc8 (Z.land (adc8 al v false d) 0xff) v true d) 0xff = al.
Proof.
  intros Hal Hv Hd.
  assert (Hall : forallb (fun al => forallb (fun v =>
             implb (negb d || (is_bcd true al && is_bcd true v))
               (Z.land (sbc8 (Z.land (adc8 al v false d) 0xff) v true d) 0xff =? al))
             (map Z.of_nat (seq 0 256))) (map Z.of_nat (seq 0 256)) = true)
    by (destruct d; vm_compute; reflexivity).
  pose proof (forall_byte _ Hall al Hal) as Hrow. cbv beta in Hrow.
  pose proof (forall_byte _ Hrow v Hv) as Hcell. cbv beta in Hcell.
  destruct d.
  - destruct (Hd eq_refl) as [Ba Bv]. rewrite Ba, Bv in Hcell.
    apply Z.eqb_eq. exact Hcell.
  - apply Z.eqb_eq. exact Hcell.
Qed.

Lemma nibble_div k a : 0 <= k -> nibble k a = (a / 2 ^ (4 * k)) mod 16.
Proof.
  intros Hk. unfold nibble. change 0xf with (Z.ones 4).
  rewrite Z.land_ones, Z.shiftr_div_pow2 by lia. reflexivity.
Qed.

Lemma land_shifted_nibble a k :
  0 <= k -> Z.land a (Z.shiftl 0xf (4 * k)) = 2 ^ (4 * k) * nibble k a.
Proof.
  intros Hk. unfold nibble.
  replace (2 ^ (4 * k) * Z.land (Z.shiftr a (4 * k)) 0xf)
    with (Z.shiftl (Z.land (Z.shiftr a (4 * k)) 0xf) (4 * k))
    by (rewrite Z.shiftl_mul_pow2 by lia; lia).
  apply Z.bits_inj'. intros n Hn. rewrite Z.land_spec.
  destruct (Z.ltb_spec n (4 * k)).
  - rewrite !Z.shiftl_spec_low by lia. apply andb_false_r.
  - rewrite !Z.shiftl_spec by lia. rewrite Z.land_spec, Z.shiftr_spec by lia.
    f_equal. f_equal. lia.
Qed.

Lemma land_nibble0 a : Z.land a 0xf = nibble 0 a.
Proof.
  pose proof (land_shifted_nibble a 0 ltac:(lia)) as E.
  change (Z.land a 0xf = 1 * nibble 0 a) in E. lia.
Qed.
Lemma land_nibble1 a : Z.land a 0xf0 = 16 * nibble 1 a.
Proof. exact (land_shifted_nibble a 1 ltac:(lia)). Qed.
Lemma land_nibble2 a : Z.land a 0xf00 = 256 * nibble 2 a.
Proof. exact (land_shifted_nibble a 2 ltac:(lia)). Qed.
Lemma land_nibble3 a : Z.land a 0xf000 = 4096 * nibble 3 a.
Proof. exact (land_shifted_nibble a 3 ltac:(lia)). Qed.

Lemma nibble_range k a : 0 <= nibble k a <= 15.
Proof.
  unfold nibble. pose proof (land_mask_range (Z.shiftr a (4 * k)) 0xf 4). lia.
Qed.

Lemma land_ffff_nibbles a :
  Z.land a 0xffff = nibble 0 a + 16 * nibble 1 a + 256 * nibble 2 a + 4096 * nibble 3 a.
Proof.
  rewrite land_65535, !nibble_div by lia.
  change (2 ^ (4 * 0)) with 1. change (2 ^ (4 * 1)) with 16.
  change (2 ^ (4 * 2)) with 256. change (2 ^ (4 * 3)) with 4096.
  Z.div_mod_to_equations. lia.
Qed.

Lemma nibbles_of_digits x s0 s1 s2 s3 :
  0 <= s0 <= 15 -> 0 <= s1 <= 15 -> 0 <= s2 <= 15 -> 0 <= s3 <= 15 ->
  x = s0 + 16 * s1 + 256 * s2 + 4096 * s3 ->
  nibble 0 x = s0 /\ nibble 1 x = s1 /\ nibble 2 x = s2 /\ nibble 3 x = s3.
Proof.
  intros H0 H1 H2 H3 ->. rewrite !nibble_div by lia.
  change (2 ^ (4 * 0)) with 1. change (2 ^ (4 * 1)) with 16.
  change (2 ^ (4 * 2)) with 256. change (2 ^ (4 * 3)) with 4096.
  repeat split; Z.div_mod_to_equations; lia.
Qed.

Lemma is_bcd_word a :
  is_bcd false a = true ->
  nibble 0 a <= 9 /\ nibble 1 a <= 9 /\ nibble 2 a <= 9 /\ nibble 3 a <= 9.
Proof.
  unfold is_bcd. cbn [forallb]. rewrite !andb_true_iff, !Z.leb_le. tauto.
Qed.

(** The decimal adjustment of one digit position of [Adc]. *)
Lemma adjust0 r :
  0 <= r <= 19 ->
  (if r >? 0x9 then u32 (Z.land (r + 0x6) 0xf + 0x10) else r) = r + 6 * Z.b2z (r >? 9).
Proof.
  intros Hr. destruct (Z.gtb_spec r 9); cbn [Z.b2z]; [|lia].
  change 0xf with (Z.ones 4). rewrite Z.land_ones by lia. unfold u32.
  change (2 ^ 4) with 16. Z.div_mod_to_equations. lia.
Qed.

Lemma adjust1 r :
  0 <= r < 320 ->
  (if r >? 0x9f then u32 (Z.land (r + 0x60) 0xff + 0x100) else r) = r + 96 * Z.b2z (r >? 159).
Proof.
  intros Hr. destruct (Z.gtb_spec r 159); cbn [Z.b2z]; [|lia].
  change 0xff with (Z.ones 8). rewrite Z.land_ones by lia. unfold u32.
  change (2 ^ 8) with 256. Z.div_mod_to_equations. lia.
Qed.

Lemma adjust2 r :
  0 <= r < 5120 ->
  (if r >? 0x9ff then u32 (Z.land (r + 0x600) 0xfff + 0x1000) else r)
  = r + 1536 * Z.b2z (r >? 2559).
Proof.
  intros Hr. destruct (Z.gtb_spec r 2559); cbn [Z.b2z]; [|lia].
  change 0xfff with (Z.ones 12). rewrite Z.land_ones by lia. unfold u32.
  change (2 ^ 12) with 4096. Z.div_mod_to_equations. lia.
Qed.

Lemma u32_small x : 0 <= x < 4294967296 -> u32 x = x.
Proof. intros. unfold u32. apply Z.mod_small. lia. Qed.

Lemma adc16_decimal a v :
  is_bcd false a = true -> is_bcd false v = true ->
  exists s0 s1 s2 s3 q0 q1 q2 q3,
    (0 <= s0 <= 9 /\ 0 <= s1 <= 9 /\ 0 <= s2 <= 9 /\ 0 <= s3 <= 9) /\
    (0 <= q0 <= 1 /\ 0 <= q1 <= 1 /\ 0 <= q2 <= 1 /\ 0 <= q3 <= 1) /\
    nibble 0 a + nibble 0 v = s0 + 10 * q0 /\
    nibble 1 a + nibble 1 v + q0 = s1 + 10 * q1 /\
    nibble 2 a + nibble 2 v + q1 = s2 + 10 * q2 /\
    nibble 3 a + nibble 3 v + q2 = s3 + 10 * q3 /\
    adc16 a v false true = s0 + 16 * s1 + 256 * s2 + 4096 * s3 + 65536 * q3.
Proof.
  intros Ba Bv. apply is_bcd_word in Ba, Bv.
  pose proof (nibble_range 0 a). pose proof (nibble_range 1 a).
  pose proof (nibble_range 2 a). pose proof (nibble_range 3 a).
  pose proof (nibble_range 0 v). pose proof (nibble_range 1 v).
  pose proof (nibble_range 2 v). pose proof (nibble_range 3 v).
  unfold adc16. cbn [andb Z.b2z].
  rewrite !land_nibble0, !land_nibble1, !land_nibble2, !land_nibble3.
  generalize dependent (nibble 0 a). generalize dependent (nibble 1 a).
  generalize dependent (nibble 2 a). generalize dependent (nibble 3 a).
  generalize dependent (nibble 0 v). generalize dependent (nibble 1 v).
  generalize dependent (nibble 2 v). generalize dependent (nibble 3 v).
  intros v3 ? v2 ? v1 ? v0 ? ? a3 ? a2 ? a1 ? a0 ? ?.
  cbv zeta.
  rewrite (u32_small (a0 + v0 + 0)) by lia.
  rewrite adjust0 by lia.
  set (q0 := Z.b2z (a0 + v0 + 0 >? 9)).
  assert (Hq0 : (q0 = 1 /\ a0 + v0 >= 10) \/ (q0 = 0 /\ a0 + v0 <= 9))
    by (subst q0; destruct (Z.gtb_spec (a0 + v0 + 0) 9); cbn [Z.b2z]; lia).
  clearbody q0.
  rewrite (u32_small (16 * a1 + 16 * v1 + _)) by lia.
  rewrite adjust1 by lia.
  set (q1 := Z.b2z (_ >? 159)).
  assert (Hq1 : (q1 = 1 /\ a1 + v1 + q0 >= 10) \/ (q1 = 0 /\ a1 + v1 + q0 <= 9))
    by (subst q1; match goal with |- context [?x >? ?y] => destruct (Z.gtb_spec x y) end;
        cbn [Z.b2z]; lia).
  clearbody q1.
  rewrite (u32_small (256 * a2 + 256 * v2 + _)) by lia.
  rewrite adjust2 by lia.
  set (q2 := Z.b2z (_ >? 2559)).
  assert (Hq2 : (q2 = 1 /\ a2 + v2 + q1 >= 10) \/ (q2 = 0 /\ a2 + v2 + q1 <= 9))
    by (subst q2; match goal with |- context [?x >? ?y] => destruct (Z.gtb_spec x y) end;
        cbn [Z.b2z]; lia).
  clearbody q2.
  rewrite (u32_small (4096 * a3 + 4096 * v3 + _)) by lia.
  match goal with |- context [if ?x >? ?y then _ else _] => destruct (Z.gtb_spec x y) end.
  - rewrite u32_small by lia.
    exists (a0 + v0 - 10 * q0), (a1 + v1 + q0 - 10 * q1), (a2 + v2 + q1 - 10 * q2),
           (a3 + v3 + q2 - 10), q0, q1, q2, 1.
    repeat split; lia.
  - exists (a0 + v0 - 10 * q0), (a1 + v1 + q0 - 10 * q1), (a2 + v2 + q1 - 10 * q2),
           (a3 + v3 + q2), q0, q1, q2, 0.
    repeat split; lia.
Qed.

Lemma sign_test k p T :
  0 < k < 32 -> p = 2 ^ k -> - p < T < p ->
  nz (Z.land (u32 T) p) = (T <? 0).
Proof.
  intros Hk -> HT. rewrite nz_land_pow2 by lia. unfold u32.
  change 4294967296 with (2 ^ 32). rewrite Z.mod_pow2_bits_low by lia.
  destruct (Z.ltb_spec T 0).
  - apply Z.bits_above_log2_neg; [lia|].
    destruct (Z.eq_dec (Z.pred (- T)) 0) as [->|]; [simpl; lia|].
    apply Z.log2_lt_pow2; lia.
  - destruct (Z.eq_dec T 0) as [->|]; [apply Z.bits_0|].
    apply Z.bits_above_log2; [lia|]. apply Z.log2_lt_pow2; lia.
Qed.

(** The decimal adjustment of one digit position of [Sbc]: [T] is the
    signed value whose 32-bit wrap is in [temp]. *)
Lemma sub_adjust k p adj T :
  0 < k < 32 -> p = 2 ^ k -> - p < T < p ->
  (if nz (Z.land (u32 T) p) then u32 (u32 T - adj) else u32 T)
  = u32 (T - adj * Z.b2z (T <? 0)).
Proof.
  intros Hk Hp HT. rewrite (sign_test k p T Hk Hp HT).
  destruct (T <? 0); cbn [Z.b2z].
  - unfold u32. rewrite Zminus_mod_idemp_l. f_equal. lia.
  - f_equal. lia.
Qed.

Lemma u32_add_u32 x y : u32 (x + u32 y) = u32 (x + y).
Proof. unfold u32. apply Zplus_mod_idemp_r. Qed.

Lemma sbc16_decimal A v :
  is_bcd false A = true -> is_bcd false v = true ->
  exists t0 t1 t2 t3 b0 b1 b2 b3,
    (0 <= t0 <= 9 /\ 0 <= t1 <= 9 /\ 0 <= t2 <= 9 /\ 0 <= t3 <= 9) /\
    (0 <= b0 <= 1 /\ 0 <= b1 <= 1 /\ 0 <= b2 <= 1 /\ 0 <= b3 <= 1) /\
    nibble 0 A - nibble 0 v = t0 - 10 * b0 /\
    nibble 1 A - nibble 1 v - b0 = t1 - 10 * b1 /\
    nibble 2 A - nibble 2 v - b1 = t2 - 10 * b2 /\
    nibble 3 A - nibble 3 v - b2 = t3 - 10 * b3 /\
    Z.land (sbc16 A v true true) 0xFFFF = t0 + 16 * t1 + 256 * t2 + 4096 * t3.
Proof.
  intros Ba Bv. apply is_bcd_word in Ba, Bv.
  pose proof (nibble_range 0 A). pose proof (nibble_range 1 A).
  pose proof (nibble_range 2 A). pose proof (nibble_range 3 A).
  pose proof (nibble_range 0 v). pose proof (nibble_range 1 v).
  pose proof (nibble_range 2 v). pose proof (nibble_range 3 v).
  unfold sbc16. cbn [Z.b2z].
  rewrite !land_nibble0, !land_nibble1, !land_nibble2, !land_nibble3.
  generalize dependent (nibble 0 A). generalize dependent (nibble 1 A).
  generalize dependent (nibble 2 A). generalize dependent (nibble 3 A).
  generalize dependent (nibble 0 v). generalize dependent (nibble 1 v).
  generalize dependent (nibble 2 v). generalize dependent (nibble 3 v).
  intros v3 ? v2 ? v1 ? v0 ? ? s3 ? s2 ? s1 ? s0 ? ?.
  cbv zeta.
  rewrite (sub_adjust 4 16 6) by lia.
  set (b0 := Z.b2z (_ <? 0)).
  assert (Hb0 : (b0 = 1 /\ s0 - v0 < 0) \/ (b0 = 0 /\ s0 - v0 >= 0))
    by (subst b0; match goal with |- context [?x <? ?y] => destruct (Z.ltb_spec x y) end;
        cbn [Z.b2z]; lia).
  clearbody b0.
  rewrite u32_add_u32. rewrite (sub_adjust 8 256 96) by lia.
  set (b1 := Z.b2z (_ <? 0)).
  assert (Hb1 : (b1 = 1 /\ s1 - v1 - b0 < 0) \/ (b1 = 0 /\ s1 - v1 - b0 >= 0))
    by (subst b1; match goal with |- context [?x <? ?y] => destruct (Z.ltb_spec x y) end;
        cbn [Z.b2z]; lia).
  clearbody b1.
  rewrite u32_add_u32. rewrite (sub_adjust 12 4096 1536) by lia.
  set (b2 := Z.b2z (_ <? 0)).
  assert (Hb2 : (b2 = 1 /\ s2 - v2 - b1 < 0) \/ (b2 = 0 /\ s2 - v2 - b1 >= 0))
    by (subst b2; match goal with |- context [?x <? ?y] => destruct (Z.ltb_spec x y) end;
        cbn [Z.b2z]; lia).
  clearbody b2.
  rewrite u32_add_u32. rewrite (sub_adjust 16 65536 24576) by lia.
  set (b3 := Z.b2z (_ <? 0)).
  assert (Hb3 : (b3 = 1 /\ s3 - v3 - b2 < 0) \/ (b3 = 0 /\ s3 - v3 - b2 >= 0))
    by (subst b3; match goal with |- context [?x <? ?y] => destruct (Z.ltb_spec x y) end;
        cbn [Z.b2z]; lia).
  clearbody b3.
  exists (s0 - v0 + 10 * b0), (s1 - v1 - b0 + 10 * b1), (s2 - v2 - b1 + 10 * b2),
         (s3 - v3 - b2 + 10 * b3), b0, b1, b2, b3.
  repeat split; try lia.
  rewrite land_65535. unfold u32. Z.div_mod_to_equations. lia.
Qed.

Lemma is_bcd_of_digits x s0 s1 s2 s3 :
  0 <= s0 <= 9 -> 0 <= s1 <= 9 -> 0 <= s2 <= 9 -> 0 <= s3 <= 9 ->
  x = s0 + 16 * s1 + 256 * s2 + 4096 * s3 ->
  is_bcd false x = true.
Proof.
  intros H0 H1 H2 H3 Hx.
  destruct (nibbles_of_digits x s0 s1 s2 s3) as (N0 & N1 & N2 & N3); try lia.
  unfold is_bcd. cbn [forallb]. rewrite N0, N1, N2, N3.
  rewrite !andb_true_iff, !Z.leb_le. lia.
Qed.

Lemma roundtrip_word_decimal a v :
  is_bcd false a = true -> is_bcd false v = true ->
  Z.land (sbc16 (u16 (adc16 a v false true)) v true true) 0xFFFF = Z.land a 0xffff.
Proof.
  intros Ba Bv.
  destruct (adc16_decimal a v Ba Bv)
    as (s0 & s1 & s2 & s3 & q0 & q1 & q2 & q3 & Hs & Hq & E0 & E1 & E2 & E3 & ->).
  assert (HA : u16 (s0 + 16 * s1 + 256 * s2 + 4096 * s3 + 65536 * q3)
               = s0 + 16 * s1 + 256 * s2 + 4096 * s3)
    by (unfold u16; Z.div_mod_to_equations; lia).
  rewrite HA.
  destruct (nibbles_of_digits _ s0 s1 s2 s3 ltac:(lia) ltac:(lia) ltac:(lia) ltac:(lia) eq_refl)
    as (N0 & N1 & N2 & N3).
  destruct (sbc16_decimal _ v
              (is_bcd_of_digits _ s0 s1 s2 s3 ltac:(lia) ltac:(lia) ltac:(lia) ltac:(lia) eq_refl)
              Bv)
    as (t0 & t1 & t2 & t3 & b0 & b1 & b2 & b3 & Ht & Hb & F0 & F1 & F2 & F3 & ->).
  rewrite N0 in F0. rewrite N1 in F1. rewrite N2 in F2. rewrite N3 in F3.
  rewrite land_ffff_nibbles.
  apply is_bcd_word in Ba, Bv.
  pose proof (nibble_range 0 a). pose proof (nibble_range 1 a).
  pose proof (nibble_range 2 a). pose proof (nibble_range 3 a).
  pose proof (nibble_range 0 v). pose proof (nibble_range 1 v).
  pose proof (nibble_range 2 v). pose proof (nibble_range 3 v).
  lia.
Qed.

Lemma roundtrip_word_binary a v :
  Z.land (sbc16 (u16 (adc16 a v false false)) v true false) 0xFFFF = Z.land a 0xffff.
Proof.
  unfold sbc16, adc16. cbn [andb Z.b2z]. rewrite !land_65535.
  unfold u16, u32. Z.div_mod_to_equations. lia.
Qed.

(** ** Rules of the weakest-precondition calculus

    The machine is kept as an explicit record.  A bus callback is host
    code: the rules for [Read], [Write] and [Idle] quantify over the byte
    returned and over the host state left behind, and record the call in
    the log. *)

Section WpRules.

Context {H : Type} {HB : Bus H}.
Implicit Types (s : Cpu) (h : H) (l : list Event).

Lemma wp_exec {A} (c : M H A) (Q : A -> Machine H -> Prop) (m : Machine H) :
  wp c Q m -> Q (eval c m) (exec c m).
Proof. exact (fun q => q). Qed.

Lemma wp_mono {A} (c : M H A) (Q Q' : A -> Machine H -> Prop) (m : Machine H) :
  wp c Q m -> (forall a m', Q a m' -> Q' a m') -> wp c Q' m.
Proof. intros HQ HI. apply HI. exact HQ. Qed.

Lemma wp_ret {A} (a : A) (Q : A -> Machine H -> Prop) (m : Machine H) :
  Q a m -> wp (ret a) Q m.
Proof. exact (fun q => q). Qed.

Lemma wp_bind {A B} (c : M H A) (k : A -> M H B) (Q : B -> Machine H -> Prop)
    (m : Machine H) :
  wp c (fun a m' => wp (k a) Q m') m -> wp (bind c k) Q m.
Proof. exact (fun q => q). Qed.

Lemma wp_get {A} (f : Cpu -> A) (Q : A -> Machine H -> Prop) s h l :
  Q (f s) (mkMachine s h l) -> wp (get f) Q (mkMachine s h l).
Proof. exact (fun q => q). Qed.

Lemma wp_set {A} (upd : A -> Cpu -> Cpu) (v : A) (Q : unit -> Machine H -> Prop) s h l :
  Q tt (mkMachine (upd v s) h l) -> wp (set upd v) Q (mkMachine s h l).
Proof. exact (fun q => q). Qed.

Lemma wp_Read (address : Z) (Q : Z -> Machine H -> Prop) s h l :
  (forall value h', 0 <= value <= 255 ->
     Q value (mkMachine s h' (EvRead address value :: l))) ->
  wp (Read address) Q (mkMachine s h l).
Proof. intros HQ. apply HQ. apply u8_range. Qed.

Lemma wp_Write (address value : Z) (Q : unit -> Machine H -> Prop) s h l :
  (forall h', Q tt (mkMachine s h' (EvWrite address (u8 value) :: l))) ->
  wp (Write address value) Q (mkMachine s h l).
Proof. intros HQ. apply HQ. Qed.

Lemma wp_Idle (Q : unit -> Machine H -> Prop) s h l :
  (forall h', Q tt (mkMachine s h' (EvIdle false :: l))) -> wp Idle Q (mkMachine s h l).
Proof. intros HQ. apply HQ. Qed.

Lemma wp_IdleWait (Q : unit -> Machine H -> Prop) s h l :
  (forall h', Q tt (mkMachine s h' (EvIdle true :: l))) ->
  wp IdleWait Q (mkMachine s h l).
Proof. intros HQ. apply HQ. Qed.

End WpRules.

(** ** Symbolic execution by weakest preconditions *)

(** Projections and updates of an explicit [Cpu] record. *)
Ltac reduce_cpu t :=
  eval cbv beta iota delta
    [m_a m_x m_y m_sp m_pc m_dp m_k m_db m_c m_z m_v m_n m_i m_d m_xf m_mf m_e
     m_waiting m_stopped m_irqWanted m_nmiWanted m_intWanted m_resetWanted
     with_a with_x with_y with_sp with_pc with_dp with_k with_db with_c with_z with_v with_n
     with_i with_d with_xf with_mf with_e with_waiting with_stopped with_irqWanted
     with_nmiWanted with_intWanted with_resetWanted] in t.

Ltac record_simpl :=
  cbv beta iota zeta delta
    [cpu host log
     m_a m_x m_y m_sp m_pc m_dp m_k m_db m_c m_z m_v m_n m_i m_d m_xf m_mf m_e
     m_waiting m_stopped m_irqWanted m_nmiWanted m_intWanted m_resetWanted
     with_a with_x with_y with_sp with_pc with_dp with_k with_db with_c with_z with_v with_n
     with_i with_d with_xf with_mf with_e with_waiting with_stopped with_irqWanted
     with_nmiWanted with_intWanted with_resetWanted fst snd].

Ltac head t := lazymatch t with ?f _ => head f | _ => t end.

(** Case analysis on the condition of a branch: on the flag it tests when
    it is a variable, on the whole condition otherwise. *)
Ltac destruct_cond b :=
  lazymatch b with
  | negb ?x => destruct_cond x
  | andb ?x _ => destruct_cond x
  | orb ?x _ => destruct_cond x
  | _ => first [is_var b; destruct b | destruct b eqn:?]
  end; cbv beta iota delta [negb andb orb].

(** A [let] of the source: its value is substituted ... *)
Ltac let_subst _ :=
  lazymatch goal with
  | |- wp (let x := ?v in @?k x) ?Q ?m => change (wp (k v) Q m); cbv beta
  end.

(** ... or named, with its defining equation kept, so that no expression
    is ever copied. *)
Ltac let_name _ :=
  lazymatch goal with
  | |- wp (let x := ?v in @?k x) ?Q ?m =>
      let y := fresh x in
      let Dy := fresh "D" y in
      pose (y := v); change (wp (k y) Q m); cbv beta;
      assert (Dy : y = v) by reflexivity; clearbody y
  end.

(** One step of symbolic execution. *)
Ltac step_with on_let :=
  lazymatch goal with
  | |- wp (let x := _ in _) _ _ => on_let tt
  | |- wp (bind _ _) _ _ => apply wp_bind
  | |- wp (ret _) _ _ => apply wp_ret; cbv beta
  | |- wp (get ?f) ?Q (mkMachine ?s ?h ?l) =>
      let v := reduce_cpu (f s) in
      apply wp_get; change (Q v (mkMachine s h l)); cbv beta
  | |- wp (set ?upd ?v) ?Q (mkMachine ?s ?h ?l) =>
      let s' := reduce_cpu (upd v s) in
      apply wp_set; change (Q tt (mkMachine s' h l)); cbv beta
  | |- wp (Read _) _ _ => apply wp_Read; intros ? ? ?; cbv beta
  | |- wp (Write _ _) _ _ => apply wp_Write; intros ?; cbv beta
  | |- wp Idle _ _ => apply wp_Idle; intros ?; cbv beta
  | |- wp IdleWait _ _ => apply wp_IdleWait; intros ?; cbv beta
  | |- wp (when true ?c) ?Q ?m => change (wp c Q m)
  | |- wp (when false _) ?Q ?m => change (Q tt m); cbv beta
  | |- wp (when ?b _) _ _ => destruct_cond b
  | |- wp (if true then ?c else _) ?Q ?m => change (wp c Q m)
  | |- wp (if false then _ else ?c) ?Q ?m => change (wp c Q m)
  | |- wp (if ?b then _ else _) _ _ => destruct_cond b
  | |- wp (DoOpcode ?n) ?Q ?m =>
      let c := eval cbv beta iota delta [DoOpcode] in (DoOpcode n) in
      change (wp c Q m)
  | |- wp ?c ?Q ?m =>
      let f := head c in
      let c' := eval cbv delta [f] in c in
      change (wp c' Q m); cbv beta
  end.

Ltac step := step_with let_subst.
Ltac steps := repeat step; record_simpl.

Section Proofs.

Context {H : Type} {HB : Bus H}.
Implicit Types m : Machine H.

Lemma trace_log (m m' : Machine H) (es : list Event) :
  log m' = rev es ++ log m -> trace m' = trace m ++ es.
Proof.
  unfold trace. intros ->. rewrite rev_app_distr, rev_involutive. reflexivity.
Qed.

(** ** Flag byte round trip *)

(** C6: for every flag byte [f], [SetFlags(f)] followed by [GetFlags()]
    returns [f] in native mode and [f] with bits 5 and 4 set, the other
    bits unchanged, in emulation mode. *)
Theorem SetFlags_GetFlags (m : Machine H) (f : Z) :
  0 <= f <= 255 ->
  eval GetFlags (exec (SetFlags f) m) =
  if m_e (cpu m) then Z.lor f 0x30 else f.
Proof.
  intros Hf. destruct_machine m. run. destruct e.
  - apply pack_unpack_emulation; exact Hf.
  - pose proof (pack_unpack_native f Hf) as P.
    destruct (nz (Z.land f 16)); exact P.
Qed.

(** ** The reset sequence *)

(** C5: after [Reset(true)] the first [RunOpcode] reads once at the
    program address, idles once, reads three times on the stack page while
    SP counts down, and ends with SP = $01FD, E = I = M = X = 1, D = 0,
    K = 0 and PC the little-endian word read at $00FFFC/$00FFFD. *)
Theorem reset_sequence (m : Machine H) :
  let m1 := exec RunOpcode (exec (Reset true) m) in
  exists d0 d1 d2 d3 lo hi,
    trace m1 = trace m ++ [EvRead 0 d0; EvIdle false; EvRead 0x100 d1; EvRead 0x1ff d2;
                           EvRead 0x1fe d3; EvRead 0xfffc lo; EvRead 0xfffd hi]
    /\ m_sp (cpu m1) = 0x01FD
    /\ m_e (cpu m1) = true /\ m_i (cpu m1) = true /\ m_d (cpu m1) = false
    /\ m_mf (cpu m1) = true /\ m_xf (cpu m1) = true
    /\ m_k (cpu m1) = 0
    /\ m_pc (cpu m1) = lo + 256 * hi.
Proof.
  destruct_machine m. intros m1.
  do 6 eexists.
  split; [apply trace_log; subst m1; run; reflexivity|].
  subst m1; run.
  repeat (split; [reflexivity|]).
  apply word_of_bytes; apply u8_range.
Qed.

(** C10: [Reset(false)] followed by the first [RunOpcode] keeps A, DP, DB
    and the flags N, V, Z, C; SP becomes its low byte minus three in page
    one, X and Y keep their low bytes only, K = 0, E = I = M = X = 1 and
    D = 0 (PC is loaded from the reset vector). *)
Theorem soft_reset_frame (m : Machine H) :
  let m1 := exec RunOpcode (exec (Reset false) m) in
  (m_a (cpu m1) = m_a (cpu m) /\ m_dp (cpu m1) = m_dp (cpu m) /\
   m_db (cpu m1) = m_db (cpu m) /\
   m_n (cpu m1) = m_n (cpu m) /\ m_v (cpu m1) = m_v (cpu m) /\
   m_z (cpu m1) = m_z (cpu m) /\ m_c (cpu m1) = m_c (cpu m)) /\
  m_sp (cpu m1) = Z.lor (Z.land (m_sp (cpu m) - 3) 0xff) 0x100 /\
  m_x (cpu m1) = Z.land (m_x (cpu m)) 0xff /\
  m_y (cpu m1) = Z.land (m_y (cpu m)) 0xff /\
  m_k (cpu m1) = 0 /\ m_e (cpu m1) = true /\ m_i (cpu m1) = true /\
  m_d (cpu m1) = false /\ m_mf (cpu m1) = true /\ m_xf (cpu m1) = true /\
  m_irqWanted (cpu m1) = m_irqWanted (cpu m).
Proof.
  destruct_machine m. intros m1; subst m1. run.
  pose proof (flags_bits n v mf xf false true z c) as F. cbv zeta in F.
  destruct F as (Fn & Fv & _ & _ & Fd & Fi & Fz & Fc).
  repeat split; try reflexivity; try assumption.
  apply sp_after_reset.
Qed.

(** ** Interrupt service *)

(** C9: when an interrupt is serviced with both [nmiWanted] and
    [irqWanted] pending, PC is read from the NMI vector ($00FFEA/EB in
    native mode, $00FFFA/FB in emulation mode), [nmiWanted] is cleared and
    [irqWanted] stays set. *)
Theorem nmi_has_priority (m : Machine H) :
  m_nmiWanted (cpu m) = true -> m_irqWanted (cpu m) = true ->
  let m1 := exec DoInterrupt m in
  let vector := if m_e (cpu m) then 0xFFFA else 0xFFEA in
  (exists lo hi rest,
     log m1 = EvRead (vector + 1) hi :: EvRead vector lo :: rest /\
     m_pc (cpu m1) = lo + 256 * hi) /\
  m_nmiWanted (cpu m1) = false /\
  m_irqWanted (cpu m1) = true.
Proof.
  intros Hnmi Hirq m1 vector. subst m1 vector.
  destruct_machine m. cbn [cpu m_nmiWanted m_irqWanted] in Hnmi, Hirq. subst.
  destruct e; run;
    (split; [do 3 eexists; split; [reflexivity| apply word_of_bytes; apply u8_range]
            | split; reflexivity]).
Qed.

(** C1, as the code has it: when a hardware interrupt is serviced in
    emulation mode (E = 1, hence M = 1), the flag byte pushed is
    [GetFlags() & $EF]: bit 5 is 1 and bit 4, the B position, is 0. *)
Theorem hw_interrupt_flag_byte (m : Machine H) :
  m_e (cpu m) = true -> m_mf (cpu m) = true ->
  let m1 := exec DoInterrupt m in
  exists address flags,
    last_write (log m1) = Some (address, flags) /\
    flags = Z.land (eval GetFlags m) 0xEF /\
    Z.testbit flags 5 = true /\
    Z.testbit flags 4 = false.
Proof.
  intros He Hmf m1. subst m1.
  destruct_machine m. cbn [cpu m_e m_mf] in He, Hmf. subst. run. cbn [last_write].
  do 2 eexists. split; [reflexivity|].
  destruct n, v, xf, d, i, z, c; vm_compute; repeat split.
Qed.

(** ** JMP ($aaaa) *)

(** C8: opcode $6C fetches the pointer address [adr] from the instruction
    stream, reads the low byte of the new PC at [adr] and the high byte at
    [adr & $FF00] when E = 1 and the low byte of [adr] is $FF, at the
    16-bit [adr + 1] otherwise. *)
Theorem jmp_indirect_page_wrap (m : Machine H) :
  let m1 := exec (DoOpcode 0x6C) m in
  let k := m_k (cpu m) in
  let pc := m_pc (cpu m) in
  exists lo hi pcl pch,
    let adr := lo + 256 * hi in
    let adr_h := if m_e (cpu m) && (Z.land adr 0xFF =? 0xFF)
                 then Z.land adr 0xFF00 else u16 (adr + 1) in
    (0 <= lo <= 255 /\ 0 <= hi <= 255 /\ 0 <= pcl <= 255 /\ 0 <= pch <= 255) /\
    log m1 = EvRead adr_h pch :: EvRead adr pcl
             :: EvRead (Z.lor (Z.shiftl k 16) (u16 (pc + 1))) hi
             :: EvRead (Z.lor (Z.shiftl k 16) pc) lo :: log m /\
    m_pc (cpu m1) = pcl + 256 * pch.
Proof.
  intros m1 k0 pc0. subst m1 k0 pc0.
  apply (wp_exec (DoOpcode 0x6C)
           (fun _ m1 => exists lo hi pcl pch,
              let adr := lo + 256 * hi in
              let adr_h := if m_e (cpu m) && (Z.land adr 0xFF =? 0xFF)
                           then Z.land adr 0xFF00 else u16 (adr + 1) in
              (0 <= lo <= 255 /\ 0 <= hi <= 255 /\ 0 <= pcl <= 255 /\ 0 <= pch <= 255) /\
              log m1 = EvRead adr_h pch :: EvRead adr pcl
                       :: EvRead (Z.lor (Z.shiftl (m_k (cpu m)) 16) (u16 (m_pc (cpu m) + 1))) hi
                       :: EvRead (Z.lor (Z.shiftl (m_k (cpu m)) 16) (m_pc (cpu m))) lo :: log m /\
              m_pc (cpu m1) = pcl + 256 * pch)).
  destruct_machine m. steps.
  match goal with
  | |- context [EvRead _ ?ph :: EvRead _ ?pl :: EvRead _ ?hi :: EvRead _ ?lo :: l] =>
      exists lo, hi, pl, ph
  end.
  rewrite !word_of_bytes by assumption.
  split; [auto|]. split; [|reflexivity].
  destruct (e && _); [|reflexivity].
  rewrite u16_small; [reflexivity|].
  match goal with |- context [Z.land ?w 65280] =>
    pose proof (land_mask_range w 0xFF00 16) end; lia.
Qed.

(** ** BIT *)

(** C3, as the code has it: the opcodes that reach [Bit] ($24, $2C, $34,
    $3C) set Z from [A & operand] over the accumulator width and copy N
    and V from bits 7/6 (8-bit) or 15/14 (16-bit) of the operand; the
    immediate form $89 sets Z the same way and leaves N and V alone. *)
Theorem BIT_flags (m : Machine H) (opcode : Z) :
  In opcode [0x24; 0x2C; 0x34; 0x3C; 0x89] ->
  let byte := m_mf (cpu m) in
  let m1 := exec (DoOpcode opcode) m in
  exists value,
    last_operand byte (log m1) = Some value /\
    m_z (cpu m1) = (Z.land (Z.land (m_a (cpu m)) (width_mask byte)) value =? 0) /\
    if opcode =? 0x89 then
      m_n (cpu m1) = m_n (cpu m) /\ m_v (cpu m1) = m_v (cpu m)
    else
      m_n (cpu m1) = Z.testbit value (sign_bit byte) /\
      m_v (cpu m1) = Z.testbit value (overflow_bit byte).
Proof.
  intros Hop byte m1. subst byte m1.
  apply (wp_exec (DoOpcode opcode)
           (fun _ m1 => exists value,
              last_operand (m_mf (cpu m)) (log m1) = Some value /\
              m_z (cpu m1) =
                (Z.land (Z.land (m_a (cpu m)) (width_mask (m_mf (cpu m)))) value =? 0) /\
              if opcode =? 0x89 then
                m_n (cpu m1) = m_n (cpu m) /\ m_v (cpu m1) = m_v (cpu m)
              else
                m_n (cpu m1) = Z.testbit value (sign_bit (m_mf (cpu m))) /\
                m_v (cpu m1) = Z.testbit value (overflow_bit (m_mf (cpu m))))).
  destruct_machine m.
  cbn [In] in Hop.
  destruct Hop as [<-|[<-|[<-|[<-|[<-|[]]]]]]; steps.
  all: cbn [last_operand Z.eqb Pos.eqb width_mask sign_bit overflow_bit].
  all: eexists; split; [reflexivity|].
  all: repeat match goal with
         | |- context [u16 (Z.lor ?lo (Z.shiftl ?hi 8))] =>
             rewrite (word_of_bytes lo hi) by assumption
         end.
  all: rewrite ?land_u16, ?land_u8 by lia.
  all: repeat split.
  all: first [ apply (nz_land_pow2 _ 7) | apply (nz_land_pow2 _ 6)
             | apply (nz_land_pow2 _ 15) | apply (nz_land_pow2 _ 14) ]; lia.
Qed.

(** ** STP *)

Lemma RunOpcode_dispatches (m : Machine H) (opcode : Z) :
  dispatches m opcode ->
  exec RunOpcode m = exec (DoOpcode opcode) (exec ReadOpcode (exec CheckInterrupts m)).
Proof.
  destruct_machine m. unfold dispatches. cbn [cpu m_resetWanted m_stopped m_waiting
    m_nmiWanted m_irqWanted m_i].
  intros (-> & -> & -> & Hint & Hop). subst opcode.
  destruct nmiW, irqW, i; try discriminate Hint; reflexivity.
Qed.

(** A stopped CPU with no reset pending stays so under every call but
    [Reset]. *)
Lemma stopped_stays (m : Machine H) (call : Call) :
  is_reset call = false ->
  m_stopped (cpu m) = true -> m_resetWanted (cpu m) = false ->
  m_stopped (cpu (exec (do_call call) m)) = true /\
  m_resetWanted (cpu (exec (do_call call) m)) = false.
Proof.
  destruct_machine m. cbn [cpu m_stopped m_resetWanted]. intros Hc -> ->.
  destruct call; try discriminate Hc; split; reflexivity.
Qed.

Lemma stopped_stays_calls (calls : list Call) : forall m : Machine H,
  forallb (fun c => negb (is_reset c)) calls = true ->
  m_stopped (cpu m) = true -> m_resetWanted (cpu m) = false ->
  m_stopped (cpu (do_calls calls m)) = true.
Proof.
  induction calls as [|c calls IH]; intros m Hcalls Hs Hr; [exact Hs|].
  cbn [forallb] in Hcalls. apply andb_true_iff in Hcalls as [Hc Hcalls].
  apply negb_true_iff in Hc.
  destruct (stopped_stays m c Hc Hs Hr) as [Hs' Hr'].
  cbn [do_calls]. apply IH; assumption.
Qed.

Lemma Reset_clears_stopped (m : Machine H) (hard : bool) :
  m_stopped (cpu (exec (Reset hard) m)) = false.
Proof. destruct_machine m. destruct hard; reflexivity. Qed.

(** C4, as the code has it: once [RunOpcode] has executed STP ($DB), every
    sequence of [RunOpcode], [Nmi] and [SetIrq] calls leaves the CPU
    stopped, and a [Reset], hard or soft, clears the stopped state. *)
Theorem stp_stays_stopped (m : Machine H) (calls : list Call) :
  dispatches m 0xDB ->
  forallb (fun c => negb (is_reset c)) calls = true ->
  let m1 := do_calls calls (exec RunOpcode m) in
  m_stopped (cpu m1) = true /\
  forall hard, m_stopped (cpu (exec (Reset hard) m1)) = false.
Proof.
  intros Hd Hcalls m1. split; [|intros hard; apply Reset_clears_stopped].
  subst m1. apply stopped_stays_calls; [exact Hcalls| |].
  - rewrite (RunOpcode_dispatches m _ Hd). destruct_machine m. reflexivity.
  - rewrite (RunOpcode_dispatches m _ Hd). destruct Hd as (Hr & _).
    destruct_machine m. cbn [cpu m_resetWanted] in Hr. subst. reflexivity.
Qed.

(** ** ADC, SEC, SBC *)

(** What [Adc] leaves in A, with the operand it fetched. *)
Lemma Adc_accumulator m low high :
  let s := cpu m in
  let m1 := exec (Adc low high) m in
  exists value,
    last_operand (m_mf s) (log m1) = Some value /\
    0 <= value <= width_mask (m_mf s) /\
    m_a (cpu m1) =
      (if m_mf s then Z.lor (Z.land (m_a s) 0xff00)
                            (Z.land (adc8 (m_a s) value (m_c s) (m_d s)) 0xff)
       else u16 (adc16 (m_a s) value (m_c s) (m_d s))) /\
    m_d (cpu m1) = m_d s /\ m_mf (cpu m1) = m_mf s.
Proof.
  intros s m1. subst s m1.
  apply (wp_exec (Adc low high)
    (fun _ m1 => exists value,
       last_operand (m_mf (cpu m)) (log m1) = Some value /\
       0 <= value <= width_mask (m_mf (cpu m)) /\
       m_a (cpu m1) =
         (if m_mf (cpu m) then Z.lor (Z.land (m_a (cpu m)) 0xff00)
              (Z.land (adc8 (m_a (cpu m)) value (m_c (cpu m)) (m_d (cpu m))) 0xff)
          else u16 (adc16 (m_a (cpu m)) value (m_c (cpu m)) (m_d (cpu m)))) /\
       m_d (cpu m1) = m_d (cpu m) /\ m_mf (cpu m1) = m_mf (cpu m))).
  destruct_machine m. steps.
  all: cbn [last_operand width_mask]; eexists; split; [reflexivity|].
  all: rewrite ?word_of_bytes by assumption.
  all: split; [lia|]. all: split; [reflexivity|]. all: split; reflexivity.
Qed.

Lemma Sbc_accumulator m low high :
  let s := cpu m in
  let m1 := exec (Sbc low high) m in
  exists value,
    last_operand (m_mf s) (log m1) = Some value /\
    0 <= value <= width_mask (m_mf s) /\
    m_a (cpu m1) =
      (if m_mf s then Z.lor (Z.land (m_a s) 0xFF00)
                            (Z.land (sbc8 (m_a s) value (m_c s) (m_d s)) 0xFF)
       else Z.land (sbc16 (m_a s) value (m_c s) (m_d s)) 0xFFFF).
Proof.
  intros s m1. subst s m1.
  apply (wp_exec (Sbc low high)
    (fun _ m1 => exists value,
       last_operand (m_mf (cpu m)) (log m1) = Some value /\
       0 <= value <= width_mask (m_mf (cpu m)) /\
       m_a (cpu m1) =
         (if m_mf (cpu m) then Z.lor (Z.land (m_a (cpu m)) 0xFF00)
              (Z.land (sbc8 (m_a (cpu m)) value (m_c (cpu m)) (m_d (cpu m))) 0xFF)
          else Z.land (sbc16 (m_a (cpu m)) value (m_c (cpu m)) (m_d (cpu m))) 0xFFFF))).
  destruct_machine m. steps.
  all: cbn [last_operand width_mask]; eexists; split; [reflexivity|].
  all: rewrite ?word_of_bytes by assumption.
  all: split; [lia|]. all: reflexivity.
Qed.

(** SEC ($38) sets C and leaves A, D and M alone. *)
Lemma SEC_effect m :
  let m1 := exec (DoOpcode 0x38) m in
  m_c (cpu m1) = true /\ m_a (cpu m1) = m_a (cpu m) /\
  m_d (cpu m1) = m_d (cpu m) /\ m_mf (cpu m1) = m_mf (cpu m).
Proof.
  intros m1. subst m1.
  apply (wp_exec (DoOpcode 0x38)
    (fun _ m1 => m_c (cpu m1) = true /\ m_a (cpu m1) = m_a (cpu m) /\
       m_d (cpu m1) = m_d (cpu m) /\ m_mf (cpu m1) = m_mf (cpu m))).
  destruct_machine m. steps; repeat split.
Qed.

(** C7, as the code has it: with the carry clear before the ADC, ADC of an
    operand, then SEC, then SBC of the same operand returns A to its
    original value modulo 2^w when D = 0, and when D = 1 for valid BCD
    values of A and of the operand. *)
Theorem adc_sec_sbc_roundtrip (m : Machine H) (low high low' high' value : Z) :
  let byte := m_mf (cpu m) in
  let m1 := exec (Adc low high) m in
  let m2 := exec (Sbc low' high') (exec (DoOpcode 0x38) m1) in
  m_c (cpu m) = false ->
  last_operand byte (log m1) = Some value ->
  last_operand byte (log m2) = Some value ->
  (m_d (cpu m) = true ->
   is_bcd byte (m_a (cpu m)) = true /\ is_bcd byte value = true) ->
  Z.land (m_a (cpu m2)) (width_mask byte) = Z.land (m_a (cpu m)) (width_mask byte).
Proof.
  intros byte m1 m2 Hc Hop1 Hop2 Hbcd.
  destruct (Adc_accumulator m low high) as (v1 & Hv1 & Rv1 & Ha1 & Hd1 & Hmf1).
  fold m1 in Hv1, Ha1, Hd1, Hmf1. fold byte in Hv1, Rv1, Ha1, Hmf1.
  destruct (SEC_effect m1) as (Hcs & Has & Hds & Hmfs).
  destruct (Sbc_accumulator (exec (DoOpcode 0x38) m1) low' high') as (v2 & Hv2 & Rv2 & Ha2).
  fold m2 in Hv2, Ha2.
  rewrite Hmfs, Hmf1 in Hv2, Rv2, Ha2. rewrite Hcs, Has, Hds, Hd1 in Ha2.
  rewrite Hop1 in Hv1. injection Hv1 as <-.
  rewrite Hop2 in Hv2. injection Hv2 as <-.
  rewrite Ha2, Ha1, Hc. clear Ha2 Ha1.
  subst byte. destruct (m_mf (cpu m)); cbn [width_mask] in *.
  - rewrite land_lor_low, sbc8_low, land_lor_low, adc8_low.
    apply roundtrip_byte.
    + pose proof (land_mask_range (m_a (cpu m)) 255 8). lia.
    + exact Rv1.
    + intros Hd. rewrite <- is_bcd_low. apply Hbcd. exact Hd.
  - rewrite <- Z.land_assoc. change (Z.land 0xFFFF 65535) with 0xFFFF.
    destruct (m_d (cpu m)).
    + apply roundtrip_word_decimal; apply Hbcd; reflexivity.
    + apply roundtrip_word_binary.
Qed.
End Proofs.

(** * The invariants, opcode by opcode *)

(** ** Ranges of bitwise expressions *)

Lemma land_le x m : 0 <= m -> 0 <= Z.land x m <= m.
Proof.
  intros Hm. split; [apply Z.land_nonneg; right; exact Hm|].
  pose proof (Z.lor_ldiff_and m x) as E.
  assert (D : Z.land (Z.ldiff m x) (Z.land m x) = 0).
  { rewrite Z.land_comm, <- Z.land_assoc, (Z.land_comm x), Z.land_ldiff.
    apply Z.land_0_r. }
  rewrite <- Z.lxor_lor, <- Z.add_nocarry_lxor in E by exact D.
  assert (0 <= Z.ldiff m x) by (apply Z.ldiff_nonneg; left; exact Hm).
  rewrite (Z.land_comm x m). lia.
Qed.

Lemma land_le_l x m : 0 <= x -> 0 <= Z.land x m <= x.
Proof. intros Hx. rewrite Z.land_comm. apply land_le. exact Hx. Qed.

Lemma lor_range a b k :
  0 <= k -> 0 <= a < 2 ^ k -> 0 <= b < 2 ^ k -> 0 <= Z.lor a b < 2 ^ k.
Proof.
  intros Hk Ha Hb.
  assert (Hn : 0 <= Z.lor a b) by (apply Z.lor_nonneg; lia).
  split; [exact Hn|].
  destruct (Z.eq_dec (Z.lor a b) 0) as [->|Hz]; [apply Z.pow_pos_nonneg; lia|].
  apply Z.log2_lt_pow2; [lia|]. rewrite Z.log2_lor by lia.
  destruct (Z.eq_dec a 0) as [->|]; destruct (Z.eq_dec b 0) as [->|].
  - exfalso. apply Hz. reflexivity.
  - rewrite Z.max_r by (apply Z.log2_nonneg). apply Z.log2_lt_pow2; lia.
  - rewrite Z.max_l by (apply Z.log2_nonneg). apply Z.log2_lt_pow2; lia.
  - apply Z.max_lub_lt; apply Z.log2_lt_pow2; lia.
Qed.

Lemma lxor_range a b k :
  0 <= k -> 0 <= a < 2 ^ k -> 0 <= b < 2 ^ k -> 0 <= Z.lxor a b < 2 ^ k.
Proof.
  intros Hk Ha Hb.
  assert (Hn : 0 <= Z.lxor a b) by (apply Z.lxor_nonneg; lia).
  split; [exact Hn|].
  destruct (Z.eq_dec (Z.lxor a b) 0) as [->|Hz]; [apply Z.pow_pos_nonneg; lia|].
  apply Z.log2_lt_pow2; [lia|].
  apply Z.le_lt_trans with (Z.max (Z.log2 a) (Z.log2 b)); [apply Z.log2_lxor; lia|].
  destruct (Z.eq_dec a 0) as [->|]; destruct (Z.eq_dec b 0) as [->|].
  - exfalso. apply Hz. reflexivity.
  - rewrite Z.max_r by (apply Z.log2_nonneg). apply Z.log2_lt_pow2; lia.
  - rewrite Z.max_l by (apply Z.log2_nonneg). apply Z.log2_lt_pow2; lia.
  - apply Z.max_lub_lt; apply Z.log2_lt_pow2; lia.
Qed.

Lemma shiftr_range a n : 0 <= n -> 0 <= a -> 0 <= Z.shiftr a n <= a.
Proof.
  intros Hn Ha. rewrite Z.shiftr_div_pow2 by lia.
  pose proof (Z.pow_pos_nonneg 2 n ltac:(lia) Hn).
  split; [apply Z.div_pos; lia|]. apply Z.div_le_upper_bound; nia.
Qed.

Lemma shiftl_16 x : Z.shiftl x 16 = 65536 * x.
Proof. rewrite Z.shiftl_mul_pow2 by lia. change (2 ^ 16) with 65536. lia. Qed.

Lemma shiftl_8 x : Z.shiftl x 8 = 256 * x.
Proof. rewrite Z.shiftl_mul_pow2 by lia. change (2 ^ 8) with 256. lia. Qed.

(** [(sp & 0xff) | 0x100] lies in page one. *)
Lemma page_one x : 0x100 <= Z.lor (Z.land x 0xff) 0x100 <= 0x1FF.
Proof.
  pose proof (land_le x 0xff ltac:(lia)).
  change 0x100 with (Z.shiftl 1 8) at 2 3. rewrite lor_bytes by lia. lia.
Qed.

(** In page one, replacing the low byte stays in page one (TXS). *)
Lemma page_one_low_byte sp x :
  0x100 <= sp <= 0x1FF ->
  0x100 <= Z.lor (Z.land sp 0xFF00) (Z.land x 0xFF) <= 0x1FF.
Proof.
  intros Hsp.
  assert (E : Z.land sp 0xFF00 = 0x100).
  { replace sp with (sp - 256 + 256) by lia. apply Z.eqb_eq.
    apply (forall_byte (fun r => Z.land (r + 256) 0xFF00 =? 0x100)); [|lia].
    vm_compute. reflexivity. }
  rewrite E, Z.lor_comm. apply page_one.
Qed.

Lemma below_spec (P : Z -> Prop) (n : nat) :
  below P n -> forall z, 0 <= z < Z.of_nat n -> P z.
Proof.
  induction n as [|k IH]; intros Hb z Hz; [lia|].
  destruct Hb as [Hk Hlast].
  destruct (Z.eq_dec z (Z.of_nat k)) as [->|Hne]; [exact Hlast|].
  apply IH; [exact Hk | lia].
Qed.

(** Symbolic execution that names [let]-bound values instead of
    substituting them. *)
Ltac istep := step_with let_name.
Ltac isteps := repeat istep.

(** Use what the hypotheses say about flags whose value is known. *)
Ltac saturate :=
  repeat match goal with
    | Hc : true = true -> _ |- _ => specialize (Hc eq_refl)
    | Hc : false = true -> _ |- _ => clear Hc
    | Hp : ?b = true, Hc : ?b = true -> _ |- _ => specialize (Hc Hp)
    | Hc : _ /\ _ |- _ => destruct Hc
    end.

(** A path condition [Bool.eqb p q]: decide the flags it compares. *)
Ltac decide_eqb :=
  repeat match goal with
    | Hb : context [Bool.eqb ?p ?q] |- _ =>
        first [is_var p; destruct p | idtac];
        first [is_var q; destruct q | idtac];
        cbv in Hb; try discriminate Hb; clear Hb
    end.

(** Pose the range of every bitwise subterm of the goal. *)
Ltac pose_range :=
  match goal with
  | |- context [u8 ?x] =>
      lazymatch goal with _ : 0 <= u8 x <= 255 |- _ => fail | _ => pose proof (u8_range x) end
  | |- context [u16 ?x] =>
      lazymatch goal with _ : 0 <= u16 x <= 65535 |- _ => fail
      | _ => pose proof (u16_range x) end
  | |- context [Z.shiftl ?x 16] => rewrite (shiftl_16 x)
  | |- context [Z.shiftl ?x 8] => rewrite (shiftl_8 x)
  | |- context [Z.land ?x ?y] =>
      lazymatch goal with _ : 0 <= Z.land x y <= y |- _ => fail
      | _ => pose proof (land_le x y ltac:(lia)) end
  | |- context [Z.land ?x ?y] =>
      lazymatch goal with _ : 0 <= Z.land x y <= x |- _ => fail
      | _ => pose proof (land_le_l x y ltac:(lia)) end
  | |- context [Z.shiftr ?x ?n] =>
      lazymatch goal with _ : 0 <= Z.shiftr x n <= x |- _ => fail
      | _ => pose proof (shiftr_range x n ltac:(lia) ltac:(lia)) end
  | |- context [Z.lor ?x ?y] =>
      lazymatch goal with _ : 0 <= Z.lor x y < _ |- _ => fail
      | _ => first [ pose proof (lor_range x y 8 ltac:(lia) ltac:(lia) ltac:(lia))
                   | pose proof (lor_range x y 16 ltac:(lia) ltac:(lia) ltac:(lia))
                   | pose proof (lor_range x y 24 ltac:(lia) ltac:(lia) ltac:(lia)) ] end
  | |- context [Z.lxor ?x ?y] =>
      lazymatch goal with _ : 0 <= Z.lxor x y < _ |- _ => fail
      | _ => first [ pose proof (lxor_range x y 8 ltac:(lia) ltac:(lia) ltac:(lia))
                   | pose proof (lxor_range x y 16 ltac:(lia) ltac:(lia) ltac:(lia)) ] end
  end.

Ltac ranges_now :=
  repeat match goal with |- context [if ?b then _ else _] => destruct b end;
  first [ lia
        | apply page_one
        | apply page_one_low_byte; lia
        | repeat pose_range; change (2 ^ 8) with 256 in *; change (2 ^ 16) with 65536 in *;
          change (2 ^ 24) with 16777216 in *; lia ].

(** First with the let-bound values kept abstract, then with their
    definitions. *)
Ltac clear_equations :=
  repeat match goal with Hx : ?x = _ |- _ => is_var x; clear Hx end.
Ltac ranges :=
  first [ solve [clear_equations; ranges_now] | solve [subst; ranges_now] ].

(** The invariant of the final state, one conjunct at a time. *)
Ltac solve_vc :=
  decide_eqb; saturate;
  unfold invariant, cpu_invariant, wf_regs, mode_invariant, masked;
  cbn [cpu log fst snd forallb address_masked ev_address
       m_a m_x m_y m_sp m_pc m_dp m_k m_db m_xf m_mf m_e];
  repeat match goal with
    | |- _ /\ _ => split
    | |- _ -> _ => intro
    | |- (_ && _)%bool = true => apply andb_true_intro; split
    | |- (_ <=? _) = true => apply Z.leb_le
    end;
  first [ assumption | discriminate | reflexivity
        | saturate; first [ assumption | ranges | tauto ] ].

(** The invariant of the initial state, as separate hypotheses. *)
Ltac inv_hyps :=
  unfold invariant, cpu_invariant, wf_regs, mode_invariant, masked in * |-;
  cbn [cpu log fst snd m_a m_x m_y m_sp m_pc m_dp m_k m_db m_xf m_mf m_e] in * |-;
  repeat match goal with Hc : _ /\ _ |- _ => destruct Hc end.

Ltac inv_start m :=
  intros;
  destruct m as [[a x y sp pc dp k db c z v n i d xf mf e
                  waiting stopped irqW nmiW intW resetW] h l];
  inv_hyps.

(** Run the code symbolically, naming intermediate values, then check
    the invariant at the end of every path. *)
Ltac inv := intros; match goal with m : Machine _ |- _ => inv_start m end; isteps; solve_vc.

Section Invariants.
Context {H : Type} {HB : Bus H}.
Implicit Types m : Machine H.

(** *** Addressing modes: the invariant is kept and both addresses fit in
    24 bits *)

Lemma AdrImm_ok (xFlag : bool) : mode_ok (AdrImm xFlag).
Proof. unfold mode_ok. inv. Qed.

Lemma AdrDp_ok : mode_ok AdrDp.
Proof. unfold mode_ok. inv. Qed.

Lemma AdrDpx_ok : mode_ok AdrDpx.
Proof. unfold mode_ok. inv. Qed.

Lemma AdrDpy_ok : mode_ok AdrDpy.
Proof. unfold mode_ok. inv. Qed.

Lemma AdrIdp_ok : mode_ok AdrIdp.
Proof. unfold mode_ok. inv. Qed.

Lemma AdrIdx_ok : mode_ok AdrIdx.
Proof. unfold mode_ok. inv. Qed.

Lemma AdrIdy_ok (write : bool) : mode_ok (AdrIdy write).
Proof. unfold mode_ok. inv. Qed.

Lemma AdrIdl_ok : mode_ok AdrIdl.
Proof. unfold mode_ok. inv. Qed.

Lemma AdrIly_ok : mode_ok AdrIly.
Proof. unfold mode_ok. inv. Qed.

Lemma AdrSr_ok : mode_ok AdrSr.
Proof. unfold mode_ok. inv. Qed.

Lemma AdrIsy_ok : mode_ok AdrIsy.
Proof. unfold mode_ok. inv. Qed.

Lemma AdrAbs_ok : mode_ok AdrAbs.
Proof. unfold mode_ok. inv. Qed.

Lemma AdrAbx_ok (write : bool) : mode_ok (AdrAbx write).
Proof. unfold mode_ok. inv. Qed.

Lemma AdrAby_ok (write : bool) : mode_ok (AdrAby write).
Proof. unfold mode_ok. inv. Qed.

Lemma AdrAbl_ok : mode_ok AdrAbl.
Proof. unfold mode_ok. inv. Qed.

Lemma AdrAlx_ok : mode_ok AdrAlx.
Proof. unfold mode_ok. inv. Qed.

(** *** ALU and memory primitives at 24-bit addresses *)

Lemma And_ok : op_ok And.
Proof. unfold op_ok. inv. Qed.

Lemma Ora_ok : op_ok Ora.
Proof. unfold op_ok. inv. Qed.

Lemma Eor_ok : op_ok Eor.
Proof. unfold op_ok. inv. Qed.

Lemma Adc_ok : op_ok Adc.
Proof. unfold op_ok. inv. Qed.

Lemma Sbc_ok : op_ok Sbc.
Proof. unfold op_ok. inv. Qed.

Lemma Cmp_ok : op_ok Cmp.
Proof. unfold op_ok. inv. Qed.

Lemma Cpx_ok : op_ok Cpx.
Proof. unfold op_ok. inv. Qed.

Lemma Cpy_ok : op_ok Cpy.
Proof. unfold op_ok. inv. Qed.

Lemma Bit_ok : op_ok Bit.
Proof. unfold op_ok. inv. Qed.

Lemma Lda_ok : op_ok Lda.
Proof. unfold op_ok. inv. Qed.

Lemma Ldx_ok : op_ok Ldx.
Proof. unfold op_ok. inv. Qed.

Lemma Ldy_ok : op_ok Ldy.
Proof. unfold op_ok. inv. Qed.

Lemma Sta_ok : op_ok Sta.
Proof. unfold op_ok. inv. Qed.

Lemma Stx_ok : op_ok Stx.
Proof. unfold op_ok. inv. Qed.

Lemma Sty_ok : op_ok Sty.
Proof. unfold op_ok. inv. Qed.

Lemma Stz_ok : op_ok Stz.
Proof. unfold op_ok. inv. Qed.

Lemma Ror_ok : op_ok Ror.
Proof. unfold op_ok. inv. Qed.

Lemma Rol_ok : op_ok Rol.
Proof. unfold op_ok. inv. Qed.

Lemma Lsr_ok : op_ok Lsr.
Proof. unfold op_ok. inv. Qed.

Lemma Asl_ok : op_ok Asl.
Proof. unfold op_ok. inv. Qed.

Lemma Inc_ok : op_ok Inc.
Proof. unfold op_ok. inv. Qed.

Lemma Dec_ok : op_ok Dec.
Proof. unfold op_ok. inv. Qed.

Lemma Tsb_ok : op_ok Tsb.
Proof. unfold op_ok. inv. Qed.

Lemma Trb_ok : op_ok Trb.
Proof. unfold op_ok. inv. Qed.

Lemma via_ok (mode : M H (Z * Z)) (op : Z -> Z -> M H unit) check m :
  mode_ok mode -> op_ok op -> invariant check m ->
  wp (via mode op) (fun _ m' => invariant check m') m.
Proof.
  intros Hmode Hop Hinv. unfold via. apply wp_bind.
  apply (wp_mono _ _ _ _ (Hmode check m Hinv)).
  intros adr m' (Hinv' & Hlow & Hhigh). apply Hop; assumption.
Qed.

Ltac mode_lemma :=
  lazymatch goal with
  | |- mode_ok (AdrImm ?b) => exact (AdrImm_ok b)
  | |- mode_ok (AdrIdy ?b) => exact (AdrIdy_ok b)
  | |- mode_ok (AdrAbx ?b) => exact (AdrAbx_ok b)
  | |- mode_ok (AdrAby ?b) => exact (AdrAby_ok b)
  | |- mode_ok AdrDp => exact AdrDp_ok
  | |- mode_ok AdrDpx => exact AdrDpx_ok
  | |- mode_ok AdrDpy => exact AdrDpy_ok
  | |- mode_ok AdrIdp => exact AdrIdp_ok
  | |- mode_ok AdrIdx => exact AdrIdx_ok
  | |- mode_ok AdrIdl => exact AdrIdl_ok
  | |- mode_ok AdrIly => exact AdrIly_ok
  | |- mode_ok AdrSr => exact AdrSr_ok
  | |- mode_ok AdrIsy => exact AdrIsy_ok
  | |- mode_ok AdrAbs => exact AdrAbs_ok
  | |- mode_ok AdrAbl => exact AdrAbl_ok
  | |- mode_ok AdrAlx => exact AdrAlx_ok
  end.

Ltac op_lemma :=
  lazymatch goal with
  | |- op_ok And => exact And_ok
  | |- op_ok Ora => exact Ora_ok
  | |- op_ok Eor => exact Eor_ok
  | |- op_ok Adc => exact Adc_ok
  | |- op_ok Sbc => exact Sbc_ok
  | |- op_ok Cmp => exact Cmp_ok
  | |- op_ok Cpx => exact Cpx_ok
  | |- op_ok Cpy => exact Cpy_ok
  | |- op_ok Bit => exact Bit_ok
  | |- op_ok Lda => exact Lda_ok
  | |- op_ok Ldx => exact Ldx_ok
  | |- op_ok Ldy => exact Ldy_ok
  | |- op_ok Sta => exact Sta_ok
  | |- op_ok Stx => exact Stx_ok
  | |- op_ok Sty => exact Sty_ok
  | |- op_ok Stz => exact Stz_ok
  | |- op_ok Ror => exact Ror_ok
  | |- op_ok Rol => exact Rol_ok
  | |- op_ok Lsr => exact Lsr_ok
  | |- op_ok Asl => exact Asl_ok
  | |- op_ok Inc => exact Inc_ok
  | |- op_ok Dec => exact Dec_ok
  | |- op_ok Tsb => exact Tsb_ok
  | |- op_ok Trb => exact Trb_ok
  end.

Ltac opcode_case :=
  let Hgood := fresh "Hgood" in
  let m := fresh "m" in
  let Hinv := fresh "Hinv" in
  intros Hgood m Hinv;
  lazymatch goal with
  | |- wp (DoOpcode ?n) ?Q ?mm =>
      let c := eval cbv beta iota delta [DoOpcode] in (DoOpcode n) in change (wp c Q mm)
  end;
  first
    [ lazymatch goal with |- wp (via _ _) _ _ => idtac end;
      apply via_ok; [mode_lemma | op_lemma | exact Hinv]
    | clear Hgood; revert m Hinv; solve [inv]
    | destruct Hgood as [[Hgood1 Hgood2] | Hgood];
      [ exfalso; first [apply Hgood1; reflexivity | apply Hgood2; reflexivity]
      | subst; revert m Hinv; solve [inv] ]
    ].

Lemma DoOpcode_ok (check : bool) (opcode : Z) :
  0 <= opcode <= 255 -> opcode_ok check opcode.
Proof.
  intros Hrange. apply (below_spec (opcode_ok check) 256); [|lia].
  clear opcode Hrange.
  cbv beta iota delta [below Z.of_nat Pos.of_succ_nat Pos.succ].
  unfold opcode_ok.
  repeat lazymatch goal with |- _ /\ _ => split | |- True => exact I end.
  all: opcode_case.
Qed.

(** *** The public entry points *)

Lemma ReadOpcode_ok check m :
  invariant check m ->
  wp ReadOpcode (fun opcode m' => invariant check m' /\ 0 <= opcode <= 255) m.
Proof. inv. Qed.

Lemma CheckInterrupts_ok check m :
  invariant check m -> wp CheckInterrupts (fun _ m' => invariant check m') m.
Proof. inv. Qed.

Lemma ReadOpcode_CheckInterrupts m :
  eval ReadOpcode (exec CheckInterrupts m) = eval ReadOpcode m.
Proof. destruct_machine m. reflexivity. Qed.

(** [RunOpcode] keeps the invariant; with [check] set, as long as the
    opcode dispatched is neither $7C nor $FC. *)
Lemma RunOpcode_ok check m :
  invariant check m ->
  (check = true -> forall opcode, dispatches m opcode -> opcode <> 0x7C /\ opcode <> 0xFC) ->
  invariant check (exec RunOpcode m).
Proof.
  intros Hinv Hgood.
  change (wp RunOpcode (fun _ m' => invariant check m') m).
  destruct m as [[a x y sp pc dp k db c z v n i d xf mf e
                  waiting stopped irqW nmiW intW resetW] h l].
  destruct resetW; [clear Hgood; inv_hyps; isteps; solve_vc|].
  destruct stopped; [clear Hgood; inv_hyps; isteps; solve_vc|].
  destruct waiting; [clear Hgood; inv_hyps; isteps; solve_vc|].
  destruct (nmiW || (irqW && negb i)) eqn:Hint.
  - clear Hgood.
    destruct nmiW, irqW, i; try discriminate Hint; clear Hint;
      inv_hyps; isteps; solve_vc.
  - set (m0 := mkMachine _ _ _) in *.
    assert (Hd : dispatches m0 (eval ReadOpcode m0)).
    { unfold dispatches, m0. cbn [cpu m_resetWanted m_stopped m_waiting
        m_nmiWanted m_irqWanted m_i]. repeat split; assumption. }
    unfold wp. rewrite (RunOpcode_dispatches m0 _ Hd).
    pose proof (CheckInterrupts_ok check m0 Hinv) as H1. unfold wp in H1.
    pose proof (ReadOpcode_ok check _ H1) as [H2 Hop]. unfold wp in H2, Hop.
    rewrite ReadOpcode_CheckInterrupts in Hop.
    apply (DoOpcode_ok check _ Hop); [|exact H2].
    destruct check; [left; apply Hgood; [reflexivity | exact Hd] | right; reflexivity].
Qed.

Lemma Reset_ok check hard m :
  invariant check m -> invariant check (exec (Reset hard) m).
Proof.
  intros Hinv. change (wp (Reset hard) (fun _ m' => invariant check m') m).
  revert m Hinv. destruct hard; inv.
Qed.

Lemma do_call_ok (call : Call) m :
  cpu_invariant (cpu m) -> cpu_invariant (cpu (exec (do_call call) m)).
Proof.
  intros Hinv.
  assert (Hm : invariant false m) by (split; [exact Hinv | discriminate]).
  destruct call; cbn [do_call].
  - apply (RunOpcode_ok false m Hm). discriminate.
  - destruct_machine m. exact Hinv.
  - destruct_machine m. exact Hinv.
  - apply (Reset_ok false hard m Hm).
Qed.

Lemma power_on_invariant (h : H) : cpu_invariant (cpu (power_on h)).
Proof. cbv [power_on]. repeat split; cbn; try lia; discriminate. Qed.

(** X1: In every state a host can reach (construction, then any sequence of
    RunOpcode, Nmi, SetIrq and Reset calls) the data-model invariants hold:
    A, X, Y, SP, PC and DP are 16-bit and K and DB 8-bit values; E = 1 gives
    M = 1, X = 1 and SP in $0100..$01FF; X = 1 gives X and Y at most $FF. *)
Theorem reachable_invariant m : reachable m -> cpu_invariant (cpu m).
Proof.
  induction 1 as [h0 | m call Hr IH].
  - apply power_on_invariant.
  - apply do_call_ok, IH.
Qed.

(** In emulation mode M and X are 1 and the stack is in page one: the
    premise M = 1 of the interrupt flag byte holds wherever E = 1. *)
Corollary reachable_emulation_mode m :
  reachable m -> m_e (cpu m) = true ->
  m_mf (cpu m) = true /\ m_xf (cpu m) = true /\ 0x100 <= m_sp (cpu m) <= 0x1FF.
Proof.
  intros Hr He.
  assert (Hinv : cpu_invariant (cpu m)).
  { clear He. induction Hr as [h0 | m call Hr IH].
    - apply power_on_invariant.
    - apply do_call_ok, IH. }
  apply Hinv. exact He.
Qed.

(** X2: From a state that satisfies the register invariants and whose
    callbacks so far all had addresses of at most $FFFFFF, one RunOpcode
    that does not dispatch opcode $7C or $FC issues only Read and Write
    addresses in 0..$FFFFFF. *)
Theorem RunOpcode_masked m :
  cpu_invariant (cpu m) ->
  forallb address_masked (log m) = true ->
  (forall opcode, dispatches m opcode -> opcode <> 0x7C /\ opcode <> 0xFC) ->
  forallb address_masked (log (exec RunOpcode m)) = true.
Proof.
  intros Hinv Hlog Hgood.
  apply (RunOpcode_ok true m); [split; [exact Hinv | intros _; exact Hlog] | | reflexivity].
  intros _. exact Hgood.
Qed.
End Invariants.

(** * Further properties of the opcodes *)

(** ** More on bytes, words and the flag byte *)

Lemma u8_small x : 0 <= x <= 255 -> u8 x = x.
Proof. intros. unfold u8. apply Z.mod_small. lia. Qed.

Lemma u8_idem x : u8 (u8 x) = u8 x.
Proof. apply u8_small, u8_range. Qed.

Lemma u16_idem x : u16 (u16 x) = u16 x.
Proof. apply u16_small, u16_range. Qed.

Lemma bytes_of_word x :
  u16 (Z.lor (u8 (Z.land (u16 x) 255)) (Z.shiftl (u8 (Z.shiftr (u16 x) 8)) 8)) = u16 x.
Proof.
  pose proof (u16_range x) as Hx. set (w := u16 x) in *.
  rewrite land_255, Z.shiftr_div_pow2 by lia. change (2 ^ 8) with 256.
  unfold u8. rewrite Z.mod_mod by lia.
  rewrite (Z.mod_small (w / 256)) by (split; [apply Z.div_pos; lia | apply Z.div_lt_upper_bound; lia]).
  rewrite lor_bytes by (pose proof (Z.mod_pos_bound w 256); lia).
  rewrite u16_small; [|Z.div_mod_to_equations; lia].
  Z.div_mod_to_equations; lia.
Qed.

Lemma land_byte_small x : 0 <= x <= 255 -> Z.land x 255 = x.
Proof. intros Hx. rewrite land_255. apply Z.mod_small. lia. Qed.

Lemma nz_land_128 x : nz (Z.land x 128) = (128 <=? x mod 256).
Proof.
  change 128 with (2 ^ 7) at 1. rewrite nz_land_pow2 by lia.
  destruct (Z.testbit x 7) eqn:B.
  - apply Z.testbit_true in B; [|lia]. symmetry. apply Z.leb_le.
    change (2 ^ 7) with 128 in B. Z.div_mod_to_equations. lia.
  - apply Z.testbit_false in B; [|lia]. symmetry. apply Z.leb_gt.
    change (2 ^ 7) with 128 in B. Z.div_mod_to_equations. lia.
Qed.

Lemma nz_land_32768 x : nz (Z.land x 32768) = (32768 <=? x mod 65536).
Proof.
  change 32768 with (2 ^ 15) at 1. rewrite nz_land_pow2 by lia.
  destruct (Z.testbit x 15) eqn:B.
  - apply Z.testbit_true in B; [|lia]. symmetry. apply Z.leb_le.
    change (2 ^ 15) with 32768 in B. Z.div_mod_to_equations. lia.
  - apply Z.testbit_false in B; [|lia]. symmetry. apply Z.leb_gt.
    change (2 ^ 15) with 32768 in B. Z.div_mod_to_equations. lia.
Qed.

Lemma testbit_7 x : Z.testbit x 7 = (128 <=? x mod 256).
Proof. rewrite <- nz_land_128. change 128 with (2 ^ 7). symmetry. apply nz_land_pow2. lia. Qed.

Lemma testbit_15 x : Z.testbit x 15 = (32768 <=? x mod 65536).
Proof.
  rewrite <- nz_land_32768. change 32768 with (2 ^ 15). symmetry. apply nz_land_pow2. lia.
Qed.

Lemma nz_lxor_128 a b :
  nz (Z.land (Z.lxor a b) 128) = xorb (128 <=? a mod 256) (128 <=? b mod 256).
Proof.
  change 128 with (2 ^ 7) at 1. rewrite nz_land_pow2 by lia.
  rewrite Z.lxor_spec, !testbit_7. reflexivity.
Qed.

Lemma nz_lxor_32768 a b :
  nz (Z.land (Z.lxor a b) 32768) = xorb (32768 <=? a mod 65536) (32768 <=? b mod 65536).
Proof.
  change 32768 with (2 ^ 15) at 1. rewrite nz_land_pow2 by lia.
  rewrite Z.lxor_spec, !testbit_15. reflexivity.
Qed.

Lemma nz_land_lxor_128 a b c :
  nz (Z.land (Z.land (Z.lxor a b) (Z.lxor a c)) 128)
  = xorb (128 <=? a mod 256) (128 <=? b mod 256)
    && xorb (128 <=? a mod 256) (128 <=? c mod 256).
Proof.
  change 128 with (2 ^ 7) at 1. rewrite nz_land_pow2 by lia.
  rewrite Z.land_spec, !Z.lxor_spec, !testbit_7. reflexivity.
Qed.

Lemma nz_land_lxor_32768 a b c :
  nz (Z.land (Z.land (Z.lxor a b) (Z.lxor a c)) 32768)
  = xorb (32768 <=? a mod 65536) (32768 <=? b mod 65536)
    && xorb (32768 <=? a mod 65536) (32768 <=? c mod 65536).
Proof.
  change 32768 with (2 ^ 15) at 1. rewrite nz_land_pow2 by lia.
  rewrite Z.land_spec, !Z.lxor_spec, !testbit_15. reflexivity.
Qed.

(** The low byte of A rebuilt from its old high byte and a new low byte. *)
Lemma merge_mod a r : (Z.lor (Z.land a 65280) (r mod 256)) mod 256 = r mod 256.
Proof.
  rewrite <- (land_255 r). rewrite <- (land_255 (Z.lor _ _)). apply land_lor_low.
Qed.

Lemma u16_mod_256 x : u16 x mod 256 = x mod 256.
Proof. unfold u16. Z.div_mod_to_equations. lia. Qed.

Lemma land_field r n m :
  0 <= n -> 0 <= m ->
  Z.land r (Z.shiftl (Z.ones m) n) = 2 ^ n * ((r / 2 ^ n) mod 2 ^ m).
Proof.
  intros Hn Hm.
  rewrite <- Z.shiftr_div_pow2, <- Z.land_ones, Z.mul_comm, <- Z.shiftl_mul_pow2 by lia.
  apply Z.bits_inj'. intros i Hi.
  rewrite Z.land_spec, !Z.shiftl_spec by lia.
  destruct (Z.ltb_spec i n).
  - rewrite (Z.testbit_neg_r _ (i - n)) by lia. rewrite (Z.testbit_neg_r _ (i - n)) by lia.
    apply andb_false_r.
  - rewrite Z.land_spec, Z.shiftr_spec by lia. f_equal. f_equal. lia.
Qed.

Lemma high_byte_zero r : 0 <= r < 65536 -> (Z.land r 65280 =? 0) = (r <? 256).
Proof.
  intros Hr. change 65280 with (Z.shiftl (Z.ones 8) 8). rewrite land_field by lia.
  change (2 ^ 8) with 256.
  destruct (Z.ltb_spec r 256); [apply Z.eqb_eq | apply Z.eqb_neq];
    Z.div_mod_to_equations; lia.
Qed.

Lemma high_word_zero r : 0 <= r < 4294967296 -> (Z.land r 4294901760 =? 0) = (r <? 65536).
Proof.
  intros Hr. change 4294901760 with (Z.shiftl (Z.ones 16) 16). rewrite land_field by lia.
  change (2 ^ 16) with 65536.
  destruct (Z.ltb_spec r 65536); [apply Z.eqb_eq | apply Z.eqb_neq];
    Z.div_mod_to_equations; lia.
Qed.

(** Decide the comparisons, then linear arithmetic over the quotients. *)
Ltac small_mods :=
  repeat match goal with
    | |- context [?t mod ?w] => rewrite (Z.mod_small t w) by lia
    end.

Ltac bool_lia :=
  unfold s8, s16, u8, u16, u32 in *;
  small_mods;
  repeat match goal with
    | |- context [?p <=? ?q] => destruct (Z.leb_spec p q)
    | |- context [?p <? ?q] => destruct (Z.ltb_spec p q)
    | |- context [?p >? ?q] => destruct (Z.gtb_spec p q)
    | |- context [?p =? ?q] => destruct (Z.eqb_spec p q)
    | _ : context [?p <=? ?q] |- _ => destruct (Z.leb_spec p q)
    | _ : context [?p <? ?q] |- _ => destruct (Z.ltb_spec p q)
    end;
  cbn [xorb negb andb orb];
  first [ reflexivity | solve [Z.div_mod_to_equations; lia]
        | exfalso; Z.div_mod_to_equations; lia ].

Ltac wf_facts Hwf :=
  unfold wf_regs in Hwf;
  cbn [cpu m_a m_x m_y m_sp m_pc m_dp m_k m_db] in Hwf;
  repeat match goal with Hc : _ /\ _ |- _ => destruct Hc end.

Lemma flags_range n v mf xf d i z c :
  0 <= Z.lor (Z.lor (Z.lor (Z.lor (Z.lor (Z.lor (Z.lor (Z.lor 0
    (flag_bit n 0x80)) (flag_bit v 0x40)) (flag_bit mf 0x20)) (flag_bit xf 0x10))
    (flag_bit d 0x08)) (flag_bit i 0x04)) (flag_bit z 0x02)) (flag_bit c 0x01) <= 255.
Proof. destruct n, v, mf, xf, d, i, z, c; vm_compute; split; discriminate. Qed.

(** The flag byte with the B position cleared, as a hardware interrupt
    pushes it, and set, as BRK pushes it. *)
Lemma flags_bits_masked n v mf xf d i z c (b : bool) :
  let p := Z.lor (Z.lor (Z.lor (Z.lor (Z.lor (Z.lor (Z.lor (Z.lor 0
    (flag_bit n 0x80)) (flag_bit v 0x40)) (flag_bit mf 0x20)) (flag_bit xf 0x10))
    (flag_bit d 0x08)) (flag_bit i 0x04)) (flag_bit z 0x02)) (flag_bit c 0x01) in
  let f := if b then Z.lor p 0x10 else Z.land p 0xEF in
  0 <= f <= 255 /\
  nz (Z.land f 0x80) = n /\ nz (Z.land f 0x40) = v /\ nz (Z.land f 0x20) = mf /\
  nz (Z.land f 0x10) = b /\ nz (Z.land f 0x08) = d /\ nz (Z.land f 0x04) = i /\
  nz (Z.land f 0x02) = z /\ nz (Z.land f 0x01) = c.
Proof.
  destruct n, v, mf, xf, d, i, z, c, b; vm_compute; repeat split; discriminate.
Qed.

Ltac flags_simpl n v mf xf d i z c :=
  let F := fresh "F" in
  rewrite ?u8_idem;
  rewrite ?(u8_small _ (flags_range n v mf xf d i z c));
  pose proof (flags_bits n v mf xf d i z c) as F; cbv zeta in F;
  let F1 := fresh in let F2 := fresh in let F3 := fresh in let F4 := fresh in
  let F5 := fresh in let F6 := fresh in let F7 := fresh in let F8 := fresh in
  destruct F as (F1 & F2 & F3 & F4 & F5 & F6 & F7 & F8);
  rewrite ?F1, ?F2, ?F3, ?F4, ?F5, ?F6, ?F7, ?F8;
  clear F1 F2 F3 F4 F5 F6 F7 F8.

Ltac flags_simpl_masked n v mf xf d i z c b :=
  let G := fresh "G" in
  pose proof (flags_bits_masked n v mf xf d i z c b) as G; cbv beta iota zeta in G;
  let G0 := fresh in
  let F1 := fresh in let F2 := fresh in let F3 := fresh in let F4 := fresh in
  let F5 := fresh in let F6 := fresh in let F7 := fresh in let F8 := fresh in
  destruct G as (G0 & F1 & F2 & F3 & F4 & F5 & F6 & F7 & F8);
  rewrite ?u8_idem;
  rewrite ?(u8_small _ G0);
  rewrite ?F1, ?F2, ?F3, ?F4, ?F5, ?F6, ?F7, ?F8;
  clear G0 F1 F2 F3 F4 F5 F6 F7 F8.

(** ** Symbolic execution over the RAM host *)

Lemma wp_Read_ram (address : Z) (Q : Z -> Machine Ram -> Prop) s (h : Ram) l :
  Q (u8 (h address)) (mkMachine s h (EvRead address (u8 (h address)) :: l)) ->
  wp (Read address) Q (mkMachine s h l).
Proof. exact (fun q => q). Qed.

Lemma wp_Write_ram (address value : Z) (Q : unit -> Machine Ram -> Prop) s (h : Ram) l :
  Q tt (mkMachine s (fun a => if a =? address then u8 value else h a)
          (EvWrite address (u8 value) :: l)) ->
  wp (Write address value) Q (mkMachine s h l).
Proof. exact (fun q => q). Qed.

Lemma wp_Idle_ram (Q : unit -> Machine Ram -> Prop) s (h : Ram) l :
  Q tt (mkMachine s h (EvIdle false :: l)) -> wp Idle Q (mkMachine s h l).
Proof. exact (fun q => q). Qed.

Lemma stack_ok_invariant (s : Cpu) : cpu_invariant s -> stack_ok (m_e s) (m_sp s) = true.
Proof.
  intros [(_ & _ & _ & Hsp & _) [He _]]. unfold stack_ok.
  destruct (m_e s); [specialize (He eq_refl)|]; lia.
Qed.

Lemma page_one_cases (P : Z -> bool) :
  forallb P (map (fun n => 256 + Z.of_nat n) (seq 0 256)) = true ->
  forall sp, 0x100 <= sp <= 0x1FF -> P sp = true.
Proof.
  intros Hall sp Hsp. rewrite forallb_forall in Hall. apply Hall.
  apply in_map_iff. exists (Z.to_nat (sp - 256)). split; [lia|]. apply in_seq. lia.
Qed.

Lemma stack_dec_ok e sp : stack_ok e sp = true -> stack_ok e (stack_dec e sp) = true.
Proof.
  unfold stack_ok, stack_dec. destruct e; intros Hs.
  - pose proof (page_one (u16 (sp - 1))). lia.
  - pose proof (u16_range (sp - 1)). lia.
Qed.

Lemma stack_inc_ok e sp : stack_ok e sp = true -> stack_ok e (stack_inc e sp) = true.
Proof.
  unfold stack_ok, stack_inc. destruct e; intros Hs.
  - pose proof (page_one (u16 (sp + 1))). lia.
  - pose proof (u16_range (sp + 1)). lia.
Qed.

Lemma stack_inc_dec e sp : stack_ok e sp = true -> stack_inc e (stack_dec e sp) = sp.
Proof.
  unfold stack_ok. destruct e; intros Hs.
  - apply Z.eqb_eq.
    apply (page_one_cases (fun s => stack_inc true (stack_dec true s) =? s)); [|lia].
    vm_compute. reflexivity.
  - unfold stack_inc, stack_dec, u16. apply andb_prop in Hs. destruct Hs as [H0 H1].
    apply Z.leb_le in H0, H1. Z.div_mod_to_equations. lia.
Qed.

(** The addresses of up to four consecutive pushes are distinct. *)
Lemma stack_dec_fresh e sp :
  stack_ok e sp = true ->
  let s1 := stack_dec e sp in
  let s2 := stack_dec e s1 in
  let s3 := stack_dec e s2 in
  (s1 =? sp) = false /\ (s2 =? sp) = false /\ (s3 =? sp) = false.
Proof.
  unfold stack_ok. destruct e; intros Hs.
  - assert (Hr : 0x100 <= sp <= 0x1FF) by lia.
    pose proof (page_one_cases
      (fun s => negb (stack_dec true s =? s)
                && negb (stack_dec true (stack_dec true s) =? s)
                && negb (stack_dec true (stack_dec true (stack_dec true s)) =? s))
      ltac:(vm_compute; reflexivity) sp Hr) as Hp.
    cbv beta in Hp. apply andb_prop in Hp. destruct Hp as [Hp H3].
    apply andb_prop in Hp. destruct Hp as [H1 H2].
    apply negb_true_iff in H1, H2, H3. cbv zeta. auto.
  - cbv zeta. unfold stack_dec, u16. apply andb_prop in Hs. destruct Hs as [H0 H1].
    apply Z.leb_le in H0, H1.
    repeat split; apply Z.eqb_neq; Z.div_mod_to_equations; lia.
Qed.
Lemma stack_inc_fresh e sp :
  stack_ok e sp = true ->
  (stack_inc e sp =? sp) = false /\ (stack_inc e sp =? stack_dec e sp) = false.
Proof.
  unfold stack_ok. destruct e; intros Hs.
  - assert (Hr : 0x100 <= sp <= 0x1FF) by lia.
    pose proof (page_one_cases
      (fun s => negb (stack_inc true s =? s) && negb (stack_inc true s =? stack_dec true s))
      ltac:(vm_compute; reflexivity) sp Hr) as Hp.
    cbv beta in Hp. apply andb_prop in Hp. destruct Hp as [H1 H2].
    apply negb_true_iff in H1, H2. auto.
  - unfold stack_inc, stack_dec, u16. apply andb_prop in Hs. destruct Hs as [H0 H1].
    apply Z.leb_le in H0, H1.
    split; apply Z.eqb_neq; Z.div_mod_to_equations; lia.
Qed.

Lemma stack_fresh1 e sp : stack_ok e sp = true -> (stack_dec e sp =? sp) = false.
Proof. intros Hs. apply (stack_dec_fresh e sp Hs). Qed.
Lemma stack_fresh2 e sp :
  stack_ok e sp = true -> (stack_dec e (stack_dec e sp) =? sp) = false.
Proof. intros Hs. apply (stack_dec_fresh e sp Hs). Qed.
Lemma stack_fresh3 e sp :
  stack_ok e sp = true -> (stack_dec e (stack_dec e (stack_dec e sp)) =? sp) = false.
Proof. intros Hs. apply (stack_dec_fresh e sp Hs). Qed.
Lemma stack_fresh1' e sp : stack_ok e sp = true -> (sp =? stack_dec e sp) = false.
Proof. intros Hs. rewrite Z.eqb_sym. apply stack_fresh1, Hs. Qed.
Lemma stack_fresh2' e sp :
  stack_ok e sp = true -> (sp =? stack_dec e (stack_dec e sp)) = false.
Proof. intros Hs. rewrite Z.eqb_sym. apply stack_fresh2, Hs. Qed.
Lemma stack_fresh3' e sp :
  stack_ok e sp = true -> (sp =? stack_dec e (stack_dec e (stack_dec e sp))) = false.
Proof. intros Hs. rewrite Z.eqb_sym. apply stack_fresh3, Hs. Qed.

(** [PushByte] and [PullByte] over RAM, in one step. *)
Lemma wp_PushByte_ram (value : Z) (Q : unit -> Machine Ram -> Prop) s (h : Ram) l :
  Q tt (mkMachine (with_sp (stack_dec (m_e s) (m_sp s)) s)
          (fun a => if a =? m_sp s then u8 value else h a)
          (EvWrite (m_sp s) (u8 value) :: l)) ->
  wp (PushByte value) Q (mkMachine s h l).
Proof. destruct s as [? ? ? ? ? ? ? ? ? ? ? ? ? ? ? ? []]; exact (fun q => q). Qed.

Lemma wp_PullByte_ram (Q : Z -> Machine Ram -> Prop) s (h : Ram) l :
  Q (u8 (h (stack_inc (m_e s) (m_sp s))))
    (mkMachine (with_sp (stack_inc (m_e s) (m_sp s)) s) h
       (EvRead (stack_inc (m_e s) (m_sp s)) (u8 (h (stack_inc (m_e s) (m_sp s)))) :: l)) ->
  wp PullByte Q (mkMachine s h l).
Proof. destruct s as [? ? ? ? ? ? ? ? ? ? ? ? ? ? ? ? []]; exact (fun q => q). Qed.

Ltac ram_step :=
  lazymatch goal with
  | |- wp (PushByte ?v) ?Q (mkMachine ?s ?h ?l) =>
      let sp := reduce_cpu (m_sp s) in
      let e := reduce_cpu (m_e s) in
      let s' := reduce_cpu (with_sp (stack_dec e sp) s) in
      apply wp_PushByte_ram;
      change (Q tt (mkMachine s' (fun a => if a =? sp then u8 v else h a)
                      (EvWrite sp (u8 v) :: l)));
      cbv beta
  | |- wp PullByte ?Q (mkMachine ?s ?h ?l) =>
      let sp := reduce_cpu (m_sp s) in
      let e := reduce_cpu (m_e s) in
      let s' := reduce_cpu (with_sp (stack_inc e sp) s) in
      apply wp_PullByte_ram;
      change (Q (u8 (h (stack_inc e sp)))
                (mkMachine s' h (EvRead (stack_inc e sp) (u8 (h (stack_inc e sp))) :: l)));
      cbv beta
  | |- wp (Read _) _ (mkMachine _ _ _) => apply wp_Read_ram; cbv beta
  | |- wp (Write _ _) _ (mkMachine _ _ _) => apply wp_Write_ram; cbv beta
  | |- wp Idle _ (mkMachine _ _ _) => apply wp_Idle_ram; cbv beta
  | _ => step
  end.

Ltac ram_steps := repeat ram_step; record_simpl.

(** Reads of what the pushes left in RAM. *)
Ltac stack_side := repeat apply stack_dec_ok; assumption.
Ltac stack_simpl :=
  repeat first
    [ rewrite stack_inc_dec by stack_side
    | rewrite Z.eqb_refl
    | rewrite stack_fresh1 by stack_side
    | rewrite stack_fresh1' by stack_side
    | rewrite stack_fresh2 by stack_side
    | rewrite stack_fresh2' by stack_side
    | rewrite stack_fresh3 by stack_side
    | rewrite stack_fresh3' by stack_side ].

(** ** What is pushed is pulled *)

Section StackRoundTrips.
Implicit Types m : Machine Ram.

(** X4: Over a RAM host, PushByte(v) followed by PullByte returns v & $FF
    and leaves every register, SP included, as it was, in native mode and in
    emulation mode (where SP wraps within page one). *)
Theorem push_pull_byte m (value : Z) :
  cpu_invariant (cpu m) ->
  eval (PushByte value ;; PullByte) m = u8 value /\
  cpu (exec (PushByte value ;; PullByte) m) = cpu m.
Proof.
  intros Hinv. apply stack_ok_invariant in Hinv.
  apply (wp_exec (PushByte value ;; PullByte) (fun r m1 => r = u8 value /\ cpu m1 = cpu m)).
  destruct_machine m. cbn [cpu m_e m_sp] in Hinv. ram_steps. stack_simpl.
  split; [apply u8_idem|reflexivity].
Qed.
(** X5: Over a RAM host, PushWord(v, c) followed by PullWord(c') returns v &
    $FFFF and restores SP, for every value of the two interrupt-check
    arguments. *)
Theorem push_pull_word m (value : Z) (push_check pull_check : bool) :
  cpu_invariant (cpu m) ->
  let c := PushWord value push_check ;; PullWord pull_check in
  eval c m = u16 value /\ m_sp (cpu (exec c m)) = m_sp (cpu m).
Proof.
  intros Hinv c. subst c. apply stack_ok_invariant in Hinv.
  apply (wp_exec (PushWord value push_check ;; PullWord pull_check)
           (fun r m1 => r = u16 value /\ m_sp (cpu m1) = m_sp (cpu m))).
  destruct_machine m. cbn [cpu m_e m_sp] in Hinv.
  destruct push_check, pull_check; ram_steps; stack_simpl; rewrite !u8_idem;
    (split; [apply bytes_of_word | reflexivity]).
Qed.
End StackRoundTrips.

Section CallsAndReturns.
Implicit Types m : Machine Ram.

(** X6: Over a RAM host, JSR $aaaa ($20) followed by RTS ($60) returns to
    the instruction after the JSR: PC is the address of the JSR's operand
    plus 2 (mod $10000), and SP and K are as before. *)
Theorem jsr_rts_returns m :
  cpu_invariant (cpu m) ->
  let m1 := exec (DoOpcode 0x20 ;; DoOpcode 0x60) m in
  m_pc (cpu m1) = u16 (m_pc (cpu m) + 2) /\
  m_sp (cpu m1) = m_sp (cpu m) /\
  m_k (cpu m1) = m_k (cpu m).
Proof.
  intros Hinv m1. subst m1. apply stack_ok_invariant in Hinv.
  apply (wp_exec (DoOpcode 0x20 ;; DoOpcode 0x60)
           (fun _ m1 => m_pc (cpu m1) = u16 (m_pc (cpu m) + 2) /\
                        m_sp (cpu m1) = m_sp (cpu m) /\ m_k (cpu m1) = m_k (cpu m))).
  destruct_machine m. cbn [cpu m_e m_sp] in Hinv.
  ram_steps; stack_simpl; rewrite !u8_idem, bytes_of_word.
  all: (split; [unfold u16; Z.div_mod_to_equations; lia | split; reflexivity]).
Qed.

(** X7: Over a RAM host, JSL ($22) followed by RTL ($6B) returns to the
    address of the JSL's operand plus 3 (mod $10000), but JSL pushes only
    the 16-bit return address (no bank byte) while RTL pulls a bank byte as
    well: SP ends one pull above its initial value and K is the byte that
    memory held just above the initial stack top, not the caller's bank. *)
Theorem jsl_rtl_returns m :
  cpu_invariant (cpu m) ->
  let m1 := exec (DoOpcode 0x22 ;; DoOpcode 0x6B) m in
  let above := stack_inc (m_e (cpu m)) (m_sp (cpu m)) in
  m_pc (cpu m1) = u16 (m_pc (cpu m) + 3) /\
  m_sp (cpu m1) = above /\
  m_k (cpu m1) = u8 (host m above).
Proof.
  intros Hinv m1 above. subst m1 above. apply stack_ok_invariant in Hinv.
  apply (wp_exec (DoOpcode 0x22 ;; DoOpcode 0x6B)
           (fun _ m1 =>
              m_pc (cpu m1) = u16 (m_pc (cpu m) + 3) /\
              m_sp (cpu m1) = stack_inc (m_e (cpu m)) (m_sp (cpu m)) /\
              m_k (cpu m1) = u8 (host m (stack_inc (m_e (cpu m)) (m_sp (cpu m)))))).
  destruct_machine m. cbn [cpu m_e m_sp] in Hinv.
  destruct (stack_inc_fresh e sp Hinv) as [I1 I2].
  ram_steps; stack_simpl; rewrite ?I1, ?I2, !u8_idem, bytes_of_word.
  all: (split; [unfold u16; Z.div_mod_to_equations; lia | split; reflexivity]).
Qed.
End CallsAndReturns.

Section FlagsOnTheStack.
Implicit Types m : Machine Ram.

Ltac invariant_facts Hinv :=
  let Hs := fresh "Hs" in
  pose proof (stack_ok_invariant _ Hinv) as Hs;
  unfold cpu_invariant, wf_regs, mode_invariant in Hinv;
  cbn [cpu m_a m_x m_y m_sp m_pc m_dp m_k m_db m_xf m_mf m_e] in Hinv, Hs.

Ltac revert_paths := repeat match goal with Hb : nz _ = _ |- _ => revert Hb end.
Ltac restore :=
  try discriminate;
  repeat match goal with
    | Hc : true = true -> _ |- _ => specialize (Hc eq_refl)
    | Hc : false = true -> _ |- _ => clear Hc
    | Hc : _ /\ _ |- _ => destruct Hc
    end;
  subst;
  cbv beta iota delta [with_pc with_k with_xf with_nmiWanted with_intWanted
    m_a m_x m_y m_sp m_pc m_dp m_k m_db m_c m_z m_v m_n m_i m_d m_xf m_mf m_e
    m_waiting m_stopped m_irqWanted m_nmiWanted m_intWanted m_resetWanted
    negb andb orb];
  rewrite ?land_byte_small by lia;
  rewrite ?u16_idem, ?u8_idem;
  repeat match goal with
    | |- context [u8 ?t] => rewrite (u8_small t) by lia
    | |- context [u16 ?t] => rewrite (u16_small t) by lia
    end;
  try reflexivity;
  repeat match goal with
    | Hb : (if ?b then _ else _) = _ |- _ => destruct b; try discriminate Hb
    end;
  try reflexivity.

(** X8: Over a RAM host, PHP ($08) followed by PLP ($28) restores the whole
    register file (flags, SP and every register); only the intWanted latch
    is polled again, to nmiWanted || (irqWanted && !I). *)
Theorem php_plp_restores m :
  cpu_invariant (cpu m) ->
  let s := cpu m in
  cpu (exec (DoOpcode 0x08 ;; DoOpcode 0x28) m) =
  with_intWanted (m_nmiWanted s || (m_irqWanted s && negb (m_i s))) s.
Proof.
  intros Hinv s. subst s.
  apply (wp_exec (DoOpcode 0x08 ;; DoOpcode 0x28)
           (fun _ m1 => cpu m1 =
              with_intWanted (m_nmiWanted (cpu m) || (m_irqWanted (cpu m) && negb (m_i (cpu m))))
                (cpu m))).
  destruct_machine m. invariant_facts Hinv.
  destruct Hinv as (Hr & He & Hx).
  ram_steps; revert_paths; stack_simpl; flags_simpl n v mf xf d i z c; intros; restore.
Qed.

(** X9: Over a RAM host, DoInterrupt followed by RTI ($40) restores PC, SP,
    the registers and the flags, except that nmiWanted and intWanted are
    cleared, that in native mode the X flag returns as 0 (the pushed flag
    byte has bit 4 cleared) and that in emulation mode K stays 0 (the
    interrupt zeroes it and nothing pushes or pulls it). *)
Theorem interrupt_rti_returns m :
  cpu_invariant (cpu m) ->
  let s := cpu m in
  cpu (exec (DoInterrupt ;; DoOpcode 0x40) m) =
  with_xf (m_e s) (with_k (if m_e s then 0 else m_k s)
    (with_nmiWanted false (with_intWanted false s))).
Proof.
  intros Hinv s. subst s.
  apply (wp_exec (DoInterrupt ;; DoOpcode 0x40)
           (fun _ m1 => cpu m1 =
              with_xf (m_e (cpu m)) (with_k (if m_e (cpu m) then 0 else m_k (cpu m))
                (with_nmiWanted false (with_intWanted false (cpu m)))))).
  destruct_machine m. invariant_facts Hinv.
  destruct Hinv as (Hr & He & Hx).
  ram_steps; revert_paths; stack_simpl; flags_simpl_masked n v mf xf d i z c false;
    rewrite ?bytes_of_word; intros; restore.
Qed.

(** X10: Over a RAM host, COP ($02) followed by RTI ($40) returns past the
    signature byte (PC + 1) with SP, the registers and the flags restored; K
    is restored in native mode and left at 0 in emulation mode, and
    intWanted ends equal to nmiWanted. *)
Theorem cop_rti_returns m :
  cpu_invariant (cpu m) ->
  let s := cpu m in
  cpu (exec (DoOpcode 0x02 ;; DoOpcode 0x40) m) =
  with_pc (u16 (m_pc s + 1)) (with_k (if m_e s then 0 else m_k s)
    (with_intWanted (m_nmiWanted s) s)).
Proof.
  intros Hinv s. subst s.
  apply (wp_exec (DoOpcode 0x02 ;; DoOpcode 0x40)
           (fun _ m1 => cpu m1 =
              with_pc (u16 (m_pc (cpu m) + 1)) (with_k (if m_e (cpu m) then 0 else m_k (cpu m))
                (with_intWanted (m_nmiWanted (cpu m)) (cpu m))))).
  destruct_machine m. invariant_facts Hinv.
  destruct Hinv as (Hr & He & Hx).
  ram_steps; revert_paths; stack_simpl; flags_simpl n v mf xf d i z c;
    rewrite ?bytes_of_word; intros; restore.
Qed.
End FlagsOnTheStack.

Lemma merge_byte a : 0 <= a <= 65535 -> Z.lor (Z.land a 65280) (u8 a) = a.
Proof.
  intros Ha. unfold u8. rewrite <- land_255.
  rewrite <- Z.land_lor_distr_r. change (Z.lor 65280 255) with 65535.
  rewrite land_65535. apply Z.mod_small. lia.
Qed.

Lemma land_word_small x : 0 <= x <= 65535 -> Z.land x 65535 = x.
Proof. intros Hx. rewrite land_65535. apply Z.mod_small. lia. Qed.

Section StoreLoad.
Implicit Types m : Machine Ram.

Ltac reload_case :=
  unfold reloaded; cbn [width_mask sign_bit m_a m_x m_y m_z m_n];
  rewrite ?Z.eqb_refl;
  repeat match goal with
    | Hne : ?p <> ?q |- context [?p =? ?q] =>
        rewrite (proj2 (Z.eqb_neq p q) Hne)
    | Hne : ?p <> ?q |- context [?q =? ?p] =>
        rewrite (proj2 (Z.eqb_neq q p) (not_eq_sym Hne))
    end;
  rewrite ?Z.eqb_refl, ?u8_idem, ?bytes_of_word;
  repeat match goal with
    | |- context [u8 ?t] => rewrite (u8_small t) by lia
    | |- context [u16 ?t] => rewrite (u16_small t) by lia
    end;
  rewrite ?merge_byte by lia;
  rewrite ?(nz_land_pow2 _ 7), ?(nz_land_pow2 _ 15) by lia;
  repeat match goal with
    | |- context [u16 ?t] => rewrite (u16_small t) by lia
    end;
  rewrite ?land_word_small by lia;
  repeat split.

(** X20: Over a RAM host, Sta, Stx or Sty to an address pair with low <>
    high, followed by Lda, Ldx or Ldy from the same pair, leaves the
    register unchanged and sets Z and N from it, in 8-bit and 16-bit width. *)
Theorem store_load_roundtrip m low high :
  cpu_invariant (cpu m) ->
  low <> high ->
  let s := cpu m in
  (let s1 := cpu (exec (Sta low high ;; Lda low high) m) in
   reloaded (m_mf s) (m_a s) (m_a s1) s1) /\
  (let s1 := cpu (exec (Stx low high ;; Ldx low high) m) in
   reloaded (m_xf s) (m_x s) (m_x s1) s1) /\
  (let s1 := cpu (exec (Sty low high ;; Ldy low high) m) in
   reloaded (m_xf s) (m_y s) (m_y s1) s1).
Proof.
  intros Hinv Hne s. subst s. cbv zeta.
  destruct Hinv as (Hwf & _ & Hx).
  split; [|split].
  - apply (wp_exec (Sta low high ;; Lda low high)
      (fun _ m1 => reloaded (m_mf (cpu m)) (m_a (cpu m)) (m_a (cpu m1)) (cpu m1))).
    destruct_machine m. wf_facts Hwf. cbn [cpu m_xf m_x m_y] in Hx.
    ram_steps; reload_case.
  - apply (wp_exec (Stx low high ;; Ldx low high)
      (fun _ m1 => reloaded (m_xf (cpu m)) (m_x (cpu m)) (m_x (cpu m1)) (cpu m1))).
    destruct_machine m. wf_facts Hwf. cbn [cpu m_xf m_x m_y] in Hx.
    ram_steps; try (destruct (Hx eq_refl)); reload_case.
  - apply (wp_exec (Sty low high ;; Ldy low high)
      (fun _ m1 => reloaded (m_xf (cpu m)) (m_y (cpu m)) (m_y (cpu m1)) (cpu m1))).
    destruct_machine m. wf_facts Hwf. cbn [cpu m_xf m_x m_y] in Hx.
    ram_steps; try (destruct (Hx eq_refl)); reload_case.
Qed.
End StoreLoad.

Section RegistersOnTheStack.
Implicit Types m : Machine Ram.

Ltac pull_case Hinv Hwf Hx :=
  match goal with m : Machine Ram |- _ => destruct_machine m end;
  wf_facts Hwf; cbn [cpu m_e m_sp] in Hinv; cbn [cpu m_xf m_x m_y] in Hx;
  ram_steps; try discriminate; try (destruct (Hx eq_refl)); stack_simpl;
  unfold reloaded; cbn [width_mask sign_bit m_a m_x m_y m_db m_dp m_sp m_z m_n];
  rewrite ?u8_idem, ?bytes_of_word;
  repeat match goal with
    | |- context [u8 ?t] => rewrite (u8_small t) by lia
    | |- context [u16 ?t] => rewrite (u16_small t) by lia
    end;
  rewrite ?merge_byte by lia;
  repeat match goal with
    | |- context [u16 ?t] => rewrite (u16_small t) by lia
    end;
  rewrite ?(nz_land_pow2 _ 7), ?(nz_land_pow2 _ 15) by lia;
  rewrite ?land_word_small by lia;
  repeat match goal with |- _ /\ _ => split end; reflexivity.

(** X27: Over a RAM host, PHA/PLA, PHX/PLX, PHY/PLY, PHB/PLB and PHD/PLD
    each restore the register and SP, and the pull sets Z and N from the
    value pulled, over the register's width. *)
Theorem push_pull_registers m :
  cpu_invariant (cpu m) ->
  let s := cpu m in
  let after (push pull : Z) := cpu (exec (DoOpcode push ;; DoOpcode pull) m) in
  (let s1 := after 0x48 0x68 in reloaded (m_mf s) (m_a s) (m_a s1) s1 /\ m_sp s1 = m_sp s) /\
  (let s1 := after 0xDA 0xFA in reloaded (m_xf s) (m_x s) (m_x s1) s1 /\ m_sp s1 = m_sp s) /\
  (let s1 := after 0x5A 0x7A in reloaded (m_xf s) (m_y s) (m_y s1) s1 /\ m_sp s1 = m_sp s) /\
  (let s1 := after 0x8B 0xAB in reloaded true (m_db s) (m_db s1) s1 /\ m_sp s1 = m_sp s) /\
  (let s1 := after 0x0B 0x2B in reloaded false (m_dp s) (m_dp s1) s1 /\ m_sp s1 = m_sp s).
Proof.
  intros Hinv s after. subst s after. cbv zeta beta.
  pose proof Hinv as (Hwf & _ & Hx). apply stack_ok_invariant in Hinv.
  split; [|split; [|split; [|split]]].
  - apply (wp_exec (DoOpcode 0x48 ;; DoOpcode 0x68)
      (fun _ m1 => reloaded (m_mf (cpu m)) (m_a (cpu m)) (m_a (cpu m1)) (cpu m1) /\
                   m_sp (cpu m1) = m_sp (cpu m))).
    pull_case Hinv Hwf Hx.
  - apply (wp_exec (DoOpcode 0xDA ;; DoOpcode 0xFA)
      (fun _ m1 => reloaded (m_xf (cpu m)) (m_x (cpu m)) (m_x (cpu m1)) (cpu m1) /\
                   m_sp (cpu m1) = m_sp (cpu m))).
    pull_case Hinv Hwf Hx.
  - apply (wp_exec (DoOpcode 0x5A ;; DoOpcode 0x7A)
      (fun _ m1 => reloaded (m_xf (cpu m)) (m_y (cpu m)) (m_y (cpu m1)) (cpu m1) /\
                   m_sp (cpu m1) = m_sp (cpu m))).
    pull_case Hinv Hwf Hx.
  - apply (wp_exec (DoOpcode 0x8B ;; DoOpcode 0xAB)
      (fun _ m1 => reloaded true (m_db (cpu m)) (m_db (cpu m1)) (cpu m1) /\
                   m_sp (cpu m1) = m_sp (cpu m))).
    pull_case Hinv Hwf Hx.
  - apply (wp_exec (DoOpcode 0x0B ;; DoOpcode 0x2B)
      (fun _ m1 => reloaded false (m_dp (cpu m)) (m_dp (cpu m1)) (cpu m1) /\
                   m_sp (cpu m1) = m_sp (cpu m))).
    pull_case Hinv Hwf Hx.
Qed.
End RegistersOnTheStack.

(** ** Comparison and binary arithmetic *)

Lemma compare_byte r value :
  0 <= r <= 255 -> 0 <= value <= 255 ->
  (u32 (r - value) <? 256) = (value <=? r) /\
  (Z.land (u16 (u32 (r - value))) 255 =? 0) = (r =? value) /\
  nz (Z.land (u16 (u32 (r - value))) 128) = (128 <=? (r - value) mod 256).
Proof.
  intros Hr Hv.
  rewrite nz_land_128, land_255. unfold u32, u16.
  repeat split.
  - destruct (Z.leb_spec value r); [apply Z.ltb_lt | apply Z.ltb_ge];
      Z.div_mod_to_equations; lia.
  - destruct (Z.eqb_spec r value); [apply Z.eqb_eq | apply Z.eqb_neq];
      Z.div_mod_to_equations; lia.
  - f_equal. Z.div_mod_to_equations; lia.
Qed.

Lemma compare_word r value :
  0 <= r <= 65535 -> 0 <= value <= 65535 ->
  (u32 (r - value) <? 65536) = (value <=? r) /\
  (u16 (u32 (r - value)) =? 0) = (r =? value) /\
  nz (Z.land (u16 (u32 (r - value))) 32768) = (32768 <=? (r - value) mod 65536).
Proof.
  intros Hr Hv.
  rewrite nz_land_32768. unfold u32, u16.
  repeat split.
  - destruct (Z.leb_spec value r); [apply Z.ltb_lt | apply Z.ltb_ge];
      Z.div_mod_to_equations; lia.
  - destruct (Z.eqb_spec r value); [apply Z.eqb_eq | apply Z.eqb_neq];
      Z.div_mod_to_equations; lia.
  - f_equal. Z.div_mod_to_equations; lia.
Qed.

Section Compare.
Context {H : Type} {HB : Bus H}.
Implicit Types m : Machine H.

Ltac compare_case :=
  cbn [last_operand width_mask]; eexists; split; [reflexivity|];
  rewrite ?word_of_bytes by assumption;
  unfold compared;
  cbn [width_mask m_c m_z m_n m_a m_x m_y];
  change ((255 + 1) / 2) with 128; change (255 + 1) with 256;
  change ((65535 + 1) / 2) with 32768; change (65535 + 1) with 65536;
  first [ apply compare_byte;
          [match goal with |- _ <= Z.land ?r _ <= _ =>
             pose proof (land_mask_range r 255 8 ltac:(lia) ltac:(lia)) end; lia | lia]
        | rewrite land_65535, Z.mod_small by lia; apply compare_word; lia ].

(** X11: Cmp, Cpx and Cpy read one operand of the register's width and set C
    to (register >= operand, unsigned over that width), Z to (register =
    operand) and N to the sign bit of register - operand modulo the width. *)
Theorem compare_flags m low high :
  wf_regs (cpu m) ->
  let s := cpu m in
  (let m1 := exec (Cmp low high) m in
   exists value, last_operand (m_mf s) (log m1) = Some value /\
                 compared (m_mf s) (m_a s) (cpu m1) value) /\
  (let m1 := exec (Cpx low high) m in
   exists value, last_operand (m_xf s) (log m1) = Some value /\
                 compared (m_xf s) (m_x s) (cpu m1) value) /\
  (let m1 := exec (Cpy low high) m in
   exists value, last_operand (m_xf s) (log m1) = Some value /\
                 compared (m_xf s) (m_y s) (cpu m1) value).
Proof.
  intros Hwf s. subst s. cbv zeta. repeat split.
  - apply (wp_exec (Cmp low high)
      (fun _ m1 => exists value, last_operand (m_mf (cpu m)) (log m1) = Some value /\
                     compared (m_mf (cpu m)) (m_a (cpu m)) (cpu m1) value)).
    destruct_machine m. wf_facts Hwf.
    steps; compare_case.
  - apply (wp_exec (Cpx low high)
      (fun _ m1 => exists value, last_operand (m_xf (cpu m)) (log m1) = Some value /\
                     compared (m_xf (cpu m)) (m_x (cpu m)) (cpu m1) value)).
    destruct_machine m. wf_facts Hwf.
    steps; compare_case.
  - apply (wp_exec (Cpy low high)
      (fun _ m1 => exists value, last_operand (m_xf (cpu m)) (log m1) = Some value /\
                     compared (m_xf (cpu m)) (m_y (cpu m)) (cpu m1) value)).
    destruct_machine m. wf_facts Hwf.
    steps; compare_case.
Qed.
End Compare.

Section Arithmetic.
Context {H : Type} {HB : Bus H}.
Implicit Types m : Machine H.

Ltac arithmetic_case :=
  cbn [last_operand width_mask]; eexists; (split; [reflexivity|]);
  rewrite ?word_of_bytes by assumption;
  unfold arithmetic, signed; cbn [width_mask m_c m_z m_n m_a m_v andb];
  change ((255 + 1) / 2) with 128; change (255 + 1) with 256;
  change ((65535 + 1) / 2) with 32768; change (65535 + 1) with 65536;
  rewrite ?nz_land_lxor_128, ?nz_land_lxor_32768, ?nz_lxor_128, ?nz_lxor_32768,
    ?nz_land_128, ?nz_land_32768;
  rewrite ?land_255, ?land_65535, ?u16_mod_256, ?merge_mod.

(** X12: With D = 0, Adc leaves in A (over the accumulator width w) the sum
    A + operand + C modulo 2^w, and sets C to the unsigned carry out, V to
    the signed overflow of the sum, Z to (result = 0) and N to the result's
    sign bit. *)
Theorem adc_binary m low high :
  wf_regs (cpu m) -> m_d (cpu m) = false ->
  let byte := m_mf (cpu m) in
  let r := Z.land (m_a (cpu m)) (width_mask byte) in
  let carry := Z.b2z (m_c (cpu m)) in
  let m1 := exec (Adc low high) m in
  exists value,
    last_operand byte (log m1) = Some value /\
    arithmetic byte (r + value + carry) (signed byte r + signed byte value + carry)
      (width_mask byte <? r + value + carry) (cpu m1).
Proof.
  intros Hwf Hd byte r carry m1. subst byte r carry m1.
  apply (wp_exec (Adc low high) (fun _ m1 => exists value,
    last_operand (m_mf (cpu m)) (log m1) = Some value /\
    arithmetic (m_mf (cpu m))
      (Z.land (m_a (cpu m)) (width_mask (m_mf (cpu m))) + value + Z.b2z (m_c (cpu m)))
      (signed (m_mf (cpu m)) (Z.land (m_a (cpu m)) (width_mask (m_mf (cpu m))))
       + signed (m_mf (cpu m)) value + Z.b2z (m_c (cpu m)))
      (width_mask (m_mf (cpu m)) <?
         Z.land (m_a (cpu m)) (width_mask (m_mf (cpu m))) + value + Z.b2z (m_c (cpu m)))
      (cpu m1))).
  destruct_machine m. wf_facts Hwf. cbn [cpu m_d] in Hd. subst d.
  steps; arithmetic_case.
  - pose proof (Z.mod_pos_bound a 256 ltac:(lia)). generalize dependent (a mod 256).
    intros al Hal. destruct c; cbn [Z.b2z]; repeat split; bool_lia.
  - rewrite ?(Z.mod_small a 65536) by lia. rewrite ?u32_small by lia.
    destruct c; cbn [Z.b2z]; repeat split; bool_lia.
Qed.

(** X13: With D = 0, Sbc leaves in A (over the accumulator width w) the
    difference A - operand - (1 - C) modulo 2^w, and sets C to (no borrow),
    V to the signed overflow of the difference, Z to (result = 0) and N to
    the result's sign bit. *)
Theorem sbc_binary m low high :
  wf_regs (cpu m) -> m_d (cpu m) = false ->
  let byte := m_mf (cpu m) in
  let r := Z.land (m_a (cpu m)) (width_mask byte) in
  let borrow := 1 - Z.b2z (m_c (cpu m)) in
  let m1 := exec (Sbc low high) m in
  exists value,
    last_operand byte (log m1) = Some value /\
    arithmetic byte (r - value - borrow) (signed byte r - signed byte value - borrow)
      (0 <=? r - value - borrow) (cpu m1).
Proof.
  intros Hwf Hd byte r borrow m1. subst byte r borrow m1.
  apply (wp_exec (Sbc low high) (fun _ m1 => exists value,
    last_operand (m_mf (cpu m)) (log m1) = Some value /\
    arithmetic (m_mf (cpu m))
      (Z.land (m_a (cpu m)) (width_mask (m_mf (cpu m))) - value - (1 - Z.b2z (m_c (cpu m))))
      (signed (m_mf (cpu m)) (Z.land (m_a (cpu m)) (width_mask (m_mf (cpu m))))
       - signed (m_mf (cpu m)) value - (1 - Z.b2z (m_c (cpu m))))
      (0 <=? Z.land (m_a (cpu m)) (width_mask (m_mf (cpu m))) - value
             - (1 - Z.b2z (m_c (cpu m))))
      (cpu m1))).
  destruct_machine m. wf_facts Hwf. cbn [cpu m_d] in Hd. subst d.
  steps; arithmetic_case.
  - rewrite high_byte_zero by (unfold u16; apply Z.mod_pos_bound; lia).
    pose proof (Z.mod_pos_bound a 256 ltac:(lia)). generalize dependent (a mod 256).
    intros al Hal. rewrite (u8_small al) by lia.
    destruct c; cbn [Z.b2z]; repeat split; bool_lia.
  - rewrite high_word_zero by (unfold u32; apply Z.mod_pos_bound; lia).
    rewrite ?(Z.mod_small a 65536) by lia.
    destruct c; cbn [Z.b2z]; repeat split; bool_lia.
Qed.
End Arithmetic.

(** ** Decimal arithmetic *)

Lemma bcd_value_low a : bcd_value true a = bcd_value true (Z.land a 0xff).
Proof.
  unfold bcd_value, nibble. rewrite !Z.shiftr_land, <- !Z.land_assoc. reflexivity.
Qed.

Lemma byte_pairs (P : Z -> Z -> bool) :
  forallb (fun a => forallb (P a) (map Z.of_nat (seq 0 256))) (map Z.of_nat (seq 0 256)) = true ->
  forall a v, 0 <= a <= 255 -> 0 <= v <= 255 -> P a v = true.
Proof.
  intros Hall a v Ha Hv.
  pose proof (forall_byte _ Hall a Ha) as Hrow. cbv beta in Hrow.
  exact (forall_byte _ Hrow v Hv).
Qed.

Lemma adc8_decimal al v c :
  0 <= al <= 255 -> 0 <= v <= 255 ->
  is_bcd true al = true -> is_bcd true v = true ->
  let r := adc8 al v c true in
  is_bcd true (Z.land r 0xff) = true /\
  bcd_value true (Z.land r 0xff) + 100 * Z.b2z (r >? 0xff)
  = bcd_value true al + bcd_value true v + Z.b2z c.
Proof.
  intros Hal Hv Ba Bv r. subst r.
  pose proof (byte_pairs (fun al v =>
    implb (is_bcd true al && is_bcd true v)
      (is_bcd true (Z.land (adc8 al v c true) 0xff)
       && (bcd_value true (Z.land (adc8 al v c true) 0xff)
           + 100 * Z.b2z (adc8 al v c true >? 0xff)
           =? bcd_value true al + bcd_value true v + Z.b2z c)))
    ltac:(destruct c; vm_compute; reflexivity) al v Hal Hv) as Hcell.
  cbv beta in Hcell. rewrite Ba, Bv in Hcell. cbn [andb implb] in Hcell.
  apply andb_prop in Hcell. destruct Hcell as [B E]. apply Z.eqb_eq in E. auto.
Qed.

Lemma sbc8_decimal al v c :
  0 <= al <= 255 -> 0 <= v <= 255 ->
  is_bcd true al = true -> is_bcd true v = true ->
  let r := sbc8 al v c true in
  is_bcd true (Z.land r 0xff) = true /\
  bcd_value true (Z.land r 0xff) - 100 * (1 - Z.b2z (Z.land r 0xFF00 =? 0))
  = bcd_value true al - bcd_value true v - (1 - Z.b2z c).
Proof.
  intros Hal Hv Ba Bv r. subst r.
  pose proof (byte_pairs (fun al v =>
    implb (is_bcd true al && is_bcd true v)
      (is_bcd true (Z.land (sbc8 al v c true) 0xff)
       && (bcd_value true (Z.land (sbc8 al v c true) 0xff)
           - 100 * (1 - Z.b2z (Z.land (sbc8 al v c true) 0xFF00 =? 0))
           =? bcd_value true al - bcd_value true v - (1 - Z.b2z c))))
    ltac:(destruct c; vm_compute; reflexivity) al v Hal Hv) as Hcell.
  cbv beta in Hcell. rewrite Ba, Bv in Hcell. cbn [andb implb] in Hcell.
  apply andb_prop in Hcell. destruct Hcell as [B E]. apply Z.eqb_eq in E. auto.
Qed.

Lemma adc16_decimal_carry a v c :
  is_bcd false a = true -> is_bcd false v = true ->
  exists s0 s1 s2 s3 q3,
    (0 <= s0 <= 9 /\ 0 <= s1 <= 9 /\ 0 <= s2 <= 9 /\ 0 <= s3 <= 9 /\ 0 <= q3 <= 1) /\
    bcd_value false a + bcd_value false v + Z.b2z c
    = s0 + 10 * s1 + 100 * s2 + 1000 * s3 + 10000 * q3 /\
    adc16 a v c true = s0 + 16 * s1 + 256 * s2 + 4096 * s3 + 65536 * q3.
Proof.
  intros Ba Bv. apply is_bcd_word in Ba, Bv.
  pose proof (nibble_range 0 a). pose proof (nibble_range 1 a).
  pose proof (nibble_range 2 a). pose proof (nibble_range 3 a).
  pose proof (nibble_range 0 v). pose proof (nibble_range 1 v).
  pose proof (nibble_range 2 v). pose proof (nibble_range 3 v).
  unfold adc16, bcd_value. cbn [andb].
  assert (Hc : 0 <= Z.b2z c <= 1) by (destruct c; cbn; lia).
  generalize dependent (Z.b2z c). intros ci Hci.
  rewrite !land_nibble0, !land_nibble1, !land_nibble2, !land_nibble3.
  generalize dependent (nibble 0 a). generalize dependent (nibble 1 a).
  generalize dependent (nibble 2 a). generalize dependent (nibble 3 a).
  generalize dependent (nibble 0 v). generalize dependent (nibble 1 v).
  generalize dependent (nibble 2 v). generalize dependent (nibble 3 v).
  intros v3 ? v2 ? v1 ? v0 ? ? a3 ? a2 ? a1 ? a0 ? ?.
  cbv zeta.
  rewrite (u32_small (a0 + v0 + ci)) by lia.
  rewrite adjust0 by lia.
  set (q0 := Z.b2z (a0 + v0 + ci >? 9)).
  assert (Hq0 : (q0 = 1 /\ a0 + v0 + ci >= 10) \/ (q0 = 0 /\ a0 + v0 + ci <= 9))
    by (subst q0; destruct (Z.gtb_spec (a0 + v0 + ci) 9); cbn [Z.b2z]; lia).
  clearbody q0.
  rewrite (u32_small (16 * a1 + 16 * v1 + _)) by lia.
  rewrite adjust1 by lia.
  set (q1 := Z.b2z (_ >? 159)).
  assert (Hq1 : (q1 = 1 /\ a1 + v1 + q0 >= 10) \/ (q1 = 0 /\ a1 + v1 + q0 <= 9))
    by (subst q1; match goal with |- context [?x >? ?y] => destruct (Z.gtb_spec x y) end;
        cbn [Z.b2z]; lia).
  clearbody q1.
  rewrite (u32_small (256 * a2 + 256 * v2 + _)) by lia.
  rewrite adjust2 by lia.
  set (q2 := Z.b2z (_ >? 2559)).
  assert (Hq2 : (q2 = 1 /\ a2 + v2 + q1 >= 10) \/ (q2 = 0 /\ a2 + v2 + q1 <= 9))
    by (subst q2; match goal with |- context [?x >? ?y] => destruct (Z.gtb_spec x y) end;
        cbn [Z.b2z]; lia).
  clearbody q2.
  rewrite (u32_small (4096 * a3 + 4096 * v3 + _)) by lia.
  match goal with |- context [if ?x >? ?y then _ else _] => destruct (Z.gtb_spec x y) end.
  - rewrite u32_small by lia.
    exists (a0 + v0 + ci - 10 * q0), (a1 + v1 + q0 - 10 * q1), (a2 + v2 + q1 - 10 * q2),
           (a3 + v3 + q2 - 10), 1.
    repeat split; lia.
  - exists (a0 + v0 + ci - 10 * q0), (a1 + v1 + q0 - 10 * q1), (a2 + v2 + q1 - 10 * q2),
           (a3 + v3 + q2), 0.
    repeat split; lia.
Qed.

Lemma sbc16_decimal_carry a v c :
  is_bcd false a = true -> is_bcd false v = true ->
  exists t0 t1 t2 t3 b3,
    (0 <= t0 <= 9 /\ 0 <= t1 <= 9 /\ 0 <= t2 <= 9 /\ 0 <= t3 <= 9 /\ 0 <= b3 <= 1) /\
    bcd_value false a - bcd_value false v - (1 - Z.b2z c)
    = t0 + 10 * t1 + 100 * t2 + 1000 * t3 - 10000 * b3 /\
    sbc16 a v c true = u32 (t0 + 16 * t1 + 256 * t2 + 4096 * t3 - 65536 * b3).
Proof.
  intros Ba Bv. apply is_bcd_word in Ba, Bv.
  pose proof (nibble_range 0 a). pose proof (nibble_range 1 a).
  pose proof (nibble_range 2 a). pose proof (nibble_range 3 a).
  pose proof (nibble_range 0 v). pose proof (nibble_range 1 v).
  pose proof (nibble_range 2 v). pose proof (nibble_range 3 v).
  unfold sbc16, bcd_value.
  assert (Hc : 0 <= 1 - Z.b2z c <= 1) by (destruct c; cbn; lia).
  generalize dependent (1 - Z.b2z c). intros bi Hbi.
  rewrite !land_nibble0, !land_nibble1, !land_nibble2, !land_nibble3.
  generalize dependent (nibble 0 a). generalize dependent (nibble 1 a).
  generalize dependent (nibble 2 a). generalize dependent (nibble 3 a).
  generalize dependent (nibble 0 v). generalize dependent (nibble 1 v).
  generalize dependent (nibble 2 v). generalize dependent (nibble 3 v).
  intros v3 ? v2 ? v1 ? v0 ? ? s3 ? s2 ? s1 ? s0 ? ?.
  cbv zeta.
  rewrite (sub_adjust 4 16 6) by lia.
  set (b0 := Z.b2z (_ <? 0)).
  assert (Hb0 : (b0 = 1 /\ s0 - v0 - bi < 0) \/ (b0 = 0 /\ s0 - v0 - bi >= 0))
    by (subst b0; match goal with |- context [?x <? ?y] => destruct (Z.ltb_spec x y) end;
        cbn [Z.b2z]; lia).
  clearbody b0.
  rewrite u32_add_u32. rewrite (sub_adjust 8 256 96) by lia.
  set (b1 := Z.b2z (_ <? 0)).
  assert (Hb1 : (b1 = 1 /\ s1 - v1 - b0 < 0) \/ (b1 = 0 /\ s1 - v1 - b0 >= 0))
    by (subst b1; match goal with |- context [?x <? ?y] => destruct (Z.ltb_spec x y) end;
        cbn [Z.b2z]; lia).
  clearbody b1.
  rewrite u32_add_u32. rewrite (sub_adjust 12 4096 1536) by lia.
  set (b2 := Z.b2z (_ <? 0)).
  assert (Hb2 : (b2 = 1 /\ s2 - v2 - b1 < 0) \/ (b2 = 0 /\ s2 - v2 - b1 >= 0))
    by (subst b2; match goal with |- context [?x <? ?y] => destruct (Z.ltb_spec x y) end;
        cbn [Z.b2z]; lia).
  clearbody b2.
  rewrite u32_add_u32. rewrite (sub_adjust 16 65536 24576) by lia.
  set (b3 := Z.b2z (_ <? 0)).
  assert (Hb3 : (b3 = 1 /\ s3 - v3 - b2 < 0) \/ (b3 = 0 /\ s3 - v3 - b2 >= 0))
    by (subst b3; match goal with |- context [?x <? ?y] => destruct (Z.ltb_spec x y) end;
        cbn [Z.b2z]; lia).
  clearbody b3.
  exists (s0 - v0 - bi + 10 * b0), (s1 - v1 - b0 + 10 * b1), (s2 - v2 - b1 + 10 * b2),
         (s3 - v3 - b2 + 10 * b3), b3.
  repeat split; try lia.
  f_equal. lia.
Qed.

Section Decimal.
Context {H : Type} {HB : Bus H}.
Implicit Types m : Machine H.

(** What [Adc] and [Sbc] leave in A and in C, with the operand fetched. *)
Lemma Adc_result m low high :
  wp (Adc low high) (fun _ m1 => exists value,
    last_operand (m_mf (cpu m)) (log m1) = Some value /\
    0 <= value <= width_mask (m_mf (cpu m)) /\
    m_a (cpu m1) =
      (if m_mf (cpu m) then Z.lor (Z.land (m_a (cpu m)) 0xff00)
           (Z.land (adc8 (m_a (cpu m)) value (m_c (cpu m)) (m_d (cpu m))) 0xff)
       else u16 (adc16 (m_a (cpu m)) value (m_c (cpu m)) (m_d (cpu m)))) /\
    m_c (cpu m1) =
      (if m_mf (cpu m) then adc8 (m_a (cpu m)) value (m_c (cpu m)) (m_d (cpu m)) >? 0xff
       else adc16 (m_a (cpu m)) value (m_c (cpu m)) (m_d (cpu m)) >? 0xffff)) m.
Proof.
  destruct_machine m. steps.
  all: cbn [last_operand width_mask]; eexists; split; [reflexivity|].
  all: rewrite ?word_of_bytes by assumption.
  all: split; [lia|]. all: split; reflexivity.
Qed.

Lemma Sbc_result m low high :
  wp (Sbc low high) (fun _ m1 => exists value,
    last_operand (m_mf (cpu m)) (log m1) = Some value /\
    0 <= value <= width_mask (m_mf (cpu m)) /\
    m_a (cpu m1) =
      (if m_mf (cpu m) then Z.lor (Z.land (m_a (cpu m)) 0xFF00)
           (Z.land (sbc8 (m_a (cpu m)) value (m_c (cpu m)) (m_d (cpu m))) 0xFF)
       else Z.land (sbc16 (m_a (cpu m)) value (m_c (cpu m)) (m_d (cpu m))) 0xFFFF) /\
    m_c (cpu m1) =
      (if m_mf (cpu m)
       then Z.land (sbc8 (m_a (cpu m)) value (m_c (cpu m)) (m_d (cpu m))) 0xFF00 =? 0
       else Z.land (sbc16 (m_a (cpu m)) value (m_c (cpu m)) (m_d (cpu m))) 0xFFFF0000 =? 0)) m.
Proof.
  destruct_machine m. steps.
  all: cbn [last_operand width_mask]; eexists; split; [reflexivity|].
  all: rewrite ?word_of_bytes by assumption.
  all: split; [lia|]. all: split; reflexivity.
Qed.

(** X14: With D = 1, when A and the operand are valid BCD over the
    accumulator width, Adc leaves a valid BCD accumulator with decimal(A') +
    10^digits * C' = decimal(A) + decimal(operand) + C. *)
Theorem adc_decimal m low high :
  m_d (cpu m) = true ->
  let byte := m_mf (cpu m) in
  let m1 := exec (Adc low high) m in
  exists value,
    last_operand byte (log m1) = Some value /\
    (is_bcd byte (m_a (cpu m)) = true -> is_bcd byte value = true ->
     is_bcd byte (m_a (cpu m1)) = true /\
     bcd_value byte (m_a (cpu m1)) + bcd_modulus byte * Z.b2z (m_c (cpu m1))
     = bcd_value byte (m_a (cpu m)) + bcd_value byte value + Z.b2z (m_c (cpu m))).
Proof.
  intros Hd byte m1. subst byte m1.
  destruct (wp_exec _ _ _ (Adc_result m low high)) as (value & Hop & Hv & Ha & Hc).
  exists value. split; [exact Hop|]. intros Ba Bv.
  rewrite Ha, Hc, Hd. clear Ha Hc Hop.
  unfold bcd_modulus. destruct (m_mf (cpu m)); cbn [width_mask] in Hv.
  - rewrite is_bcd_low, (bcd_value_low (Z.lor _ _)), land_lor_low, adc8_low.
    rewrite (bcd_value_low (m_a (cpu m))). rewrite is_bcd_low in Ba.
    apply adc8_decimal; try assumption.
    pose proof (land_mask_range (m_a (cpu m)) 255 8). lia.
  - destruct (adc16_decimal_carry _ _ (m_c (cpu m)) Ba Bv)
      as (s0 & s1 & s2 & s3 & q3 & Hs & E & ->).
    assert (HA : u16 (s0 + 16 * s1 + 256 * s2 + 4096 * s3 + 65536 * q3)
                 = s0 + 16 * s1 + 256 * s2 + 4096 * s3)
      by (unfold u16; Z.div_mod_to_equations; lia).
    rewrite HA.
    destruct (nibbles_of_digits _ s0 s1 s2 s3 ltac:(lia) ltac:(lia) ltac:(lia) ltac:(lia)
                eq_refl) as (N0 & N1 & N2 & N3).
    split.
    + apply (is_bcd_of_digits _ s0 s1 s2 s3); first [lia | reflexivity].
    + unfold bcd_value at 1. rewrite N0, N1, N2, N3, E.
      assert (Hq : Z.b2z (s0 + 16 * s1 + 256 * s2 + 4096 * s3 + 65536 * q3 >? 65535) = q3).
      { match goal with |- context [?p >? ?q] => destruct (Z.gtb_spec p q) end;
          cbn [Z.b2z]; lia. }
      rewrite Hq. lia.
Qed.

(** X15: With D = 1, when A and the operand are valid BCD over the
    accumulator width, Sbc leaves a valid BCD accumulator with decimal(A') -
    10^digits * (1 - C') = decimal(A) - decimal(operand) - (1 - C). *)
Theorem sbc_decimal m low high :
  m_d (cpu m) = true ->
  let byte := m_mf (cpu m) in
  let m1 := exec (Sbc low high) m in
  exists value,
    last_operand byte (log m1) = Some value /\
    (is_bcd byte (m_a (cpu m)) = true -> is_bcd byte value = true ->
     is_bcd byte (m_a (cpu m1)) = true /\
     bcd_value byte (m_a (cpu m1)) - bcd_modulus byte * (1 - Z.b2z (m_c (cpu m1)))
     = bcd_value byte (m_a (cpu m)) - bcd_value byte value - (1 - Z.b2z (m_c (cpu m)))).
Proof.
  intros Hd byte m1. subst byte m1.
  destruct (wp_exec _ _ _ (Sbc_result m low high)) as (value & Hop & Hv & Ha & Hc).
  exists value. split; [exact Hop|]. intros Ba Bv.
  rewrite Ha, Hc, Hd. clear Ha Hc Hop.
  unfold bcd_modulus. destruct (m_mf (cpu m)); cbn [width_mask] in Hv.
  - rewrite is_bcd_low, (bcd_value_low (Z.lor _ _)), land_lor_low, sbc8_low.
    rewrite (bcd_value_low (m_a (cpu m))). rewrite is_bcd_low in Ba.
    apply sbc8_decimal; try assumption.
    pose proof (land_mask_range (m_a (cpu m)) 255 8). lia.
  - destruct (sbc16_decimal_carry _ _ (m_c (cpu m)) Ba Bv)
      as (t0 & t1 & t2 & t3 & b3 & Ht & E & ->).
    rewrite high_word_zero by (unfold u32; apply Z.mod_pos_bound; lia).
    assert (HA : Z.land (u32 (t0 + 16 * t1 + 256 * t2 + 4096 * t3 - 65536 * b3)) 65535
                 = t0 + 16 * t1 + 256 * t2 + 4096 * t3)
      by (rewrite land_65535; unfold u32; Z.div_mod_to_equations; lia).
    rewrite HA.
    destruct (nibbles_of_digits _ t0 t1 t2 t3 ltac:(lia) ltac:(lia) ltac:(lia) ltac:(lia)
                eq_refl) as (N0 & N1 & N2 & N3).
    split.
    + apply (is_bcd_of_digits _ t0 t1 t2 t3); first [lia | reflexivity].
    + unfold bcd_value at 1. rewrite N0, N1, N2, N3, E.
      assert (Hq : Z.b2z (u32 (t0 + 16 * t1 + 256 * t2 + 4096 * t3 - 65536 * b3) <? 65536)
                   = 1 - b3).
      { match goal with |- context [?p <? ?q] => destruct (Z.ltb_spec p q) end;
          cbn [Z.b2z]; unfold u32 in *; Z.div_mod_to_equations; lia. }
      rewrite Hq. lia.
Qed.
End Decimal.

(** ** WAI *)

Section Waiting.
Context {H : Type} {HB : Bus H}.
Implicit Types m : Machine H.

Lemma waiting_step m :
  m_resetWanted (cpu m) = false -> m_stopped (cpu m) = false ->
  m_waiting (cpu m) = true ->
  m_irqWanted (cpu m) = false -> m_nmiWanted (cpu m) = false ->
  cpu (exec RunOpcode m) = cpu m /\ log (exec RunOpcode m) = EvIdle true :: log m.
Proof.
  destruct_machine m. cbn [cpu log m_resetWanted m_stopped m_waiting m_irqWanted m_nmiWanted].
  intros -> -> -> -> ->. split; reflexivity.
Qed.

(** X16: After WAI ($CB) with no reset wanted, the CPU not stopped and
    neither interrupt line latched, the CPU is waiting, and every further
    RunOpcode leaves all registers unchanged and calls only the idle
    handler, once, with waiting = true. *)
Theorem wai_waits m (count : nat) :
  m_resetWanted (cpu m) = false -> m_stopped (cpu m) = false ->
  m_irqWanted (cpu m) = false -> m_nmiWanted (cpu m) = false ->
  let m1 := exec (DoOpcode 0xCB) m in
  m_waiting (cpu m1) = true /\
  cpu (steps count m1) = cpu m1 /\
  log (steps count m1) = repeat (EvIdle true) count ++ log m1.
Proof.
  intros Hr Hs Hi Hn m1.
  assert (H1 : cpu m1 = with_waiting true (cpu m)) by (destruct_machine m; reflexivity).
  assert (Hw : m_waiting (cpu m1) = true) by (rewrite H1; destruct_machine m; reflexivity).
  split; [exact Hw|].
  assert (Hr1 : m_resetWanted (cpu m1) = false) by (rewrite H1; destruct_machine m; exact Hr).
  assert (Hs1 : m_stopped (cpu m1) = false) by (rewrite H1; destruct_machine m; exact Hs).
  assert (Hi1 : m_irqWanted (cpu m1) = false) by (rewrite H1; destruct_machine m; exact Hi).
  assert (Hn1 : m_nmiWanted (cpu m1) = false) by (rewrite H1; destruct_machine m; exact Hn).
  clearbody m1. clear H1 Hr Hs Hi Hn m.
  revert m1 Hw Hr1 Hs1 Hi1 Hn1.
  induction count as [|count IH]; intros m1 Hw Hr Hs Hi Hn; [split; reflexivity|].
  destruct (waiting_step m1 Hr Hs Hw Hi Hn) as [Hc Hl].
  cbn [steps repeat].
  destruct (IH (exec RunOpcode m1)) as [IHc IHl]; try (rewrite Hc; assumption).
  split; [rewrite IHc; exact Hc|].
  rewrite IHl, Hl. change (EvIdle true :: log m1) with ([EvIdle true] ++ log m1).
  rewrite app_assoc. f_equal. symmetry. apply repeat_cons.
Qed.

(** X17: While waiting, a RunOpcode with irqWanted or nmiWanted set (even an
    IRQ masked by I) clears the waiting state, idles twice, polls intWanted
    and executes no opcode in that call. *)
Theorem wai_wakes m :
  m_resetWanted (cpu m) = false -> m_stopped (cpu m) = false ->
  m_waiting (cpu m) = true ->
  m_irqWanted (cpu m) || m_nmiWanted (cpu m) = true ->
  let s := cpu m in
  let m1 := exec RunOpcode m in
  cpu m1 = with_intWanted (m_nmiWanted s || (m_irqWanted s && negb (m_i s)))
             (with_waiting false s) /\
  log m1 = EvIdle false :: EvIdle false :: log m.
Proof.
  destruct_machine m. cbn [cpu log m_resetWanted m_stopped m_waiting m_irqWanted m_nmiWanted].
  intros -> -> -> Hl. cbv zeta.
  destruct irqW, nmiW; try discriminate Hl; split; reflexivity.
Qed.
End Waiting.

(** ** Relative branches *)

Section Branches.
Context {H : Type} {HB : Bus H}.
Implicit Types m : Machine H.

Lemma branch_opcodes opcode s taken :
  branch_condition opcode s = Some taken ->
  In opcode [0x10; 0x30; 0x50; 0x70; 0x80; 0x90; 0xB0; 0xD0; 0xF0].
Proof.
  intros Hb. cbn [In].
  destruct opcode as [|p|p]; try discriminate Hb.
  repeat (match goal with q : positive |- _ => destruct q as [q|q|] end;
          cbn in Hb; try discriminate Hb);
    tauto.
Qed.

(** X18: Each relative branch ($10, $30, $50, $70, $80, $90, $B0, $D0, $F0)
    reads one offset byte; when its condition holds it idles once and PC
    becomes the address after the offset plus the sign-extended offset (mod
    $10000), otherwise the address after the offset; K never changes. *)
Theorem branch_target m opcode taken :
  branch_condition opcode (cpu m) = Some taken ->
  let s := cpu m in
  let m1 := exec (DoOpcode opcode) m in
  exists offset,
    log m1 = (if taken then [EvIdle false] else [])
             ++ EvRead (Z.lor (Z.shiftl (m_k s) 16) (m_pc s)) offset :: log m /\
    m_pc (cpu m1) = u16 (u16 (m_pc s + 1) + (if taken then s8 offset else 0)) /\
    m_k (cpu m1) = m_k s.
Proof.
  intros Hb s m1. subst s m1.
  pose proof (branch_opcodes _ _ _ Hb) as Hop.
  apply (wp_exec (DoOpcode opcode) (fun _ m1 => exists offset,
    log m1 = (if taken then [EvIdle false] else [])
             ++ EvRead (Z.lor (Z.shiftl (m_k (cpu m)) 16) (m_pc (cpu m))) offset :: log m /\
    m_pc (cpu m1) = u16 (u16 (m_pc (cpu m) + 1) + (if taken then s8 offset else 0)) /\
    m_k (cpu m1) = m_k (cpu m))).
  destruct_machine m. cbn [In] in Hop.
  destruct Hop as [<-|[<-|[<-|[<-|[<-|[<-|[<-|[<-|[<-|[]]]]]]]]]];
    cbn [branch_condition cpu m_n m_v m_c m_z] in Hb;
    injection Hb as <-; steps; try discriminate;
    eexists; (split; [reflexivity|]); cbn [negb];
    (split; [rewrite ?Z.add_0_r, ?u16_idem; reflexivity | reflexivity]).
Qed.
End Branches.

(** ** SEP and REP *)

Lemma sep_byte f value :
  0 <= f <= 255 -> 0 <= value <= 255 ->
  u8 (Z.lor f (u8 (Z.land value 255))) = Z.lor f value /\
  (Z.land f 48 = 48 ->
   Z.lor (u8 (Z.lor f (u8 (Z.land value (Z.lnot 48))))) 48 = Z.lor f value) /\
  u8 (Z.land f (Z.lnot (u8 (Z.land value 255)))) = Z.land f (Z.lnot value) /\
  Z.lor (u8 (Z.land f (Z.lnot (u8 (Z.land value (Z.lnot 48)))))) 48
  = Z.lor (Z.land f (Z.lnot value)) 48.
Proof.
  intros Hf Hv.
  pose proof (byte_pairs (fun f value =>
    (u8 (Z.lor f (u8 (Z.land value 255))) =? Z.lor f value)
    && implb (Z.land f 48 =? 48)
         (Z.lor (u8 (Z.lor f (u8 (Z.land value (Z.lnot 48))))) 48 =? Z.lor f value)
    && (u8 (Z.land f (Z.lnot (u8 (Z.land value 255)))) =? Z.land f (Z.lnot value))
    && (Z.lor (u8 (Z.land f (Z.lnot (u8 (Z.land value (Z.lnot 48)))))) 48
        =? Z.lor (Z.land f (Z.lnot value)) 48))
    ltac:(vm_compute; reflexivity) f value Hf Hv) as Hcell.
  cbv beta in Hcell.
  apply andb_prop in Hcell. destruct Hcell as [Hcell E4].
  apply andb_prop in Hcell. destruct Hcell as [Hcell E3].
  apply andb_prop in Hcell. destruct Hcell as [E1 E2].
  apply Z.eqb_eq in E1, E3, E4.
  repeat split; try assumption.
  intros E. apply Z.eqb_eq in E. rewrite E in E2. apply Z.eqb_eq. exact E2.
Qed.

Section FlagOpcodes.
Context {H : Type} {HB : Bus H}.
Implicit Types m : Machine H.

Lemma flags_width_bits n v mf xf d i z c :
  mf && xf = true ->
  Z.land (Z.lor (Z.lor (Z.lor (Z.lor (Z.lor (Z.lor (Z.lor (Z.lor 0
    (flag_bit n 0x80)) (flag_bit v 0x40)) (flag_bit mf 0x20)) (flag_bit xf 0x10))
    (flag_bit d 0x08)) (flag_bit i 0x04)) (flag_bit z 0x02)) (flag_bit c 0x01)) 48 = 48.
Proof. destruct n, v, mf, xf, d, i, z, c; intros Hm; try discriminate Hm; reflexivity. Qed.

Ltac flag_byte :=
  match goal with
  | He : true = true -> _ |- _ => destruct (He eq_refl) as (-> & -> & _); clear He
  | He : false = true -> _ |- _ => clear He
  end;
  match goal with
  | |- _ = ?rhs =>
    match rhs with
    | context [Z.lor (Z.lor (Z.lor (Z.lor (Z.lor (Z.lor (Z.lor (Z.lor 0
         (flag_bit ?n 128)) (flag_bit ?v 64)) (flag_bit ?mf 32)) (flag_bit ?xf 16))
         (flag_bit ?d 8)) (flag_bit ?i 4)) (flag_bit ?z 2)) (flag_bit ?c 1)] =>
      pose proof (flags_range n v mf xf d i z c) as Hf;
      pose proof (flags_width_bits n v mf xf d i z c) as Hmx;
      generalize dependent (Z.lor (Z.lor (Z.lor (Z.lor (Z.lor (Z.lor (Z.lor (Z.lor 0
         (flag_bit n 128)) (flag_bit v 64)) (flag_bit mf 32)) (flag_bit xf 16))
         (flag_bit d 8)) (flag_bit i 4)) (flag_bit z 2)) (flag_bit c 1));
      let f := fresh "f" in
      intros f; intros;
      match goal with Hr : 0 <= f <= 255 |- _ => rename Hr into Hf end;
      match goal with Hw : _ -> Z.land f 48 = 48 |- _ => rename Hw into Hmx end;
      match goal with Hv : 0 <= ?value <= 255 |- _ =>
        lazymatch value with f => fail | _ =>
          let E := fresh "E" in
          pose proof (sep_byte f value Hf Hv) as E;
          destruct E as (Esep & Esep_e & Erep & Erep_e)
        end
      end
    end
  end;
  match goal with
  | |- context [nz (Z.land ?F 128)] =>
      first
        [ rewrite (pack_unpack_emulation F (u8_range _))
        | let P := fresh "P" in
          pose proof (pack_unpack_native F (u8_range _)) as P;
          match goal with Hb : nz (Z.land F 16) = _ |- _ => rewrite Hb in P end;
          rewrite P; clear P ]
  end.

(** X19: SEP ($E2) reads one operand byte, idles once and ORs the operand
    into the flag byte; REP ($C2) does the same and clears the operand's
    bits, except that in emulation mode bits 5 and 4 (M and X) stay 1. *)
Theorem sep_rep_flags m :
  cpu_invariant (cpu m) ->
  let s := cpu m in
  let f := eval GetFlags m in
  let operand := Z.lor (Z.shiftl (m_k s) 16) (m_pc s) in
  (let m1 := exec (DoOpcode 0xE2) m in
   exists value,
     log m1 = EvIdle false :: EvRead operand value :: log m /\
     eval GetFlags m1 = Z.lor f value) /\
  (let m1 := exec (DoOpcode 0xC2) m in
   exists value,
     log m1 = EvIdle false :: EvRead operand value :: log m /\
     eval GetFlags m1 =
       if m_e s then Z.lor (Z.land f (Z.lnot value)) 0x30 else Z.land f (Z.lnot value)).
Proof.
  intros Hinv s f operand. subst s f operand. cbv zeta.
  split.
  - apply (wp_exec (DoOpcode 0xE2) (fun _ m1 => exists value,
      log m1 = EvIdle false
                 :: EvRead (Z.lor (Z.shiftl (m_k (cpu m)) 16) (m_pc (cpu m))) value :: log m /\
      eval GetFlags m1 = Z.lor (eval GetFlags m) value)).
    destruct_machine m.
    destruct Hinv as (_ & He & _). cbn [cpu m_e m_mf m_xf m_sp] in He.
    steps; (eexists; split; [reflexivity|]); run; flag_byte.
    + apply Esep_e, Hmx. reflexivity.
    + exact Esep.
    + exact Esep.
  - apply (wp_exec (DoOpcode 0xC2) (fun _ m1 => exists value,
      log m1 = EvIdle false
                 :: EvRead (Z.lor (Z.shiftl (m_k (cpu m)) 16) (m_pc (cpu m))) value :: log m /\
      eval GetFlags m1 =
        if m_e (cpu m) then Z.lor (Z.land (eval GetFlags m) (Z.lnot value)) 0x30
        else Z.land (eval GetFlags m) (Z.lnot value))).
    destruct_machine m.
    destruct Hinv as (_ & He & _). cbn [cpu m_e m_mf m_xf m_sp] in He.
    steps; (eexists; split; [reflexivity|]); run; flag_byte.
    + exact Erep_e.
    + exact Erep.
    + exact Erep.
Qed.
End FlagOpcodes.

(** ** MVN and MVP *)

Section BlockMove.
Context {H : Type} {HB : Bus H}.
Implicit Types m : Machine H.

(** X21: One execution of MVN ($54) or MVP ($44) reads the destination and
    source banks, copies one byte from src:X to dest:Y, sets DB to the
    destination bank, decrements A, steps X and Y by +1 (MVN) or -1 (MVP)
    within the index width, idles twice, and leaves PC on the opcode again
    unless A was 0 (then PC is past the operands). *)
Theorem block_move_step m opcode :
  In opcode [0x44; 0x54] ->
  wf_regs (cpu m) ->
  let s := cpu m in
  let step := if opcode =? 0x54 then 1 else -1 in
  let width := if m_xf s then 256 else 65536 in
  let program := Z.shiftl (m_k s) 16 in
  let m1 := exec (DoOpcode opcode) m in
  exists dest src value,
    log m1 = EvIdle false :: EvIdle false
             :: EvWrite (Z.lor (Z.shiftl dest 16) (m_y s)) value
             :: EvRead (Z.lor (Z.shiftl src 16) (m_x s)) value
             :: EvRead (Z.lor program (u16 (m_pc s + 1))) src
             :: EvRead (Z.lor program (m_pc s)) dest :: log m /\
    m_db (cpu m1) = dest /\
    m_a (cpu m1) = u16 (m_a s - 1) /\
    m_x (cpu m1) = (m_x s + step) mod width /\
    m_y (cpu m1) = (m_y s + step) mod width /\
    m_pc (cpu m1) = if m_a s =? 0 then u16 (m_pc s + 2) else u16 (m_pc s - 1).
Proof.
  intros Hop Hwf s step width program m1. subst s step width program m1.
  apply (wp_exec (DoOpcode opcode) (fun _ m1 => exists dest src value,
    log m1 = EvIdle false :: EvIdle false
             :: EvWrite (Z.lor (Z.shiftl dest 16) (m_y (cpu m))) value
             :: EvRead (Z.lor (Z.shiftl src 16) (m_x (cpu m))) value
             :: EvRead (Z.lor (Z.shiftl (m_k (cpu m)) 16) (u16 (m_pc (cpu m) + 1))) src
             :: EvRead (Z.lor (Z.shiftl (m_k (cpu m)) 16) (m_pc (cpu m))) dest :: log m /\
    m_db (cpu m1) = dest /\
    m_a (cpu m1) = u16 (m_a (cpu m) - 1) /\
    m_x (cpu m1) = (m_x (cpu m) + (if opcode =? 0x54 then 1 else -1))
                   mod (if m_xf (cpu m) then 256 else 65536) /\
    m_y (cpu m1) = (m_y (cpu m) + (if opcode =? 0x54 then 1 else -1))
                   mod (if m_xf (cpu m) then 256 else 65536) /\
    m_pc (cpu m1) = if m_a (cpu m) =? 0 then u16 (m_pc (cpu m) + 2)
                    else u16 (m_pc (cpu m) - 1))).
  destruct_machine m. wf_facts Hwf. cbn [In] in Hop.
  destruct Hop as [<-|[<-|[]]]; steps.
  all: do 3 eexists; (split; [rewrite ?u8_idem; rewrite ?(u8_small _ ltac:(eassumption)); reflexivity|]).
  all: cbn [Z.eqb Pos.eqb]; rewrite ?land_255.
  all: match goal with
       | Hb : (_ =? _) = true |- _ => apply Z.eqb_eq in Hb
       | Hb : (_ =? _) = false |- _ => apply Z.eqb_neq in Hb
       end.
  all: destruct (Z.eqb_spec a 0); unfold u16 in *;
       repeat split; Z.div_mod_to_equations; lia.
Qed.
End BlockMove.

(** ** The operand addresses of the addressing modes *)

Lemma land_16777215 x : Z.land x 16777215 = x mod 16777216.
Proof. change 16777215 with (Z.ones 24). rewrite Z.land_ones by lia. reflexivity. Qed.

Section AddressPairs.
Context {H : Type} {HB : Bus H}.
Implicit Types m : Machine H.

Ltac pair_case :=
  isteps; unfold address_pair; cbn [fst snd];
  (split; [ranges | rewrite ?land_65535, ?land_16777215; reflexivity]).

(** X22: AdrDp, AdrDpx, AdrDpy and AdrSr return a low address in bank 0 and
    the high address (low + 1) & $FFFF; every other memory addressing mode
    returns a low address below $1000000 and the high address (low + 1) &
    $FFFFFF. *)
Theorem address_pairs m :
  cpu_invariant (cpu m) ->
  (forall mode, In mode [AdrDp; AdrDpx; AdrDpy; AdrSr] ->
     address_pair 0x10000 (eval mode m)) /\
  (forall mode,
     In mode [AdrIdp; AdrIdx; AdrIdy false; AdrIdy true; AdrIdl; AdrIly; AdrIsy;
              AdrAbs; AdrAbx false; AdrAbx true; AdrAby false; AdrAby true;
              AdrAbl; AdrAlx] ->
     address_pair 0x1000000 (eval mode m)).
Proof.
  intros Hinv.
  assert (Hm : invariant false m) by (split; [exact Hinv | discriminate]).
  clear Hinv. split; intros mode Hmode; cbn [In] in Hmode;
    apply (wp_exec mode (fun adr _ => address_pair _ adr));
    revert Hm; inv_start m;
    repeat match goal with Hd : _ \/ _ |- _ => destruct Hd as [<-|Hd] end;
    try contradiction; pair_case.
Qed.
End AddressPairs.

(** ** What each opcode leaves alone *)

Lemma land_lor_high x r :
  Z.land (Z.lor (Z.land x 0xff00) (Z.land r 0xff)) 0xff00 = Z.land x 0xff00.
Proof.
  rewrite Z.land_lor_distr_l, <- !Z.land_assoc.
  change (Z.land 65280 65280) with 65280. change (Z.land 255 65280) with 0.
  rewrite Z.land_0_r. apply Z.lor_0_r.
Qed.

Lemma land_lor_high_byte x value :
  0 <= value <= 255 -> Z.land (Z.lor (Z.land x 0xff00) value) 0xff00 = Z.land x 0xff00.
Proof.
  intros Hv. rewrite <- (land_byte_small value Hv). apply land_lor_high.
Qed.

Lemma land_lor_high_lsr x r :
  Z.land (Z.lor (Z.land x 0xff00) (Z.land r 0x7f)) 0xff00 = Z.land x 0xff00.
Proof.
  rewrite Z.land_lor_distr_l, <- !Z.land_assoc.
  change (Z.land 65280 65280) with 65280. change (Z.land 127 65280) with 0.
  rewrite Z.land_0_r. apply Z.lor_0_r.
Qed.

Lemma land_lor_high_ror x r (c : bool) :
  Z.land (u16 (Z.lor (Z.lor (Z.land x 0xff00) (Z.land r 0x7f)) (Z.shiftl (Z.b2z c) 7)))
    0xff00 = Z.land x 0xff00.
Proof.
  unfold u16. rewrite <- land_65535, <- Z.land_assoc.
  change (Z.land 65535 65280) with 65280.
  rewrite Z.land_lor_distr_l, land_lor_high_lsr.
  destruct c; cbn [Z.b2z]; [change (Z.land (Z.shiftl 1 7) 65280) with 0
                           | change (Z.land (Z.shiftl 0 7) 65280) with 0];
    apply Z.lor_0_r.
Qed.

Section Frames.
Context {H : Type} {HB : Bus H}.
Implicit Types m : Machine H.

Ltac mode_frame_case :=
  intros m; destruct_machine m; steps; reflexivity.

Ltac frame_goals :=
  cbn [m_a m_e m_mf m_xf m_i m_d m_sp m_pc m_k m_db m_dp m_stopped m_waiting
       m_irqWanted m_nmiWanted m_resetWanted];
  repeat match goal with
    | |- _ /\ _ => split
    | |- _ -> _ => intro
    end;
  first [ reflexivity | discriminate | congruence | apply land_lor_high
        | apply land_lor_high_byte; assumption
        | apply land_lor_high_lsr | apply land_lor_high_ror
        | match goal with Hn : _ <> _ |- _ => exfalso; apply Hn; reflexivity end ].

Ltac primitive_frame_case :=
  intros low high m; destruct_machine m; steps; unfold primitive_frame; frame_goals.

Lemma AdrDp_frame : keeps_mode_frame AdrDp.
Proof. mode_frame_case. Qed.

Lemma AdrDpx_frame : keeps_mode_frame AdrDpx.
Proof. mode_frame_case. Qed.

Lemma AdrDpy_frame : keeps_mode_frame AdrDpy.
Proof. mode_frame_case. Qed.

Lemma AdrIdp_frame : keeps_mode_frame AdrIdp.
Proof. mode_frame_case. Qed.

Lemma AdrIdx_frame : keeps_mode_frame AdrIdx.
Proof. mode_frame_case. Qed.

Lemma AdrIdl_frame : keeps_mode_frame AdrIdl.
Proof. mode_frame_case. Qed.

Lemma AdrIly_frame : keeps_mode_frame AdrIly.
Proof. mode_frame_case. Qed.

Lemma AdrSr_frame : keeps_mode_frame AdrSr.
Proof. mode_frame_case. Qed.

Lemma AdrIsy_frame : keeps_mode_frame AdrIsy.
Proof. mode_frame_case. Qed.

Lemma AdrAbs_frame : keeps_mode_frame AdrAbs.
Proof. mode_frame_case. Qed.

Lemma AdrAbl_frame : keeps_mode_frame AdrAbl.
Proof. mode_frame_case. Qed.

Lemma AdrAlx_frame : keeps_mode_frame AdrAlx.
Proof. mode_frame_case. Qed.

Lemma AdrImm_frame (xFlag : bool) : keeps_mode_frame (AdrImm xFlag).
Proof. mode_frame_case. Qed.

Lemma AdrIdy_frame (write : bool) : keeps_mode_frame (AdrIdy write).
Proof. mode_frame_case. Qed.

Lemma AdrAbx_frame (write : bool) : keeps_mode_frame (AdrAbx write).
Proof. mode_frame_case. Qed.

Lemma AdrAby_frame (write : bool) : keeps_mode_frame (AdrAby write).
Proof. mode_frame_case. Qed.

Lemma And_frame : keeps_primitive_frame And.
Proof. primitive_frame_case. Qed.

Lemma Ora_frame : keeps_primitive_frame Ora.
Proof. primitive_frame_case. Qed.

Lemma Eor_frame : keeps_primitive_frame Eor.
Proof. primitive_frame_case. Qed.

Lemma Adc_frame : keeps_primitive_frame Adc.
Proof. primitive_frame_case. Qed.

Lemma Sbc_frame : keeps_primitive_frame Sbc.
Proof. primitive_frame_case. Qed.

Lemma Cmp_frame : keeps_primitive_frame Cmp.
Proof. primitive_frame_case. Qed.

Lemma Cpx_frame : keeps_primitive_frame Cpx.
Proof. primitive_frame_case. Qed.

Lemma Cpy_frame : keeps_primitive_frame Cpy.
Proof. primitive_frame_case. Qed.

Lemma Bit_frame : keeps_primitive_frame Bit.
Proof. primitive_frame_case. Qed.

Lemma Lda_frame : keeps_primitive_frame Lda.
Proof. primitive_frame_case. Qed.

Lemma Ldx_frame : keeps_primitive_frame Ldx.
Proof. primitive_frame_case. Qed.

Lemma Ldy_frame : keeps_primitive_frame Ldy.
Proof. primitive_frame_case. Qed.

Lemma Sta_frame : keeps_primitive_frame Sta.
Proof. primitive_frame_case. Qed.

Lemma Stx_frame : keeps_primitive_frame Stx.
Proof. primitive_frame_case. Qed.

Lemma Sty_frame : keeps_primitive_frame Sty.
Proof. primitive_frame_case. Qed.

Lemma Stz_frame : keeps_primitive_frame Stz.
Proof. primitive_frame_case. Qed.

Lemma Ror_frame : keeps_primitive_frame Ror.
Proof. primitive_frame_case. Qed.

Lemma Rol_frame : keeps_primitive_frame Rol.
Proof. primitive_frame_case. Qed.

Lemma Lsr_frame : keeps_primitive_frame Lsr.
Proof. primitive_frame_case. Qed.

Lemma Asl_frame : keeps_primitive_frame Asl.
Proof. primitive_frame_case. Qed.

Lemma Inc_frame : keeps_primitive_frame Inc.
Proof. primitive_frame_case. Qed.

Lemma Dec_frame : keeps_primitive_frame Dec.
Proof. primitive_frame_case. Qed.

Lemma Tsb_frame : keeps_primitive_frame Tsb.
Proof. primitive_frame_case. Qed.

Lemma Trb_frame : keeps_primitive_frame Trb.
Proof. primitive_frame_case. Qed.

Ltac mode_frame_lemma :=
  lazymatch goal with
  | |- keeps_mode_frame AdrDp => exact AdrDp_frame
  | |- keeps_mode_frame AdrDpx => exact AdrDpx_frame
  | |- keeps_mode_frame AdrDpy => exact AdrDpy_frame
  | |- keeps_mode_frame AdrIdp => exact AdrIdp_frame
  | |- keeps_mode_frame AdrIdx => exact AdrIdx_frame
  | |- keeps_mode_frame AdrIdl => exact AdrIdl_frame
  | |- keeps_mode_frame AdrIly => exact AdrIly_frame
  | |- keeps_mode_frame AdrSr => exact AdrSr_frame
  | |- keeps_mode_frame AdrIsy => exact AdrIsy_frame
  | |- keeps_mode_frame AdrAbs => exact AdrAbs_frame
  | |- keeps_mode_frame AdrAbl => exact AdrAbl_frame
  | |- keeps_mode_frame AdrAlx => exact AdrAlx_frame
  | |- keeps_mode_frame (AdrImm ?b) => exact (AdrImm_frame b)
  | |- keeps_mode_frame (AdrIdy ?b) => exact (AdrIdy_frame b)
  | |- keeps_mode_frame (AdrAbx ?b) => exact (AdrAbx_frame b)
  | |- keeps_mode_frame (AdrAby ?b) => exact (AdrAby_frame b)
  end.

Ltac primitive_frame_lemma :=
  lazymatch goal with
  | |- keeps_primitive_frame And => exact And_frame
  | |- keeps_primitive_frame Ora => exact Ora_frame
  | |- keeps_primitive_frame Eor => exact Eor_frame
  | |- keeps_primitive_frame Adc => exact Adc_frame
  | |- keeps_primitive_frame Sbc => exact Sbc_frame
  | |- keeps_primitive_frame Cmp => exact Cmp_frame
  | |- keeps_primitive_frame Cpx => exact Cpx_frame
  | |- keeps_primitive_frame Cpy => exact Cpy_frame
  | |- keeps_primitive_frame Bit => exact Bit_frame
  | |- keeps_primitive_frame Lda => exact Lda_frame
  | |- keeps_primitive_frame Ldx => exact Ldx_frame
  | |- keeps_primitive_frame Ldy => exact Ldy_frame
  | |- keeps_primitive_frame Sta => exact Sta_frame
  | |- keeps_primitive_frame Stx => exact Stx_frame
  | |- keeps_primitive_frame Sty => exact Sty_frame
  | |- keeps_primitive_frame Stz => exact Stz_frame
  | |- keeps_primitive_frame Ror => exact Ror_frame
  | |- keeps_primitive_frame Rol => exact Rol_frame
  | |- keeps_primitive_frame Lsr => exact Lsr_frame
  | |- keeps_primitive_frame Asl => exact Asl_frame
  | |- keeps_primitive_frame Inc => exact Inc_frame
  | |- keeps_primitive_frame Dec => exact Dec_frame
  | |- keeps_primitive_frame Tsb => exact Tsb_frame
  | |- keeps_primitive_frame Trb => exact Trb_frame
  end.

Lemma via_frame (mode : M H (Z * Z)) (op : Z -> Z -> M H unit) opcode m :
  keeps_mode_frame mode -> keeps_primitive_frame op ->
  wp (via mode op) (fun _ m1 => opcode_frame opcode (cpu m) (cpu m1)) m.
Proof.
  intros Hmode Hop. unfold via. apply wp_bind.
  apply (wp_mono _ _ _ _ (Hmode m)). intros adr m1 Hm.
  apply (wp_mono _ _ _ _ (Hop (fst adr) (snd adr) m1)). intros _ m2 Hp.
  unfold mode_frame in Hm. unfold primitive_frame in Hp. unfold opcode_frame.
  destruct (cpu m) as [a x y sp pc dp k db c z v n i d xf mf e
                       waiting stopped irqW nmiW intW resetW].
  destruct (cpu m1) as [a1 x1 y1 sp1 pc1 dp1 k1 db1 c1 z1 v1 n1 i1 d1 xf1 mf1 e1
                        waiting1 stopped1 irqW1 nmiW1 intW1 resetW1].
  cbn in Hm. injection Hm as -> -> -> -> -> -> -> -> -> -> -> -> -> -> -> -> -> -> -> -> ->.
  cbn [m_a m_e m_mf m_xf m_i m_d m_sp m_pc m_k m_db m_dp m_stopped m_waiting
       m_irqWanted m_nmiWanted m_resetWanted] in Hp |- *.
  destruct Hp as (-> & -> & -> & -> & -> & _ & _ & -> & -> & -> & -> & -> & -> & -> & -> & Ha).
  repeat split; intros; first [reflexivity | apply Ha; assumption].
Qed.

Ltac frame_case :=
  let m := fresh "m" in
  intros m;
  lazymatch goal with
  | |- wp (DoOpcode ?n) ?Q ?mm =>
      let c := eval cbv beta iota delta [DoOpcode] in (DoOpcode n) in change (wp c Q mm)
  end;
  first
    [ lazymatch goal with |- wp (via _ _) _ _ => idtac end;
      apply via_frame; [mode_frame_lemma | primitive_frame_lemma]
    | destruct_machine m; steps; unfold opcode_frame;
      cbn [opcode_in existsb Z.eqb Pos.eqb orb]; frame_goals ].

Lemma DoOpcode_frame (opcode : Z) m :
  0 <= opcode <= 255 ->
  wp (DoOpcode opcode) (fun _ m1 => opcode_frame opcode (cpu m) (cpu m1)) m.
Proof.
  intros Hrange. revert m.
  apply (below_spec (fun opcode => forall m,
           wp (DoOpcode opcode) (fun _ m1 => opcode_frame opcode (cpu m) (cpu m1)) m) 256);
    [|lia].
  clear opcode Hrange.
  cbv beta iota delta [below Z.of_nat Pos.of_succ_nat Pos.succ].
  repeat lazymatch goal with |- _ /\ _ => split | |- True => exact I end.
  all: frame_case.
Qed.
End Frames.

Lemma opcode_in_false opcode opcodes : ~ In opcode opcodes -> opcode_in opcode opcodes = false.
Proof.
  intros Hn. unfold opcode_in. destruct (existsb (Z.eqb opcode) opcodes) eqn:E; [|reflexivity].
  apply existsb_exists in E. destruct E as (o & Ho & Heq). apply Z.eqb_eq in Heq. subst o.
  contradiction.
Qed.

Section OpcodeFrames.
Context {H : Type} {HB : Bus H}.
Implicit Types m : Machine H.

(** X23: E is changed by no opcode but XCE ($FB); M and X only by PLP, RTI,
    REP, SEP and XCE ($28, $40, $C2, $E2, $FB); D only by $00, $02, $28,
    $40, $C2, $D8, $E2, $F8; I only by $00, $02, $28, $40, $58, $78, $C2,
    $E2. *)
Theorem mode_flags_change_only_by m opcode :
  0 <= opcode <= 255 ->
  let s := cpu m in
  let s1 := cpu (exec (DoOpcode opcode) m) in
  (opcode <> 0xFB -> m_e s1 = m_e s) /\
  (~ In opcode [0x28; 0x40; 0xC2; 0xE2; 0xFB] -> m_mf s1 = m_mf s /\ m_xf s1 = m_xf s) /\
  (~ In opcode [0x00; 0x02; 0x28; 0x40; 0xC2; 0xD8; 0xE2; 0xF8] -> m_d s1 = m_d s) /\
  (~ In opcode [0x00; 0x02; 0x28; 0x40; 0x58; 0x78; 0xC2; 0xE2] -> m_i s1 = m_i s).
Proof.
  intros Hop s s1. subst s s1.
  destruct (wp_exec _ _ _ (DoOpcode_frame opcode m Hop)) as (He & Hmx & Hd & Hi & _).
  split; [exact He|]. split; [|split]; intros Hn.
  - apply Hmx, opcode_in_false, Hn.
  - apply Hd, opcode_in_false, Hn.
  - apply Hi, opcode_in_false, Hn.
Qed.

(** X24: No opcode but STP ($DB) changes stopped, none but WAI ($CB) changes
    waiting, and no opcode changes irqWanted, nmiWanted or resetWanted. *)
Theorem run_state_changes_only_by m opcode :
  0 <= opcode <= 255 ->
  let s := cpu m in
  let s1 := cpu (exec (DoOpcode opcode) m) in
  (opcode <> 0xDB -> m_stopped s1 = m_stopped s) /\
  (opcode <> 0xCB -> m_waiting s1 = m_waiting s) /\
  m_irqWanted s1 = m_irqWanted s /\
  m_nmiWanted s1 = m_nmiWanted s /\
  m_resetWanted s1 = m_resetWanted s.
Proof.
  intros Hop s s1. subst s s1.
  destruct (wp_exec _ _ _ (DoOpcode_frame opcode m Hop))
    as (_ & _ & _ & _ & Hs & Hw & (Hirq & Hnmi & Hres) & _).
  split; [exact Hs|]. split; [exact Hw|]. split; [exact Hirq|]. split; [exact Hnmi|exact Hres].
Qed.

(** X25: K is changed only by BRK, COP, JSL, RTI, JML, RTL and JML [abs]
    ($00, $02, $22, $40, $5C, $6B, $DC); DB only by MVP, MVN and PLB ($44,
    $54, $AB); DP only by PLD and TCD ($2B, $5B). *)
Theorem bank_registers_change_only_by m opcode :
  0 <= opcode <= 255 ->
  let s := cpu m in
  let s1 := cpu (exec (DoOpcode opcode) m) in
  (~ In opcode [0x00; 0x02; 0x22; 0x40; 0x5C; 0x6B; 0xDC] -> m_k s1 = m_k s) /\
  (~ In opcode [0x44; 0x54; 0xAB] -> m_db s1 = m_db s) /\
  (~ In opcode [0x2B; 0x5B] -> m_dp s1 = m_dp s).
Proof.
  intros Hop s s1. subst s s1.
  destruct (wp_exec _ _ _ (DoOpcode_frame opcode m Hop))
    as (_ & _ & _ & _ & _ & _ & _ & Hk & Hdb & Hdp & _).
  split; [|split]; intros Hn.
  - apply Hk, opcode_in_false, Hn.
  - apply Hdb, opcode_in_false, Hn.
  - apply Hdp, opcode_in_false, Hn.
Qed.

(** X26: With M = 1, no opcode except TSC, MVP, MVN, TDC and XBA ($3B, $44,
    $54, $7B, $EB) changes the high byte of A. *)
Theorem accumulator_high_byte_kept m opcode :
  0 <= opcode <= 255 ->
  m_mf (cpu m) = true ->
  ~ In opcode [0x3B; 0x44; 0x54; 0x7B; 0xEB] ->
  Z.land (m_a (cpu (exec (DoOpcode opcode) m))) 0xFF00 = Z.land (m_a (cpu m)) 0xFF00.
Proof.
  intros Hop Hmf Hn.
  destruct (wp_exec _ _ _ (DoOpcode_frame opcode m Hop))
    as (_ & _ & _ & _ & _ & _ & _ & _ & _ & _ & Ha).
  apply Ha; [exact Hmf | apply opcode_in_false, Hn].
Qed.

End OpcodeFrames.

Section Runs.
Context {H : Type} {HB : Bus H}.
Implicit Types m : Machine H.

(** The invariant is carried through a run that executes no
    indexed-indirect jump. *)
Lemma calls_invariant (calls : list Call) : forall m,
  invariant true m -> avoids_indexed_jumps calls m -> invariant true (do_calls calls m).
Proof.
  induction calls as [|call rest IH]; intros m Hinv Hav; [exact Hinv|].
  destruct Hav as [Hgood Hrest]. cbn [do_calls]. apply IH; [|exact Hrest].
  destruct call; cbn [do_call].
  - apply RunOpcode_ok; [exact Hinv|]. intros _. apply Hgood. reflexivity.
  - destruct_machine m. exact Hinv.
  - destruct_machine m. exact Hinv.
  - apply Reset_ok, Hinv.
Qed.

(** X3: From construction on, over any sequence of RunOpcode, Nmi, SetIrq
    and Reset calls in which no RunOpcode dispatches opcode $7C or $FC,
    every Read and Write callback has an address in 0..$FFFFFF. *)
Theorem calls_masked (h : H) (calls : list Call) :
  avoids_indexed_jumps calls (power_on h) ->
  forallb address_masked (log (do_calls calls (power_on h))) = true.
Proof.
  intros Hav. apply (calls_invariant calls (power_on h)); [|exact Hav|reflexivity].
  split; [apply power_on_invariant | reflexivity].
Qed.
End Runs.

(** ** Register opcodes *)

(** [(a & 0xff00) | (r & 0xff)] as arithmetic. *)
Lemma merge_low a r :
  0 <= a <= 65535 ->
  Z.lor (Z.land a 0xff00) (Z.land r 0xff) = 256 * (a / 256) + r mod 256.
Proof.
  intros Ha.
  assert (Hd : Z.land (Z.land a 0xff00) (Z.land r 0xff) = 0).
  { rewrite <- Z.land_assoc, (Z.land_comm 0xff00), <- Z.land_assoc.
    change (Z.land 0xff 0xff00) with 0. rewrite !Z.land_0_r. reflexivity. }
  rewrite <- Z.lxor_lor, <- Z.add_nocarry_lxor by exact Hd.
  change 0xff00 with (Z.shiftl (Z.ones 8) 8). rewrite land_field by lia.
  change (Z.land r 0xff) with (Z.land r 255). rewrite land_255.
  change (2 ^ 8) with 256. rewrite (Z.mod_small (a / 256)); [reflexivity|].
  Z.div_mod_to_equations. lia.
Qed.

Lemma page_one_fixed sp : 0x100 <= sp <= 0x1FF -> Z.lor (Z.land sp 0xFF) 0x100 = sp.
Proof.
  intros Hsp. apply Z.eqb_eq.
  apply (page_one_cases (fun s => Z.lor (Z.land s 0xFF) 0x100 =? s)); [|exact Hsp].
  vm_compute. reflexivity.
Qed.

Lemma swap_bytes a :
  0 <= a <= 65535 ->
  u16 (Z.lor (Z.shiftl a 8) (u8 (Z.shiftr a 8))) = 256 * (a mod 256) + a / 256.
Proof.
  intros Ha. rewrite Z.shiftr_div_pow2 by lia. change (2 ^ 8) with 256.
  assert (Hh : 0 <= a / 256 <= 255) by (Z.div_mod_to_equations; lia).
  rewrite (u8_small _ Hh), Z.lor_comm, lor_bytes by exact Hh.
  unfold u16. Z.div_mod_to_equations. lia.
Qed.

Lemma page_one_lor x :
  Z.lor (Z.land (Z.lor (Z.land x 0xFF) 0x100) 0xFF) 0x100 = Z.lor (Z.land x 0xFF) 0x100.
Proof. apply page_one_fixed, page_one. Qed.

Section Registers.
Context {H : Type} {HB : Bus H}.
Implicit Types m : Machine H.

Ltac counted_case Hwf Hx :=
  match goal with m : Machine H |- _ => destruct_machine m end;
  wf_facts Hwf; cbn [cpu m_xf m_x m_y] in Hx;
  steps; try discriminate; try (destruct (Hx eq_refl));
  unfold reloaded; cbn [width_mask sign_bit m_a m_x m_y m_z m_n];
  repeat match goal with
    | |- context [Z.lor (Z.land ?p 65280) (Z.land ?r 255)] =>
        rewrite (merge_low p r) by first [lia | Z.div_mod_to_equations; lia]
    end;
  rewrite ?land_255, ?land_65535, ?nz_land_128, ?nz_land_32768, ?testbit_7, ?testbit_15;
  unfold u16;
  repeat match goal with |- _ /\ _ => split end;
  first [ reflexivity
        | solve [Z.div_mod_to_equations; lia]
        | f_equal; solve [Z.div_mod_to_equations; lia]
        | f_equal; f_equal; solve [Z.div_mod_to_equations; lia] ].

(** X28: INC A then DEC A, INX then DEX, INY then DEY, and each pair in the
    opposite order, leave the register unchanged with Z and N set from it,
    in 8-bit and 16-bit width (in 8-bit width the high byte of A is
    untouched). *)
Theorem increment_decrement m :
  cpu_invariant (cpu m) ->
  let s := cpu m in
  let after (first second : Z) := cpu (exec (DoOpcode first ;; DoOpcode second) m) in
  (let s1 := after 0x1A 0x3A in reloaded (m_mf s) (m_a s) (m_a s1) s1) /\
  (let s1 := after 0x3A 0x1A in reloaded (m_mf s) (m_a s) (m_a s1) s1) /\
  (let s1 := after 0xE8 0xCA in reloaded (m_xf s) (m_x s) (m_x s1) s1) /\
  (let s1 := after 0xCA 0xE8 in reloaded (m_xf s) (m_x s) (m_x s1) s1) /\
  (let s1 := after 0xC8 0x88 in reloaded (m_xf s) (m_y s) (m_y s1) s1) /\
  (let s1 := after 0x88 0xC8 in reloaded (m_xf s) (m_y s) (m_y s1) s1).
Proof.
  intros Hinv s after. subst s after. cbv zeta beta.
  destruct Hinv as (Hwf & _ & Hx).
  split; [|split; [|split; [|split; [|split]]]].
  - apply (wp_exec (DoOpcode 0x1A ;; DoOpcode 0x3A)
      (fun _ m1 => reloaded (m_mf (cpu m)) (m_a (cpu m)) (m_a (cpu m1)) (cpu m1))).
    counted_case Hwf Hx.
  - apply (wp_exec (DoOpcode 0x3A ;; DoOpcode 0x1A)
      (fun _ m1 => reloaded (m_mf (cpu m)) (m_a (cpu m)) (m_a (cpu m1)) (cpu m1))).
    counted_case Hwf Hx.
  - apply (wp_exec (DoOpcode 0xE8 ;; DoOpcode 0xCA)
      (fun _ m1 => reloaded (m_xf (cpu m)) (m_x (cpu m)) (m_x (cpu m1)) (cpu m1))).
    counted_case Hwf Hx.
  - apply (wp_exec (DoOpcode 0xCA ;; DoOpcode 0xE8)
      (fun _ m1 => reloaded (m_xf (cpu m)) (m_x (cpu m)) (m_x (cpu m1)) (cpu m1))).
    counted_case Hwf Hx.
  - apply (wp_exec (DoOpcode 0xC8 ;; DoOpcode 0x88)
      (fun _ m1 => reloaded (m_xf (cpu m)) (m_y (cpu m)) (m_y (cpu m1)) (cpu m1))).
    counted_case Hwf Hx.
  - apply (wp_exec (DoOpcode 0x88 ;; DoOpcode 0xC8)
      (fun _ m1 => reloaded (m_xf (cpu m)) (m_y (cpu m)) (m_y (cpu m1)) (cpu m1))).
    counted_case Hwf Hx.
Qed.

(** X29: XBA ($EB) exchanges the two bytes of A whatever M is, sets Z and N
    from the new low byte (the old high byte), and executed twice restores
    A. *)
Theorem xba_swaps m :
  wf_regs (cpu m) ->
  let s := cpu m in
  let s1 := cpu (exec (DoOpcode 0xEB) m) in
  m_a s1 = 256 * (m_a s mod 256) + m_a s / 256 /\
  m_z s1 = (m_a s / 256 =? 0) /\
  m_n s1 = (128 <=? m_a s / 256) /\
  m_a (cpu (exec (DoOpcode 0xEB ;; DoOpcode 0xEB) m)) = m_a s.
Proof.
  intros Hwf s s1. subst s s1.
  split; [|split; [|split]].
  1-3: apply (wp_exec (DoOpcode 0xEB)
         (fun _ m1 => _ (cpu m1) = _)).
  4: apply (wp_exec (DoOpcode 0xEB ;; DoOpcode 0xEB) (fun _ m1 => m_a (cpu m1) = m_a (cpu m))).
  all: destruct_machine m; wf_facts Hwf; steps; cbn [m_a m_z m_n];
    repeat match goal with
      | |- context [u16 (Z.lor (Z.shiftl ?p 8) (u8 (Z.shiftr ?p 8)))] =>
          rewrite (swap_bytes p) by first [lia | Z.div_mod_to_equations; lia]
      end;
    rewrite ?nz_land_128, ?land_255; unfold u16;
    first [ reflexivity
          | solve [Z.div_mod_to_equations; lia]
          | f_equal; solve [Z.div_mod_to_equations; lia]
          | f_equal; f_equal; solve [Z.div_mod_to_equations; lia] ].
Qed.

(** X30: XCE ($FB) executed twice restores the whole register file when the
    CPU is in emulation mode or C = 0 (intWanted is polled again); from
    native mode with C = 1 the CPU passes through emulation mode and comes
    back native with M = X = 0, X and Y cut to their low byte and SP forced
    into page one. *)
Theorem xce_twice m :
  cpu_invariant (cpu m) ->
  let s := cpu m in
  let poll := m_nmiWanted s || (m_irqWanted s && negb (m_i s)) in
  let s1 := cpu (exec (DoOpcode 0xFB ;; DoOpcode 0xFB) m) in
  (m_e s = true \/ m_c s = false -> s1 = with_intWanted poll s) /\
  (m_e s = false -> m_c s = true ->
   s1 = with_mf false (with_xf false
          (with_sp (Z.lor (Z.land (m_sp s) 0xFF) 0x100)
             (with_x (Z.land (m_x s) 0xFF) (with_y (Z.land (m_y s) 0xFF)
                (with_intWanted poll s)))))).
Proof.
  intros Hinv s poll s1. subst s poll s1.
  destruct Hinv as (Hwf & He & Hx).
  apply (wp_exec (DoOpcode 0xFB ;; DoOpcode 0xFB)
    (fun _ m1 =>
       (m_e (cpu m) = true \/ m_c (cpu m) = false ->
        cpu m1 = with_intWanted
                   (m_nmiWanted (cpu m) || (m_irqWanted (cpu m) && negb (m_i (cpu m))))
                   (cpu m)) /\
       (m_e (cpu m) = false -> m_c (cpu m) = true ->
        cpu m1 = with_mf false (with_xf false
          (with_sp (Z.lor (Z.land (m_sp (cpu m)) 0xFF) 0x100)
             (with_x (Z.land (m_x (cpu m)) 0xFF) (with_y (Z.land (m_y (cpu m)) 0xFF)
                (with_intWanted
                   (m_nmiWanted (cpu m) || (m_irqWanted (cpu m) && negb (m_i (cpu m))))
                   (cpu m))))))))).
  destruct_machine m. wf_facts Hwf.
  cbn [cpu m_e m_mf m_xf m_sp m_x m_y] in He, Hx.
  destruct e, c; steps; try discriminate;
    (split; [intros [He'|Hc'] | intros He' Hc']; try discriminate He'; try discriminate Hc');
    cbn [cpu m_e m_c m_sp m_x m_y m_i m_nmiWanted m_irqWanted
         with_intWanted with_mf with_xf with_sp with_x with_y];
    try (exfalso; tauto).
  all: try (destruct (He eq_refl) as (-> & -> & Hsp); destruct (Hx eq_refl) as (Hxx & Hyy)).
  all: rewrite ?page_one_lor by lia.
  all: rewrite ?page_one_fixed by lia.
  all: rewrite ?land_byte_small by lia.
  all: repeat match goal with
         | Heqb : _ = _ |- _ => rewrite Heqb
         end.
  all: reflexivity.
Qed.
End Registers.

(** * Concrete runs on the RAM host *)

(** C6 at the flag byte $CF in emulation mode. *)
Lemma SetFlags_GetFlags_witness :
  0 <= 0xCF <= 255 /\
  eval GetFlags (exec (SetFlags 0xCF) after_reset) =
  if m_e (cpu after_reset) then Z.lor 0xCF 0x30 else 0xCF.
Proof.
  split; [lia|]. apply (SetFlags_GetFlags after_reset 0xCF). lia.
Defined.

(** C9 with an NMI latched and the IRQ line held after the reset
    sequence. *)
Lemma nmi_has_priority_witness :
  let m := exec (SetIrq true) (exec Nmi after_reset) in
  m_nmiWanted (cpu m) = true /\ m_irqWanted (cpu m) = true /\
  let m1 := exec DoInterrupt m in
  let vector := if m_e (cpu m) then 0xFFFA else 0xFFEA in
  (exists lo hi rest,
     log m1 = EvRead (vector + 1) hi :: EvRead vector lo :: rest /\
     m_pc (cpu m1) = lo + 256 * hi) /\
  m_nmiWanted (cpu m1) = false /\
  m_irqWanted (cpu m1) = true.
Proof.
  intros m. split; [reflexivity|]. split; [reflexivity|].
  apply (nmi_has_priority m); reflexivity.
Defined.

(** C1 as amended, with an NMI latched after the reset sequence. *)
Lemma hw_interrupt_flag_byte_witness :
  let m := exec Nmi after_reset in
  m_e (cpu m) = true /\ m_mf (cpu m) = true /\
  let m1 := exec DoInterrupt m in
  exists address flags,
    last_write (log m1) = Some (address, flags) /\
    flags = Z.land (eval GetFlags m) 0xEF /\
    Z.testbit flags 5 = true /\
    Z.testbit flags 4 = false.
Proof.
  intros m. split; [reflexivity|]. split; [reflexivity|].
  apply (hw_interrupt_flag_byte m); reflexivity.
Defined.

(** C1 as stated fails: in emulation mode the NMI taken after the reset
    sequence pushes the flag byte $24 at $01FB, and its bit 4 is 0. *)
Lemma hw_interrupt_flag_byte_counterexample :
  let m := exec Nmi after_reset in
  let m1 := exec RunOpcode m in
  m_e (cpu m) = true /\
  last_write (log m1) = Some (0x01FB, 0x24) /\
  Z.testbit 0x24 5 = true /\ Z.testbit 0x24 4 = false.
Proof. vm_compute. repeat split. Qed.

(** C3 as amended, at BIT $10 in 8-bit mode. *)
Lemma BIT_flags_witness :
  let m := after_reset in
  In 0x24 [0x24; 0x2C; 0x34; 0x3C; 0x89] /\
  let byte := m_mf (cpu m) in
  let m1 := exec (DoOpcode 0x24) m in
  exists value,
    last_operand byte (log m1) = Some value /\
    m_z (cpu m1) = (Z.land (Z.land (m_a (cpu m)) (width_mask byte)) value =? 0) /\
    if 0x24 =? 0x89 then
      m_n (cpu m1) = m_n (cpu m) /\ m_v (cpu m1) = m_v (cpu m)
    else
      m_n (cpu m1) = Z.testbit value (sign_bit byte) /\
      m_v (cpu m1) = Z.testbit value (overflow_bit byte).
Proof.
  intros m. split; [simpl; auto|].
  apply (BIT_flags m 0x24). simpl; auto.
Defined.

(** C3 as stated fails: BIT #$C0 ($89 $C0) in 8-bit mode has an operand
    with bits 7 and 6 set and leaves N and V clear. *)
Lemma BIT_immediate_counterexample :
  let m := steps 1 (power_on (program [0x89; 0xC0])) in
  let m1 := exec RunOpcode m in
  m_mf (cpu m) = true /\
  last_operand true (log m1) = Some 0xC0 /\
  Z.testbit 0xC0 7 = true /\ m_n (cpu m1) = false /\
  Z.testbit 0xC0 6 = true /\ m_v (cpu m1) = false.
Proof. vm_compute. repeat split. Qed.

(** C4 as amended, at a program that starts with STP, followed by an NMI,
    a raised IRQ line and two more steps. *)
Lemma stp_stays_stopped_witness :
  let m := steps 1 (power_on (program [0xDB])) in
  let calls := [CallNmi; CallSetIrq true; CallRunOpcode; CallRunOpcode] in
  dispatches m 0xDB /\
  forallb (fun c => negb (is_reset c)) calls = true /\
  let m1 := do_calls calls (exec RunOpcode m) in
  m_stopped (cpu m1) = true /\
  forall hard, m_stopped (cpu (exec (Reset hard) m1)) = false.
Proof.
  intros m calls.
  assert (Hd : dispatches m 0xDB) by (repeat split; reflexivity).
  split; [exact Hd|]. split; [reflexivity|].
  apply (stp_stays_stopped m calls Hd). reflexivity.
Defined.

(** C4 as stated fails: after STP has stopped the CPU, [Reset(false)]
    clears the stopped state. *)
Lemma soft_reset_clears_stopped_counterexample :
  let m := steps 2 (power_on (program [0xDB])) in
  m_stopped (cpu m) = true /\
  m_stopped (cpu (exec (Reset false) m)) = false.
Proof. vm_compute. split; reflexivity. Qed.

(** C7 as amended, in 16-bit decimal mode: 0199 + 0911, SEC, - 0911. *)
Lemma adc_sec_sbc_roundtrip_witness :
  let m := decimal_machine in
  let byte := m_mf (cpu m) in
  let m1 := exec (Adc 0x10 0x11) m in
  let m2 := exec (Sbc 0x10 0x11) (exec (DoOpcode 0x38) m1) in
  m_c (cpu m) = false /\
  last_operand byte (log m1) = Some 0x0911 /\
  last_operand byte (log m2) = Some 0x0911 /\
  (m_d (cpu m) = true ->
   is_bcd byte (m_a (cpu m)) = true /\ is_bcd byte 0x0911 = true) /\
  Z.land (m_a (cpu m2)) (width_mask byte) = Z.land (m_a (cpu m)) (width_mask byte).
Proof.
  intros m byte m1 m2.
  assert (Hc : m_c (cpu m) = false) by reflexivity.
  assert (H1 : last_operand byte (log m1) = Some 0x0911) by reflexivity.
  assert (H2 : last_operand byte (log m2) = Some 0x0911) by reflexivity.
  assert (Hb : m_d (cpu m) = true ->
               is_bcd byte (m_a (cpu m)) = true /\ is_bcd byte 0x0911 = true)
    by (intros _; split; reflexivity).
  repeat (split; [assumption|]).
  exact (adc_sec_sbc_roundtrip m 0x10 0x11 0x10 0x11 0x0911 Hc H1 H2 Hb).
Defined.

(** C7 as stated fails when the carry is set before the ADC: with A = 0,
    operand 0 and C = 1 in 8-bit binary mode the sequence ends with
    A = 1. *)
Lemma adc_sec_sbc_carry_counterexample :
  let m := steps 2 (power_on (program [0x38])) in
  let m1 := exec (Adc 0x10 0x11) m in
  let m2 := exec (Sbc 0x10 0x11) (exec (DoOpcode 0x38) m1) in
  m_c (cpu m) = true /\ m_d (cpu m) = false /\ m_mf (cpu m) = true /\
  last_operand true (log m1) = Some 0 /\
  last_operand true (log m2) = Some 0 /\
  Z.land (m_a (cpu m)) 0xff = 0 /\
  Z.land (m_a (cpu m2)) 0xff = 1.
Proof. vm_compute. repeat split. Qed.

(** C2 fails on the code: from reset, LDX #$01 and JML $FF8000 lead to
    JMP ($FFFF,X) in bank $FF, whose pointer reads go to $1000000 and
    $1000001. *)
Theorem jmp_indexed_indirect_unmasked :
  let m := steps 3 (power_on jmp_ram) in
  let m1 := exec RunOpcode m in
  (m_k (cpu m) = 0xFF /\ m_x (cpu m) = 0x01 /\ dispatches m 0x7C) /\
  trace m1 = trace m ++ [EvRead 0xFF8000 0x7C; EvRead 0xFF8001 0xFF; EvRead 0xFF8002 0xFF;
                         EvIdle false; EvRead 0x1000000 0; EvRead 0x1000001 0] /\
  forallb address_masked (trace m) = true /\
  forallb address_masked (trace m1) = false.
Proof. vm_compute. repeat split. Qed.

(** ** Runs for the further properties *)

(** The invariant of a concrete register file. *)
Ltac concrete_invariant :=
  cbv [cpu_invariant wf_regs mode_invariant]; cbn;
  repeat match goal with
    | |- _ /\ _ => split
    | |- _ -> _ => intro
    end;
  first [lia | discriminate | reflexivity].

(** X1 on a concrete machine. *)
Lemma reachable_invariant_witness :
  let m := exec (do_call CallRunOpcode) (exec (do_call CallNmi) (power_on blank)) in
  reachable m /\ cpu_invariant (cpu m).
Proof.
  intros m.
  assert (Hr : reachable m)
    by exact (reachable_call _ CallRunOpcode
                (reachable_call _ CallNmi (reachable_power_on blank))).
  split; [exact Hr|]. apply (reachable_invariant m Hr).
Defined.

(** X2 on a concrete machine. *)
Lemma RunOpcode_masked_witness :
  let m := after_reset in
  cpu_invariant (cpu m) /\
  forallb address_masked (log m) = true /\
  forallb address_masked (log (exec RunOpcode m)) = true.
Proof.
  intros m.
  assert (Hinv : cpu_invariant (cpu m)) by concrete_invariant.
  split; [exact Hinv|]. split; [reflexivity|].
  apply (RunOpcode_masked m Hinv); [reflexivity|].
  intros opcode (_ & _ & _ & _ & Hop). vm_compute in Hop. subst opcode.
  split; discriminate.
Defined.

(** X3 on a concrete machine. *)
Lemma calls_masked_witness :
  let calls := [CallRunOpcode; CallRunOpcode; CallNmi; CallRunOpcode; CallRunOpcode] in
  let h := program [0xA9; 0x12; 0x8D; 0x00; 0x20] in
  avoids_indexed_jumps calls (power_on h) /\
  forallb address_masked (log (do_calls calls (power_on h))) = true.
Proof.
  intros calls h.
  assert (Hav : avoids_indexed_jumps calls (power_on h)).
  { subst calls. cbn [avoids_indexed_jumps].
    repeat match goal with
      | |- _ /\ _ => split
      | |- True => exact I
      | |- _ = CallRunOpcode -> _ =>
          intros Hcall opcode (_ & _ & _ & Hint & Hop);
          first [ discriminate Hcall | discriminate Hint
                | vm_compute in Hop; subst opcode; split; discriminate ]
      end. }
  split; [exact Hav|]. apply (calls_masked h calls Hav).
Defined.

(** X4 on a concrete machine. *)
Lemma push_pull_byte_witness :
  let m := after_reset in
  cpu_invariant (cpu m) /\
  eval (PushByte 0x1234 ;; PullByte) m = u8 0x1234 /\
  cpu (exec (PushByte 0x1234 ;; PullByte) m) = cpu m.
Proof.
  intros m. assert (Hinv : cpu_invariant (cpu m)) by concrete_invariant.
  split; [exact Hinv|]. apply (push_pull_byte m 0x1234 Hinv).
Defined.

(** X5 on a concrete machine. *)
Lemma push_pull_word_witness :
  let m := binary_machine in
  cpu_invariant (cpu m) /\
  let c := PushWord 0x12345 false ;; PullWord true in
  eval c m = u16 0x12345 /\ m_sp (cpu (exec c m)) = m_sp (cpu m).
Proof.
  intros m. assert (Hinv : cpu_invariant (cpu m)) by concrete_invariant.
  split; [exact Hinv|]. apply (push_pull_word m 0x12345 false true Hinv).
Defined.

(** X6 on a concrete machine. *)
Lemma jsr_rts_returns_witness :
  let m := after_reset in
  cpu_invariant (cpu m) /\
  let m1 := exec (DoOpcode 0x20 ;; DoOpcode 0x60) m in
  m_pc (cpu m1) = u16 (m_pc (cpu m) + 2) /\
  m_sp (cpu m1) = m_sp (cpu m) /\
  m_k (cpu m1) = m_k (cpu m).
Proof.
  intros m. assert (Hinv : cpu_invariant (cpu m)) by concrete_invariant.
  split; [exact Hinv|]. apply (jsr_rts_returns m Hinv).
Defined.

(** X7 on a concrete machine. *)
Lemma jsl_rtl_returns_witness :
  let m := binary_machine in
  cpu_invariant (cpu m) /\
  let m1 := exec (DoOpcode 0x22 ;; DoOpcode 0x6B) m in
  let above := stack_inc (m_e (cpu m)) (m_sp (cpu m)) in
  m_pc (cpu m1) = u16 (m_pc (cpu m) + 3) /\
  m_sp (cpu m1) = above /\
  m_k (cpu m1) = u8 (host m above).
Proof.
  intros m. assert (Hinv : cpu_invariant (cpu m)) by concrete_invariant.
  split; [exact Hinv|]. apply (jsl_rtl_returns m Hinv).
Defined.

(** X8 on a concrete machine. *)
Lemma php_plp_restores_witness :
  let m := decimal_machine in
  cpu_invariant (cpu m) /\
  let s := cpu m in
  cpu (exec (DoOpcode 0x08 ;; DoOpcode 0x28) m) =
  with_intWanted (m_nmiWanted s || (m_irqWanted s && negb (m_i s))) s.
Proof.
  intros m. assert (Hinv : cpu_invariant (cpu m)) by concrete_invariant.
  split; [exact Hinv|]. apply (php_plp_restores m Hinv).
Defined.

(** X9 on a concrete machine. *)
Lemma interrupt_rti_returns_witness :
  let m := exec Nmi binary_machine in
  cpu_invariant (cpu m) /\
  let s := cpu m in
  cpu (exec (DoInterrupt ;; DoOpcode 0x40) m) =
  with_xf (m_e s) (with_k (if m_e s then 0 else m_k s)
    (with_nmiWanted false (with_intWanted false s))).
Proof.
  intros m. assert (Hinv : cpu_invariant (cpu m)) by concrete_invariant.
  split; [exact Hinv|]. apply (interrupt_rti_returns m Hinv).
Defined.

(** X10 on a concrete machine. *)
Lemma cop_rti_returns_witness :
  let m := after_reset in
  cpu_invariant (cpu m) /\
  let s := cpu m in
  cpu (exec (DoOpcode 0x02 ;; DoOpcode 0x40) m) =
  with_pc (u16 (m_pc s + 1)) (with_k (if m_e s then 0 else m_k s)
    (with_intWanted (m_nmiWanted s) s)).
Proof.
  intros m. assert (Hinv : cpu_invariant (cpu m)) by concrete_invariant.
  split; [exact Hinv|]. apply (cop_rti_returns m Hinv).
Defined.

(** X11 on a concrete machine. *)
Lemma compare_flags_witness :
  let m := binary_machine in
  wf_regs (cpu m) /\
  let s := cpu m in
  (let m1 := exec (Cmp 0x10 0x11) m in
   exists value, last_operand (m_mf s) (log m1) = Some value /\
                 compared (m_mf s) (m_a s) (cpu m1) value) /\
  (let m1 := exec (Cpx 0x10 0x11) m in
   exists value, last_operand (m_xf s) (log m1) = Some value /\
                 compared (m_xf s) (m_x s) (cpu m1) value) /\
  (let m1 := exec (Cpy 0x10 0x11) m in
   exists value, last_operand (m_xf s) (log m1) = Some value /\
                 compared (m_xf s) (m_y s) (cpu m1) value).
Proof.
  intros m. assert (Hwf : wf_regs (cpu m)) by (cbv [wf_regs]; cbn; lia).
  split; [exact Hwf|]. apply (compare_flags m 0x10 0x11 Hwf).
Defined.

(** X12 on a concrete machine. *)
Lemma adc_binary_witness :
  let m := binary_machine in
  wf_regs (cpu m) /\ m_d (cpu m) = false /\
  let byte := m_mf (cpu m) in
  let r := Z.land (m_a (cpu m)) (width_mask byte) in
  let carry := Z.b2z (m_c (cpu m)) in
  let m1 := exec (Adc 0x10 0x11) m in
  exists value,
    last_operand byte (log m1) = Some value /\
    arithmetic byte (r + value + carry) (signed byte r + signed byte value + carry)
      (width_mask byte <? r + value + carry) (cpu m1).
Proof.
  intros m. assert (Hwf : wf_regs (cpu m)) by (cbv [wf_regs]; cbn; lia).
  split; [exact Hwf|]. split; [reflexivity|].
  apply (adc_binary m 0x10 0x11 Hwf). reflexivity.
Defined.

(** X13 on a concrete machine. *)
Lemma sbc_binary_witness :
  let m := binary_machine in
  wf_regs (cpu m) /\ m_d (cpu m) = false /\
  let byte := m_mf (cpu m) in
  let r := Z.land (m_a (cpu m)) (width_mask byte) in
  let borrow := 1 - Z.b2z (m_c (cpu m)) in
  let m1 := exec (Sbc 0x10 0x11) m in
  exists value,
    last_operand byte (log m1) = Some value /\
    arithmetic byte (r - value - borrow) (signed byte r - signed byte value - borrow)
      (0 <=? r - value - borrow) (cpu m1).
Proof.
  intros m. assert (Hwf : wf_regs (cpu m)) by (cbv [wf_regs]; cbn; lia).
  split; [exact Hwf|]. split; [reflexivity|].
  apply (sbc_binary m 0x10 0x11 Hwf). reflexivity.
Defined.

(** X14 on a concrete machine. *)
Lemma adc_decimal_witness :
  let m := decimal_machine in
  m_d (cpu m) = true /\
  let byte := m_mf (cpu m) in
  let m1 := exec (Adc 0x10 0x11) m in
  exists value,
    last_operand byte (log m1) = Some value /\
    (is_bcd byte (m_a (cpu m)) = true -> is_bcd byte value = true ->
     is_bcd byte (m_a (cpu m1)) = true /\
     bcd_value byte (m_a (cpu m1)) + bcd_modulus byte * Z.b2z (m_c (cpu m1))
     = bcd_value byte (m_a (cpu m)) + bcd_value byte value + Z.b2z (m_c (cpu m))).
Proof.
  intros m. split; [reflexivity|]. apply (adc_decimal m 0x10 0x11). reflexivity.
Defined.

(** X15 on a concrete machine. *)
Lemma sbc_decimal_witness :
  let m := decimal_machine in
  m_d (cpu m) = true /\
  let byte := m_mf (cpu m) in
  let m1 := exec (Sbc 0x10 0x11) m in
  exists value,
    last_operand byte (log m1) = Some value /\
    (is_bcd byte (m_a (cpu m)) = true -> is_bcd byte value = true ->
     is_bcd byte (m_a (cpu m1)) = true /\
     bcd_value byte (m_a (cpu m1)) - bcd_modulus byte * (1 - Z.b2z (m_c (cpu m1)))
     = bcd_value byte (m_a (cpu m)) - bcd_value byte value - (1 - Z.b2z (m_c (cpu m)))).
Proof.
  intros m. split; [reflexivity|]. apply (sbc_decimal m 0x10 0x11). reflexivity.
Defined.

(** X16 on a concrete machine. *)
Lemma wai_waits_witness :
  let m := after_reset in
  (m_resetWanted (cpu m) = false /\ m_stopped (cpu m) = false /\
   m_irqWanted (cpu m) = false /\ m_nmiWanted (cpu m) = false) /\
  let m1 := exec (DoOpcode 0xCB) m in
  m_waiting (cpu m1) = true /\
  cpu (steps 3 m1) = cpu m1 /\
  log (steps 3 m1) = repeat (EvIdle true) 3 ++ log m1.
Proof.
  intros m. split; [repeat split|].
  apply (wai_waits m 3); reflexivity.
Defined.

(** X17 on a concrete machine. *)
Lemma wai_wakes_witness :
  let m := exec Nmi (exec (DoOpcode 0xCB) after_reset) in
  (m_resetWanted (cpu m) = false /\ m_stopped (cpu m) = false /\
   m_waiting (cpu m) = true /\ m_irqWanted (cpu m) || m_nmiWanted (cpu m) = true) /\
  let s := cpu m in
  let m1 := exec RunOpcode m in
  cpu m1 = with_intWanted (m_nmiWanted s || (m_irqWanted s && negb (m_i s)))
             (with_waiting false s) /\
  log m1 = EvIdle false :: EvIdle false :: log m.
Proof.
  intros m. split; [repeat split|].
  apply (wai_wakes m); reflexivity.
Defined.

(** X18 on a concrete machine. *)
Lemma branch_target_witness :
  let m := branch_machine in
  branch_condition 0xD0 (cpu m) = Some true /\
  let s := cpu m in
  let m1 := exec (DoOpcode 0xD0) m in
  exists offset,
    log m1 = [EvIdle false]
             ++ EvRead (Z.lor (Z.shiftl (m_k s) 16) (m_pc s)) offset :: log m /\
    m_pc (cpu m1) = u16 (u16 (m_pc s + 1) + s8 offset) /\
    m_k (cpu m1) = m_k s.
Proof.
  intros m. split; [reflexivity|].
  apply (branch_target m 0xD0 true). reflexivity.
Defined.

(** X19 on a concrete machine. *)
Lemma sep_rep_flags_witness :
  let m := binary_machine in
  cpu_invariant (cpu m) /\
  let s := cpu m in
  let f := eval GetFlags m in
  let operand := Z.lor (Z.shiftl (m_k s) 16) (m_pc s) in
  (let m1 := exec (DoOpcode 0xE2) m in
   exists value,
     log m1 = EvIdle false :: EvRead operand value :: log m /\
     eval GetFlags m1 = Z.lor f value) /\
  (let m1 := exec (DoOpcode 0xC2) m in
   exists value,
     log m1 = EvIdle false :: EvRead operand value :: log m /\
     eval GetFlags m1 =
       if m_e s then Z.lor (Z.land f (Z.lnot value)) 0x30 else Z.land f (Z.lnot value)).
Proof.
  intros m. assert (Hinv : cpu_invariant (cpu m)) by concrete_invariant.
  split; [exact Hinv|]. apply (sep_rep_flags m Hinv).
Defined.

(** X20 on a concrete machine. *)
Lemma store_load_roundtrip_witness :
  let m := binary_machine in
  cpu_invariant (cpu m) /\ 0x2000 <> 0x2001 /\
  let s := cpu m in
  (let s1 := cpu (exec (Sta 0x2000 0x2001 ;; Lda 0x2000 0x2001) m) in
   reloaded (m_mf s) (m_a s) (m_a s1) s1) /\
  (let s1 := cpu (exec (Stx 0x2000 0x2001 ;; Ldx 0x2000 0x2001) m) in
   reloaded (m_xf s) (m_x s) (m_x s1) s1) /\
  (let s1 := cpu (exec (Sty 0x2000 0x2001 ;; Ldy 0x2000 0x2001) m) in
   reloaded (m_xf s) (m_y s) (m_y s1) s1).
Proof.
  intros m. assert (Hinv : cpu_invariant (cpu m)) by concrete_invariant.
  assert (Hne : 0x2000 <> 0x2001) by lia.
  split; [exact Hinv|]. split; [exact Hne|].
  apply (store_load_roundtrip m 0x2000 0x2001 Hinv Hne).
Defined.

(** X21 on a concrete machine. *)
Lemma block_move_step_witness :
  let m := binary_machine in
  In 0x54 [0x44; 0x54] /\ wf_regs (cpu m) /\
  let s := cpu m in
  let m1 := exec (DoOpcode 0x54) m in
  exists dest src value,
    log m1 = EvIdle false :: EvIdle false
             :: EvWrite (Z.lor (Z.shiftl dest 16) (m_y s)) value
             :: EvRead (Z.lor (Z.shiftl src 16) (m_x s)) value
             :: EvRead (Z.lor (Z.shiftl (m_k s) 16) (u16 (m_pc s + 1))) src
             :: EvRead (Z.lor (Z.shiftl (m_k s) 16) (m_pc s)) dest :: log m /\
    m_db (cpu m1) = dest /\
    m_a (cpu m1) = u16 (m_a s - 1) /\
    m_x (cpu m1) = (m_x s + 1) mod 65536 /\
    m_y (cpu m1) = (m_y s + 1) mod 65536 /\
    m_pc (cpu m1) = u16 (m_pc s - 1).
Proof.
  intros m. assert (Hin : In 0x54 [0x44; 0x54]) by (right; left; reflexivity).
  assert (Hwf : wf_regs (cpu m)) by (cbv [wf_regs]; cbn; lia).
  split; [exact Hin|]. split; [exact Hwf|].
  apply (block_move_step m 0x54 Hin Hwf).
Defined.

(** X22 on a concrete machine. *)
Lemma address_pairs_witness :
  let m := binary_machine in
  cpu_invariant (cpu m) /\
  address_pair 0x10000 (eval AdrDpx m) /\
  address_pair 0x1000000 (eval (AdrAbx false) m).
Proof.
  intros m. assert (Hinv : cpu_invariant (cpu m)) by concrete_invariant.
  split; [exact Hinv|].
  destruct (address_pairs m Hinv) as [Hbank Hlong].
  split; [apply Hbank | apply Hlong]; cbn [In]; tauto.
Defined.

(** X23 on a concrete machine. *)
Lemma mode_flags_change_only_by_witness :
  let m := byte_machine in
  let opcode := 0x18 in
  0 <= opcode <= 255 /\
  let s := cpu m in
  let s1 := cpu (exec (DoOpcode opcode) m) in
  (opcode <> 0xFB -> m_e s1 = m_e s) /\
  (~ In opcode [0x28; 0x40; 0xC2; 0xE2; 0xFB] -> m_mf s1 = m_mf s /\ m_xf s1 = m_xf s) /\
  (~ In opcode [0x00; 0x02; 0x28; 0x40; 0xC2; 0xD8; 0xE2; 0xF8] -> m_d s1 = m_d s) /\
  (~ In opcode [0x00; 0x02; 0x28; 0x40; 0x58; 0x78; 0xC2; 0xE2] -> m_i s1 = m_i s).
Proof.
  intros m opcode. assert (Hop : 0 <= opcode <= 255) by (subst opcode; lia).
  split; [exact Hop|]. apply (mode_flags_change_only_by m opcode Hop).
Defined.

(** X24 on a concrete machine. *)
Lemma run_state_changes_only_by_witness :
  let m := byte_machine in
  let opcode := 0xCB in
  0 <= opcode <= 255 /\
  let s := cpu m in
  let s1 := cpu (exec (DoOpcode opcode) m) in
  (opcode <> 0xDB -> m_stopped s1 = m_stopped s) /\
  (opcode <> 0xCB -> m_waiting s1 = m_waiting s) /\
  m_irqWanted s1 = m_irqWanted s /\
  m_nmiWanted s1 = m_nmiWanted s /\
  m_resetWanted s1 = m_resetWanted s.
Proof.
  intros m opcode. assert (Hop : 0 <= opcode <= 255) by (subst opcode; lia).
  split; [exact Hop|]. apply (run_state_changes_only_by m opcode Hop).
Defined.

(** X25 on a concrete machine. *)
Lemma bank_registers_change_only_by_witness :
  let m := binary_machine in
  let opcode := 0x4C in
  0 <= opcode <= 255 /\
  let s := cpu m in
  let s1 := cpu (exec (DoOpcode opcode) m) in
  (~ In opcode [0x00; 0x02; 0x22; 0x40; 0x5C; 0x6B; 0xDC] -> m_k s1 = m_k s) /\
  (~ In opcode [0x44; 0x54; 0xAB] -> m_db s1 = m_db s) /\
  (~ In opcode [0x2B; 0x5B] -> m_dp s1 = m_dp s).
Proof.
  intros m opcode. assert (Hop : 0 <= opcode <= 255) by (subst opcode; lia).
  split; [exact Hop|]. apply (bank_registers_change_only_by m opcode Hop).
Defined.

(** X26 on a concrete machine. *)
Lemma accumulator_high_byte_kept_witness :
  let m := byte_machine in
  let opcode := 0x1A in
  0 <= opcode <= 255 /\ m_mf (cpu m) = true /\
  ~ In opcode [0x3B; 0x44; 0x54; 0x7B; 0xEB] /\
  Z.land (m_a (cpu (exec (DoOpcode opcode) m))) 0xFF00 = Z.land (m_a (cpu m)) 0xFF00.
Proof.
  intros m opcode. assert (Hop : 0 <= opcode <= 255) by (subst opcode; lia).
  assert (Hn : ~ In opcode [0x3B; 0x44; 0x54; 0x7B; 0xEB])
    by (subst opcode; cbn [In]; intuition discriminate).
  split; [exact Hop|]. split; [reflexivity|]. split; [exact Hn|].
  apply (accumulator_high_byte_kept m opcode Hop eq_refl Hn).
Defined.

(** X27 on a concrete machine. *)
Lemma push_pull_registers_witness :
  let m := binary_machine in
  cpu_invariant (cpu m) /\
  let s := cpu m in
  let after (push pull : Z) := cpu (exec (DoOpcode push ;; DoOpcode pull) m) in
  (let s1 := after 0x48 0x68 in reloaded (m_mf s) (m_a s) (m_a s1) s1 /\ m_sp s1 = m_sp s) /\
  (let s1 := after 0xDA 0xFA in reloaded (m_xf s) (m_x s) (m_x s1) s1 /\ m_sp s1 = m_sp s) /\
  (let s1 := after 0x5A 0x7A in reloaded (m_xf s) (m_y s) (m_y s1) s1 /\ m_sp s1 = m_sp s) /\
  (let s1 := after 0x8B 0xAB in reloaded true (m_db s) (m_db s1) s1 /\ m_sp s1 = m_sp s) /\
  (let s1 := after 0x0B 0x2B in reloaded false (m_dp s) (m_dp s1) s1 /\ m_sp s1 = m_sp s).
Proof.
  intros m. assert (Hinv : cpu_invariant (cpu m)) by concrete_invariant.
  split; [exact Hinv|]. apply (push_pull_registers m Hinv).
Defined.

(** X28 on a concrete machine. *)
Lemma increment_decrement_witness :
  let m := byte_machine in
  cpu_invariant (cpu m) /\
  let s := cpu m in
  let after (first second : Z) := cpu (exec (DoOpcode first ;; DoOpcode second) m) in
  (let s1 := after 0x1A 0x3A in reloaded (m_mf s) (m_a s) (m_a s1) s1) /\
  (let s1 := after 0x3A 0x1A in reloaded (m_mf s) (m_a s) (m_a s1) s1) /\
  (let s1 := after 0xE8 0xCA in reloaded (m_xf s) (m_x s) (m_x s1) s1) /\
  (let s1 := after 0xCA 0xE8 in reloaded (m_xf s) (m_x s) (m_x s1) s1) /\
  (let s1 := after 0xC8 0x88 in reloaded (m_xf s) (m_y s) (m_y s1) s1) /\
  (let s1 := after 0x88 0xC8 in reloaded (m_xf s) (m_y s) (m_y s1) s1).
Proof.
  intros m. assert (Hinv : cpu_invariant (cpu m)) by concrete_invariant.
  split; [exact Hinv|]. apply (increment_decrement m Hinv).
Defined.

(** X29 on a concrete machine. *)
Lemma xba_swaps_witness :
  let m := byte_machine in
  wf_regs (cpu m) /\
  let s := cpu m in
  let s1 := cpu (exec (DoOpcode 0xEB) m) in
  m_a s1 = 256 * (m_a s mod 256) + m_a s / 256 /\
  m_z s1 = (m_a s / 256 =? 0) /\
  m_n s1 = (128 <=? m_a s / 256) /\
  m_a (cpu (exec (DoOpcode 0xEB ;; DoOpcode 0xEB) m)) = m_a s.
Proof.
  intros m. assert (Hwf : wf_regs (cpu m)) by (cbv [wf_regs]; cbn; lia).
  split; [exact Hwf|]. apply (xba_swaps m Hwf).
Defined.

(** X30 on a concrete machine. *)
Lemma xce_twice_witness :
  let m := after_reset in
  let s := cpu m in
  cpu_invariant s /\ m_e s = true /\
  cpu (exec (DoOpcode 0xFB ;; DoOpcode 0xFB) m) =
  with_intWanted (m_nmiWanted s || (m_irqWanted s && negb (m_i s))) s.
Proof.
  intros m s. assert (Hinv : cpu_invariant s) by (subst s m; concrete_invariant).
  split; [exact Hinv|]. split; [reflexivity|].
  apply (proj1 (xce_twice m Hinv)). left. reflexivity.
Defined.
